(** * GPU discovery through libcudart / libnvidia-ml (gpu/gpu_info_cuda.c)

    A shallow embedding of [cuda_init], [cuda_check_vram] and
    [cuda_compute_capability], and the properties of the three operations.

    - C integers are [Z] with the wrap-around of their type written out.
    - A pointer that may be NULL is an [option]; [char *] is [option string].
    - The dynamic loader and the code behind the resolved function pointers
      are the environment: a record of transition functions on a world [W].
    - Every call into the environment is recorded in a trace. *)

From Stdlib Require Import ZArith List String Ascii Bool Lia.
Import ListNotations.

Local Open Scope string_scope.
Local Open Scope Z_scope.

(** ** Text: formatting into a bounded buffer *)

Module Text.

(** [s] occurs somewhere inside [t]. *)
Definition contains (s t : string) : Prop :=
  exists pre post, t = pre ++ s ++ post.

(** The first [n] characters of [s]. *)
Fixpoint truncate (n : nat) (s : string) : string :=
  match n, s with
  | S n', String c s' => String c (truncate n' s')
  | _, _ => EmptyString
  end.

(** [snprintf(buf, size, ...)] keeps at most [size - 1] characters of the
    formatted text (the last byte is the terminator). *)
Definition snprintf (size : nat) (formatted : string) : string :=
  truncate (size - 1) formatted.

Definition digit (d : Z) : ascii := ascii_of_nat (48 + Z.to_nat d).

(** Decimal digits of a non-negative number, most significant first. *)
Fixpoint fmt_u_aux (fuel : nat) (n : Z) (acc : string) : string :=
  match fuel with
  | O => acc
  | S fuel' =>
      let acc' := String (digit (n mod 10)) acc in
      if n / 10 =? 0 then acc' else fmt_u_aux fuel' (n / 10) acc'
  end.

Definition fmt_u (n : Z) : string :=
  fmt_u_aux (S (Z.to_nat (Z.log2 n))) n EmptyString.

(** The conversion [%d]. *)
Definition fmt_d (z : Z) : string :=
  if z <? 0 then String "-" (fmt_u (- z)) else fmt_u z.

End Text.

(** ** Machine integers *)

(** The value of [z] read as [unsigned int]. *)
Definition to_uint (z : Z) : Z := z mod 2 ^ 32.

(** The value of [z] read as [int] (two's complement). *)
Definition to_int (z : Z) : Z := (z + 2 ^ 31) mod 2 ^ 32 - 2 ^ 31.

(** The value of [z] read as [unsigned long long] / [uint64_t]. *)
Definition to_u64 (z : Z) : Z := z mod 2 ^ 64.

(** ** gpu_info_cuda.h *)

Definition nvmlReturn_t := Z.
Definition NVML_SUCCESS : nvmlReturn_t := 0.

Definition cudartReturn_t := Z.
Definition CUDART_SUCCESS : cudartReturn_t := 0.

Inductive cudaLibraryType_t := LIBUNKNOWN | LIBCUDART | LIBNVIDIAML.

(** The enumerator's value, as [%d] prints it. *)
Definition lib_t_value (t : cudaLibraryType_t) : Z :=
  match t with LIBUNKNOWN => 0 | LIBCUDART => 1 | LIBNVIDIAML => 2 end.

Definition cudaDevAttrComputeCapabilityMajor : Z := 75.
Definition cudaDevAttrComputeCapabilityMinor : Z := 76.

(** A non-null address. A [void *] or a function pointer is an
    [option address], NULL being [None]. *)
Definition address := positive.

(** [typedef void *nvmlDevice_t]: opaque, only handed back to the library. *)
Definition nvmlDevice_t := Z.

Record nvmlMemory_t := {
  nvml_total : Z;
  nvml_free : Z;
  nvml_used : Z
}.

Record cuda_handle_t := {
  handle : option address;
  verbose : Z;
  lib_t : cudaLibraryType_t;
  nvmlInit_v2 : option address;
  nvmlShutdown : option address;
  nvmlDeviceGetHandleByIndex : option address;
  nvmlDeviceGetMemoryInfo : option address;
  nvmlDeviceGetCount_v2 : option address;
  nvmlDeviceGetCudaComputeCapability : option address;
  nvmlSystemGetDriverVersion : option address;
  nvmlDeviceGetName : option address;
  nvmlDeviceGetSerial : option address;
  nvmlDeviceGetVbiosVersion : option address;
  nvmlDeviceGetBoardPartNumber : option address;
  nvmlDeviceGetBrand : option address;
  cudaSetDevice : option address;
  cudaDeviceReset : option address;
  cudaMemGetInfo : option address;
  cudaGetDeviceCount : option address;
  cudaDeviceGetAttribute : option address;
  cudaDriverGetVersion : option address
}.

Record cuda_init_resp_t := {
  init_err : option string;
  ch : cuda_handle_t
}.

Record cuda_compute_capability_t := {
  cc_err : option string;
  major : Z;
  minor : Z
}.

(** Modelled from the spec: [mem_info_t] is declared in gpu_info.h, of which
    only the include line is known. The aggregate memory result is
    [{device_count, total_memory, free_memory, error}], the two byte counts
    being unsigned 64-bit numbers; [count] receives the answer of
    [nvmlDeviceGetCount_v2] ([unsigned int *]) and is read as unsigned. *)
Record mem_info_t := {
  total : Z;
  free : Z;
  count : Z;
  mem_err : option string
}.

(** *** Field updates *)

Definition set_total (v : Z) (r : mem_info_t) : mem_info_t :=
  {| total := v; free := free r; count := count r; mem_err := mem_err r |}.
Definition set_free (v : Z) (r : mem_info_t) : mem_info_t :=
  {| total := total r; free := v; count := count r; mem_err := mem_err r |}.
Definition set_count (v : Z) (r : mem_info_t) : mem_info_t :=
  {| total := total r; free := free r; count := v; mem_err := mem_err r |}.
Definition set_mem_err (v : option string) (r : mem_info_t) : mem_info_t :=
  {| total := total r; free := free r; count := count r; mem_err := v |}.

Definition set_cc_err (v : option string) (r : cuda_compute_capability_t) :=
  {| cc_err := v; major := major r; minor := minor r |}.
Definition set_major (v : Z) (r : cuda_compute_capability_t) :=
  {| cc_err := cc_err r; major := v; minor := minor r |}.
Definition set_minor (v : Z) (r : cuda_compute_capability_t) :=
  {| cc_err := cc_err r; major := major r; minor := v |}.

(** The function-pointer fields of [cuda_handle_t]; [&resp->ch.f] in the
    lookup table of [cuda_init] is the field [f] of this type. *)
Inductive field :=
| F_nvmlInit_v2 | F_nvmlShutdown | F_nvmlDeviceGetHandleByIndex
| F_nvmlDeviceGetMemoryInfo | F_nvmlDeviceGetCount_v2
| F_nvmlDeviceGetCudaComputeCapability | F_nvmlSystemGetDriverVersion
| F_nvmlDeviceGetName | F_nvmlDeviceGetSerial | F_nvmlDeviceGetVbiosVersion
| F_nvmlDeviceGetBoardPartNumber | F_nvmlDeviceGetBrand
| F_cudaSetDevice | F_cudaDeviceReset | F_cudaMemGetInfo
| F_cudaGetDeviceCount | F_cudaDeviceGetAttribute | F_cudaDriverGetVersion.

Definition field_eq_dec (a b : field) : {a = b} + {a <> b}.
Proof. decide equality. Defined.

(** Reading a function pointer through the address of its field. *)
Definition load (f : field) (h : cuda_handle_t) : option address :=
  match f with
  | F_nvmlInit_v2 => nvmlInit_v2 h
  | F_nvmlShutdown => nvmlShutdown h
  | F_nvmlDeviceGetHandleByIndex => nvmlDeviceGetHandleByIndex h
  | F_nvmlDeviceGetMemoryInfo => nvmlDeviceGetMemoryInfo h
  | F_nvmlDeviceGetCount_v2 => nvmlDeviceGetCount_v2 h
  | F_nvmlDeviceGetCudaComputeCapability => nvmlDeviceGetCudaComputeCapability h
  | F_nvmlSystemGetDriverVersion => nvmlSystemGetDriverVersion h
  | F_nvmlDeviceGetName => nvmlDeviceGetName h
  | F_nvmlDeviceGetSerial => nvmlDeviceGetSerial h
  | F_nvmlDeviceGetVbiosVersion => nvmlDeviceGetVbiosVersion h
  | F_nvmlDeviceGetBoardPartNumber => nvmlDeviceGetBoardPartNumber h
  | F_nvmlDeviceGetBrand => nvmlDeviceGetBrand h
  | F_cudaSetDevice => cudaSetDevice h
  | F_cudaDeviceReset => cudaDeviceReset h
  | F_cudaMemGetInfo => cudaMemGetInfo h
  | F_cudaGetDeviceCount => cudaGetDeviceCount h
  | F_cudaDeviceGetAttribute => cudaDeviceGetAttribute h
  | F_cudaDriverGetVersion => cudaDriverGetVersion h
  end.

(** A handle with the given library reference, verbosity, tag and table. *)
Definition make_handle (lib : option address) (v : Z) (t : cudaLibraryType_t)
    (tbl : field -> option address) : cuda_handle_t :=
  {| handle := lib; verbose := v; lib_t := t;
     nvmlInit_v2 := tbl F_nvmlInit_v2;
     nvmlShutdown := tbl F_nvmlShutdown;
     nvmlDeviceGetHandleByIndex := tbl F_nvmlDeviceGetHandleByIndex;
     nvmlDeviceGetMemoryInfo := tbl F_nvmlDeviceGetMemoryInfo;
     nvmlDeviceGetCount_v2 := tbl F_nvmlDeviceGetCount_v2;
     nvmlDeviceGetCudaComputeCapability := tbl F_nvmlDeviceGetCudaComputeCapability;
     nvmlSystemGetDriverVersion := tbl F_nvmlSystemGetDriverVersion;
     nvmlDeviceGetName := tbl F_nvmlDeviceGetName;
     nvmlDeviceGetSerial := tbl F_nvmlDeviceGetSerial;
     nvmlDeviceGetVbiosVersion := tbl F_nvmlDeviceGetVbiosVersion;
     nvmlDeviceGetBoardPartNumber := tbl F_nvmlDeviceGetBoardPartNumber;
     nvmlDeviceGetBrand := tbl F_nvmlDeviceGetBrand;
     cudaSetDevice := tbl F_cudaSetDevice;
     cudaDeviceReset := tbl F_cudaDeviceReset;
     cudaMemGetInfo := tbl F_cudaMemGetInfo;
     cudaGetDeviceCount := tbl F_cudaGetDeviceCount;
     cudaDeviceGetAttribute := tbl F_cudaDeviceGetAttribute;
     cudaDriverGetVersion := tbl F_cudaDriverGetVersion |}.

(** Writing a function pointer through the address of its field. *)
Definition store (f : field) (v : option address) (h : cuda_handle_t)
  : cuda_handle_t :=
  make_handle (handle h) (verbose h) (lib_t h)
    (fun g => if field_eq_dec f g then v else load g h).

Definition set_handle (lib : option address) (h : cuda_handle_t) :=
  make_handle lib (verbose h) (lib_t h) (fun g => load g h).
Definition set_lib_t (t : cudaLibraryType_t) (h : cuda_handle_t) :=
  make_handle (handle h) (verbose h) t (fun g => load g h).

Definition set_init_err (v : option string) (r : cuda_init_resp_t) :=
  {| init_err := v; ch := ch r |}.
Definition set_ch (h : cuda_handle_t) (r : cuda_init_resp_t) :=
  {| init_err := init_err r; ch := h |}.

(** ** The environment *)

(** What the program asks of the outside, in order. *)
Inductive event :=
| EvLoadLibrary (path : string)
| EvLoadSymbol (lib : option address) (name : string)
| EvLoadErr
| EvUnloadLibrary (lib : option address)
| EvCall (name : string) (fn : address).

(** The dynamic loader ([LOAD_LIBRARY], [LOAD_SYMBOL], [LOAD_ERR] and
    [UNLOAD_LIBRARY] are macros of gpu_info.h over dlopen, dlsym, dlerror
    and dlclose) and the code behind each function pointer, by the type of
    the field it is called through. A pointer parameter that receives a
    result is part of the answer, a value of the parameter's C type.
    Resolving a symbol reads the world and leaves it as it is. *)
Record Env (W : Type) := {
  LOAD_LIBRARY : string -> W -> option address * W;
  LOAD_SYMBOL : option address -> string -> W -> option address;
  LOAD_ERR : W -> string * W;
  UNLOAD_LIBRARY : option address -> W -> W;
  run_nvmlInit_v2 : address -> W -> nvmlReturn_t * W;
  run_nvmlDeviceGetHandleByIndex :
    address -> Z -> W -> (nvmlReturn_t * nvmlDevice_t) * W;
  run_nvmlDeviceGetMemoryInfo :
    address -> nvmlDevice_t -> W -> (nvmlReturn_t * nvmlMemory_t) * W;
  run_nvmlDeviceGetCount_v2 : address -> W -> (nvmlReturn_t * Z) * W;
  run_nvmlDeviceGetCudaComputeCapability :
    address -> nvmlDevice_t -> W -> (nvmlReturn_t * (Z * Z)) * W;
  run_nvmlSystemGetDriverVersion :
    address -> Z -> W -> (nvmlReturn_t * string) * W;
  (** [nvmlDeviceGetName], [nvmlDeviceGetSerial], [nvmlDeviceGetVbiosVersion]
      and [nvmlDeviceGetBoardPartNumber] share one type. *)
  run_nvmlDeviceGetText :
    address -> nvmlDevice_t -> Z -> W -> (nvmlReturn_t * string) * W;
  run_nvmlDeviceGetBrand :
    address -> nvmlDevice_t -> W -> (nvmlReturn_t * Z) * W;
  run_cudaSetDevice : address -> Z -> W -> cudartReturn_t * W;
  (** The answer is [(free, total)], in the order of the parameters. *)
  run_cudaMemGetInfo : address -> W -> (cudartReturn_t * (Z * Z)) * W;
  run_cudaGetDeviceCount : address -> W -> (cudartReturn_t * Z) * W;
  run_cudaDeviceGetAttribute :
    address -> Z -> Z -> W -> (cudartReturn_t * Z) * W;
  run_cudaDriverGetVersion : address -> W -> (cudartReturn_t * Z) * W
}.

Arguments LOAD_LIBRARY {W}.
Arguments LOAD_SYMBOL {W}.
Arguments LOAD_ERR {W}.
Arguments UNLOAD_LIBRARY {W}.
Arguments run_nvmlInit_v2 {W}.
Arguments run_nvmlDeviceGetHandleByIndex {W}.
Arguments run_nvmlDeviceGetMemoryInfo {W}.
Arguments run_nvmlDeviceGetCount_v2 {W}.
Arguments run_nvmlDeviceGetCudaComputeCapability {W}.
Arguments run_nvmlSystemGetDriverVersion {W}.
Arguments run_nvmlDeviceGetText {W}.
Arguments run_nvmlDeviceGetBrand {W}.
Arguments run_cudaSetDevice {W}.
Arguments run_cudaMemGetInfo {W}.
Arguments run_cudaGetDeviceCount {W}.
Arguments run_cudaDeviceGetAttribute {W}.
Arguments run_cudaDriverGetVersion {W}.

(** The world and the calls made so far, oldest first. *)
Record state (W : Type) := {
  world : W;
  trace : list event
}.
Arguments world {W}.
Arguments trace {W}.

(** A run either ends with a value in a state, or does something the C
    standard leaves undefined (here: a call or a store through NULL). *)
Inductive outcome (W A : Type) :=
| Done (a : A) (st : state W)
| Undefined.
Arguments Done {W A}.
Arguments Undefined {W A}.

Definition M (W A : Type) := state W -> outcome W A.

Definition ret {W A} (a : A) : M W A := fun st => Done a st.

Definition bind {W A B} (m : M W A) (k : A -> M W B) : M W B :=
  fun st => match m st with
            | Done a st' => k a st'
            | Undefined => Undefined
            end.

Definition undefined {W A} : M W A := fun _ => Undefined.

Notation "x <- m ;; k" := (bind m (fun x => k))
  (at level 61, m at next level, right associativity).
Notation "' pat <- m ;; k" := (bind m (fun x => match x with pat => k end))
  (at level 61, pat pattern, m at next level, right associativity).
Notation "m ;;; k" := (bind m (fun _ => k))
  (at level 61, right associativity).

(** How a block of a function's body ends: by [return], or by falling
    through to the statement after it. *)
Inductive flow (A : Type) :=
| Return (a : A)
| Next (a : A).
Arguments Return {A}.
Arguments Next {A}.

(** ** The program *)

Section Program.

Context {W : Type} (env : Env W).

Local Abbreviation M := (M W).

(** *** Calls into the environment *)

Definition record (e : event) (w : W) (st : state W) : state W :=
  {| world := w; trace := (trace st ++ [e])%list |}.

Definition load_library (path : string) : M (option address) :=
  fun st => let (lib, w) := LOAD_LIBRARY env path (world st) in
            Done lib (record (EvLoadLibrary path) w st).

Definition load_symbol (lib : option address) (name : string)
  : M (option address) :=
  fun st => Done (LOAD_SYMBOL env lib name (world st))
                 (record (EvLoadSymbol lib name) (world st) st).

Definition load_err : M string :=
  fun st => let (msg, w) := LOAD_ERR env (world st) in
            Done msg (record EvLoadErr w st).

(** [UNLOAD_LIBRARY(lib)]. The call is the loader's, also when [lib] is
    NULL (lines 64 and 126 hand it the reference they have just cleared):
    the run goes on as with a loader that returns from it. *)
Definition unload_library (lib : option address) : M unit :=
  fun st => Done tt (record (EvUnloadLibrary lib)
                            (UNLOAD_LIBRARY env lib (world st)) st).

(** A call through the function pointer [fn] held in the field [name]
    of the handle; calling through NULL is undefined. *)
Definition call {A} (name : string) (fn : option address)
    (run : address -> W -> A * W) : M A :=
  fun st => match fn with
            | None => Undefined
            | Some f => let (a, w) := run f (world st) in
                        Done a (record (EvCall name f) w st)
            end.

(** [const int buflen = 256]. *)
Definition buflen : nat := 256.

(** [LOG(verbose, ...)] prints to stderr when [verbose] is set. It reads
    and writes nothing of the program's and is left out. [strdup] is taken
    to succeed. *)

(** *** cuda_init *)

Record lookup := {
  s : option string;
  p : option field
}.

Definition l : list lookup :=
  [ {| s := Some "nvmlInit_v2"; p := Some F_nvmlInit_v2 |};
    {| s := Some "nvmlShutdown"; p := Some F_nvmlShutdown |};
    {| s := Some "nvmlDeviceGetHandleByIndex"; p := Some F_nvmlDeviceGetHandleByIndex |};
    {| s := Some "nvmlDeviceGetMemoryInfo"; p := Some F_nvmlDeviceGetMemoryInfo |};
    {| s := Some "nvmlDeviceGetCount_v2"; p := Some F_nvmlDeviceGetCount_v2 |};
    {| s := Some "nvmlDeviceGetCudaComputeCapability"; p := Some F_nvmlDeviceGetCudaComputeCapability |};
    {| s := Some "nvmlSystemGetDriverVersion"; p := Some F_nvmlSystemGetDriverVersion |};
    {| s := Some "nvmlDeviceGetName"; p := Some F_nvmlDeviceGetName |};
    {| s := Some "nvmlDeviceGetSerial"; p := Some F_nvmlDeviceGetSerial |};
    {| s := Some "nvmlDeviceGetVbiosVersion"; p := Some F_nvmlDeviceGetVbiosVersion |};
    {| s := Some "nvmlDeviceGetBoardPartNumber"; p := Some F_nvmlDeviceGetBoardPartNumber |};
    {| s := Some "nvmlDeviceGetBrand"; p := Some F_nvmlDeviceGetBrand |};
    {| s := Some "cudaSetDevice"; p := Some F_cudaSetDevice |};
    {| s := Some "cudaDeviceReset"; p := Some F_cudaDeviceReset |};
    {| s := Some "cudaMemGetInfo"; p := Some F_cudaMemGetInfo |};
    {| s := Some "cudaGetDeviceCount"; p := Some F_cudaGetDeviceCount |};
    {| s := Some "cudaDeviceGetAttribute"; p := Some F_cudaDeviceGetAttribute |};
    {| s := Some "cudaDriverGetVersion"; p := Some F_cudaDriverGetVersion |};
    {| s := None; p := None |} ]%list.

(** [*q = v] for [q] the address of a field of [resp->ch], or NULL. *)
Definition store_through (q : option field) (v : option address)
    (resp : cuda_init_resp_t) : M cuda_init_resp_t :=
  match q with
  | None => undefined
  | Some f => ret (set_ch (store f v (ch resp)) resp)
  end.

(** [!q] for a pointer [q]. *)
Definition is_null {A} (q : option A) : bool :=
  match q with None => true | Some _ => false end.

(** Lines 55-71: [for (i = 0; l[i].s != NULL; i++)] over the entries from
    [l[i]] on. The test after the store is on [l[i].p], the address of the
    field, as in the source. *)
Fixpoint wire_symbols (entries : list lookup) (resp : cuda_init_resp_t)
  : M (flow cuda_init_resp_t) :=
  match entries with
  | nil => undefined
  | e :: rest =>
      match s e with
      | None => ret (Next resp)
      | Some name =>
          sym <- load_symbol (handle (ch resp)) name ;;
          resp <- store_through (p e) sym resp ;;
          if is_null (p e) then
            let resp := set_ch (set_handle None (ch resp)) resp in
            msg <- load_err ;;
            unload_library (handle (ch resp)) ;;;
            let buf := Text.snprintf buflen
                         ("symbol lookup for " ++ name ++ " failed: " ++ msg) in
            ret (Return (set_init_err (Some buf) resp))
          else wire_symbols rest resp
      end
  end.

(** Lines 76-99: "Trying libcudart.so first, fallback to nvml". *)
Definition activate (resp : cuda_init_resp_t) : M (flow cuda_init_resp_t) :=
  if negb (is_null (cudaSetDevice (ch resp))) then
    cudart_ret <- call "cudaSetDevice" (cudaSetDevice (ch resp))
                       (fun f => run_cudaSetDevice env f 0) ;;
    if negb (cudart_ret =? CUDART_SUCCESS) then
      unload_library (handle (ch resp)) ;;;
      let resp := set_ch (set_handle None (ch resp)) resp in
      let buf := Text.snprintf buflen
                   ("cudart vram init failure: " ++ Text.fmt_d cudart_ret) in
      ret (Return (set_init_err (Some buf) resp))
    else ret (Next (set_ch (set_lib_t LIBCUDART (ch resp)) resp))
  else if negb (is_null (nvmlInit_v2 (ch resp))) then
    nvml_ret <- call "nvmlInit_v2" (nvmlInit_v2 (ch resp))
                     (fun f => run_nvmlInit_v2 env f) ;;
    if negb (nvml_ret =? NVML_SUCCESS) then
      unload_library (handle (ch resp)) ;;;
      let resp := set_ch (set_handle None (ch resp)) resp in
      let buf := Text.snprintf buflen
                   ("nvml vram init failure: nvml error " ++ Text.fmt_d nvml_ret) in
      ret (Return (set_init_err (Some buf) resp))
    else ret (Next (set_ch (set_lib_t LIBNVIDIAML (ch resp)) resp))
  else ret (Next resp).

(** Lines 123-129: the [default] label of the switch. *)
Definition report_default (resp : cuda_init_resp_t) : M cuda_init_resp_t :=
  let resp := set_ch (set_handle None (ch resp)) resp in
  unload_library (handle (ch resp)) ;;;
  let buf := Text.snprintf buflen
    "unknown error: dlsym succeded but function pointers are unassigned" in
  ret (set_init_err (Some buf) resp).

(** Lines 101-130: [switch (resp->ch.lib_t)]. The case [LIBCUDART] ends
    with [break]; the case [LIBNVIDIAML] has none and runs on into
    [default]. The version numbers are only printed. *)
Definition report_driver_version (resp : cuda_init_resp_t)
  : M cuda_init_resp_t :=
  match lib_t (ch resp) with
  | LIBCUDART =>
      call "cudaDriverGetVersion" (cudaDriverGetVersion (ch resp))
           (fun f => run_cudaDriverGetVersion env f) ;;;
      ret resp
  | LIBNVIDIAML =>
      call "nvmlSystemGetDriverVersion" (nvmlSystemGetDriverVersion (ch resp))
           (fun f => run_nvmlSystemGetDriverVersion env f (Z.of_nat buflen)) ;;;
      report_default resp
  | LIBUNKNOWN => report_default resp
  end.

Definition cuda_init (cuda_lib_path : string) (resp : cuda_init_resp_t)
  : M cuda_init_resp_t :=
  let resp := set_init_err None resp in
  let resp := set_ch (set_lib_t LIBUNKNOWN (ch resp)) resp in
  lib <- load_library cuda_lib_path ;;
  let resp := set_ch (set_handle lib (ch resp)) resp in
  if is_null (handle (ch resp)) then
    msg <- load_err ;;
    let buf := Text.snprintf buflen
                 ("Unable to load " ++ cuda_lib_path ++
                  " library to query for Nvidia GPUs: " ++ msg) in
    ret (set_init_err (Some buf) resp)
  else
    wired <- wire_symbols l resp ;;
    match wired with
    | Return resp => ret resp
    | Next resp =>
        activated <- activate resp ;;
        match activated with
        | Return resp => ret resp
        | Next resp => report_driver_version resp
        end
    end.

(** *** cuda_check_vram *)

Definition device_error (what : string) (i status : Z) : string :=
  Text.snprintf buflen (what ++ Text.fmt_d i ++ ": " ++ Text.fmt_d status).

(** Lines 159-178: [for (i = 0; i < resp->count; i++)], [rem] being the
    number of indices from [i] up to [resp->count]. [i] is an [int]
    compared with an unsigned count; the counter is kept unsigned here
    and read as [int] where it is passed or printed. *)
Fixpoint cudart_vram_loop (h : cuda_handle_t) (rem : nat) (i : Z)
    (resp : mem_info_t) : M mem_info_t :=
  match rem with
  | O => ret resp
  | S rem' =>
      cudart_ret <- call "cudaSetDevice" (cudaSetDevice h)
                         (fun f => run_cudaSetDevice env f (to_int i)) ;;
      if negb (cudart_ret =? CUDART_SUCCESS) then
        ret (set_mem_err
               (Some (device_error "unable to get device handle "
                                   (to_int i) cudart_ret)) resp)
      else
        '(cudart_ret, (m_free, m_total)) <-
           call "cudaMemGetInfo" (cudaMemGetInfo h)
                (fun f => run_cudaMemGetInfo env f) ;;
        if negb (cudart_ret =? CUDART_SUCCESS) then
          ret (set_mem_err
                 (Some (device_error "device memory info lookup failure "
                                     (to_int i) cudart_ret)) resp)
        else
          let resp := set_total (to_u64 (total resp + m_total)) resp in
          let resp := set_free (to_u64 (free resp + m_free)) resp in
          cudart_vram_loop h rem' (i + 1) resp
  end.

(** Lines 209-243: the five descriptions asked for in verbose mode; the
    answers are only printed. *)
Definition nvml_describe (h : cuda_handle_t) (device : nvmlDevice_t)
  : M unit :=
  if negb (verbose h =? 0) then
    call "nvmlDeviceGetName" (nvmlDeviceGetName h)
         (fun f => run_nvmlDeviceGetText env f device (Z.of_nat buflen)) ;;;
    call "nvmlDeviceGetBoardPartNumber" (nvmlDeviceGetBoardPartNumber h)
         (fun f => run_nvmlDeviceGetText env f device (Z.of_nat buflen)) ;;;
    call "nvmlDeviceGetSerial" (nvmlDeviceGetSerial h)
         (fun f => run_nvmlDeviceGetText env f device (Z.of_nat buflen)) ;;;
    call "nvmlDeviceGetVbiosVersion" (nvmlDeviceGetVbiosVersion h)
         (fun f => run_nvmlDeviceGetText env f device (Z.of_nat buflen)) ;;;
    call "nvmlDeviceGetBrand" (nvmlDeviceGetBrand h)
         (fun f => run_nvmlDeviceGetBrand env f device) ;;;
    ret tt
  else ret tt.

(** Lines 193-250. *)
Fixpoint nvml_vram_loop (h : cuda_handle_t) (rem : nat) (i : Z)
    (resp : mem_info_t) : M mem_info_t :=
  match rem with
  | O => ret resp
  | S rem' =>
      '(nvml_ret, device) <-
         call "nvmlDeviceGetHandleByIndex" (nvmlDeviceGetHandleByIndex h)
              (fun f => run_nvmlDeviceGetHandleByIndex env f (to_uint i)) ;;
      if negb (nvml_ret =? NVML_SUCCESS) then
        ret (set_mem_err
               (Some (device_error "unable to get device handle "
                                   (to_int i) nvml_ret)) resp)
      else
        '(nvml_ret, nvml_memInfo) <-
           call "nvmlDeviceGetMemoryInfo" (nvmlDeviceGetMemoryInfo h)
                (fun f => run_nvmlDeviceGetMemoryInfo env f device) ;;
        if negb (nvml_ret =? NVML_SUCCESS) then
          ret (set_mem_err
                 (Some (device_error "device memory info lookup failure "
                                     (to_int i) nvml_ret)) resp)
        else
          nvml_describe h device ;;;
          let resp := set_total (to_u64 (total resp + nvml_total nvml_memInfo)) resp in
          let resp := set_free (to_u64 (free resp + nvml_free nvml_memInfo)) resp in
          nvml_vram_loop h rem' (i + 1) resp
  end.

Definition cuda_check_vram (h : cuda_handle_t) (resp : mem_info_t)
  : M mem_info_t :=
  let resp := set_mem_err None resp in
  if is_null (handle h) then
    ret (set_mem_err (Some "cuda and nvml handle isn't initialized") resp)
  else
    match lib_t h with
    | LIBCUDART =>
        '(cudart_ret, n) <- call "cudaGetDeviceCount" (cudaGetDeviceCount h)
                                 (fun f => run_cudaGetDeviceCount env f) ;;
        let resp := set_count (to_uint n) resp in
        if negb (cudart_ret =? CUDART_SUCCESS) then
          ret (set_mem_err
                 (Some (Text.snprintf buflen
                          ("unable to get device count: " ++ Text.fmt_d cudart_ret)))
                 resp)
        else
          let resp := set_total 0 resp in
          let resp := set_free 0 resp in
          cudart_vram_loop h (Z.to_nat (count resp)) 0 resp
    | LIBNVIDIAML =>
        '(nvml_ret, n) <- call "nvmlDeviceGetCount_v2" (nvmlDeviceGetCount_v2 h)
                               (fun f => run_nvmlDeviceGetCount_v2 env f) ;;
        let resp := set_count (to_uint n) resp in
        if negb (nvml_ret =? NVML_SUCCESS) then
          ret (set_mem_err
                 (Some (Text.snprintf buflen
                          ("unable to get device count: " ++ Text.fmt_d nvml_ret)))
                 resp)
        else
          let resp := set_total 0 resp in
          let resp := set_free 0 resp in
          nvml_vram_loop h (Z.to_nat (count resp)) 0 resp
    | LIBUNKNOWN =>
        ret (set_mem_err
               (Some (Text.snprintf buflen
                        ("error detecting loaded library: "
                         ++ Text.fmt_d (lib_t_value (lib_t h)))))
               resp)
    end.

(** *** cuda_compute_capability *)

(** Lines 304-309 and 343-348: "Report the lowest major.minor we detect
    as that limits our compatibility". *)
Definition lowest (resp : cuda_compute_capability_t) (c_major c_minor : Z)
  : cuda_compute_capability_t :=
  if (major resp =? 0) || (major resp >? c_major) then
    set_minor c_minor (set_major c_major resp)
  else if (major resp =? c_major) && (minor resp >? c_minor) then
    set_minor c_minor resp
  else resp.

(** Lines 289-310. *)
Fixpoint nvml_cc_loop (h : cuda_handle_t) (rem : nat) (i : Z)
    (resp : cuda_compute_capability_t) : M cuda_compute_capability_t :=
  match rem with
  | O => ret resp
  | S rem' =>
      '(nvml_ret, device) <-
         call "nvmlDeviceGetHandleByIndex" (nvmlDeviceGetHandleByIndex h)
              (fun f => run_nvmlDeviceGetHandleByIndex env f (to_uint i)) ;;
      if negb (nvml_ret =? NVML_SUCCESS) then
        ret (set_cc_err
               (Some (device_error "unable to get device handle "
                                   (to_int i) nvml_ret)) resp)
      else
        '(nvml_ret, (c_major, c_minor)) <-
           call "nvmlDeviceGetCudaComputeCapability"
                (nvmlDeviceGetCudaComputeCapability h)
                (fun f => run_nvmlDeviceGetCudaComputeCapability env f device) ;;
        if negb (nvml_ret =? NVML_SUCCESS) then
          ret (set_cc_err
                 (Some (device_error "device compute capability lookup failure "
                                     (to_int i) nvml_ret)) resp)
        else nvml_cc_loop h rem' (i + 1) (lowest resp c_major c_minor)
  end.

(** Lines 321-349. *)
Fixpoint cudart_cc_loop (h : cuda_handle_t) (rem : nat) (i : Z)
    (resp : cuda_compute_capability_t) : M cuda_compute_capability_t :=
  match rem with
  | O => ret resp
  | S rem' =>
      cudart_ret <- call "cudaSetDevice" (cudaSetDevice h)
                         (fun f => run_cudaSetDevice env f (to_int i)) ;;
      if negb (cudart_ret =? CUDART_SUCCESS) then
        ret (set_cc_err
               (Some (device_error "unable to get device handle "
                                   (to_int i) cudart_ret)) resp)
      else
        '(cudart_ret, c_major) <-
           call "cudaDeviceGetAttribute" (cudaDeviceGetAttribute h)
                (fun f => run_cudaDeviceGetAttribute env f
                            cudaDevAttrComputeCapabilityMajor (to_int i)) ;;
        if negb (cudart_ret =? CUDART_SUCCESS) then
          ret (set_cc_err
                 (Some (device_error "device compute capability lookup failure "
                                     (to_int i) cudart_ret)) resp)
        else
          '(cudart_ret, c_minor) <-
             call "cudaDeviceGetAttribute" (cudaDeviceGetAttribute h)
                  (fun f => run_cudaDeviceGetAttribute env f
                              cudaDevAttrComputeCapabilityMinor (to_int i)) ;;
          if negb (cudart_ret =? CUDART_SUCCESS) then
            ret (set_cc_err
                   (Some (device_error "device compute capability lookup failure "
                                       (to_int i) cudart_ret)) resp)
          else cudart_cc_loop h rem' (i + 1) (lowest resp c_major c_minor)
  end.

Definition cuda_compute_capability (h : cuda_handle_t)
    (resp : cuda_compute_capability_t) : M cuda_compute_capability_t :=
  let resp := set_cc_err None resp in
  let resp := set_major 0 resp in
  let resp := set_minor 0 resp in
  if is_null (handle h) then
    ret (set_cc_err (Some "cuda handle not initialized") resp)
  else
    match lib_t h with
    | LIBNVIDIAML =>
        '(nvml_ret, devices) <-
           call "nvmlDeviceGetCount_v2" (nvmlDeviceGetCount_v2 h)
                (fun f => run_nvmlDeviceGetCount_v2 env f) ;;
        if negb (nvml_ret =? NVML_SUCCESS) then
          ret (set_cc_err
                 (Some (Text.snprintf buflen
                          ("unable to get device count: " ++ Text.fmt_d nvml_ret)))
                 resp)
        else nvml_cc_loop h (Z.to_nat (to_uint devices)) 0 resp
    | LIBCUDART =>
        '(cudart_ret, devices) <-
           call "cudaGetDeviceCount" (cudaGetDeviceCount h)
                (fun f => run_cudaGetDeviceCount env f) ;;
        if negb (cudart_ret =? CUDART_SUCCESS) then
          ret (set_cc_err
                 (Some (Text.snprintf buflen
                          ("unable to get tegra device count: "
                           ++ Text.fmt_d cudart_ret)))
                 resp)
        else cudart_cc_loop h (Z.to_nat (to_int devices)) 0 resp
    | LIBUNKNOWN =>
        ret (set_cc_err
               (Some (Text.snprintf buflen
                        ("error detecting loaded library: "
                         ++ Text.fmt_d (lib_t_value (lib_t h)))))
               resp)
    end.

End Program.

(** ** A synthetic library, for concrete runs *)

Module Synthetic.

(** One device of the fleet: the status of selecting it (or of looking up
    its handle), the status of a query on it, and its readings. *)
Record device := {
  d_select : Z;
  d_query : Z;
  d_total : Z;
  d_free : Z;
  d_major : Z;
  d_minor : Z
}.

Record config := {
  c_library : option address;  (** what opening the library gives *)
  c_diagnostic : string;       (** the loader's error text *)
  c_missing : list string;     (** the symbols the library lacks *)
  c_nvml_init : Z;             (** status of [nvmlInit_v2] *)
  c_count_status : Z;          (** status of the device-count queries *)
  c_devices : list device
}.

(** The world of the synthetic library: the device selected last. *)
Definition selection := Z.

Definition at_index (c : config) (i : Z) : option device :=
  if i <? 0 then None else nth_error (c_devices c) (Z.to_nat i).

Definition no_device : device :=
  {| d_select := 101; d_query := 101;
     d_total := 0; d_free := 0; d_major := 0; d_minor := 0 |}.

Definition dev (c : config) (i : Z) : device :=
  match at_index c i with Some d => d | None => no_device end.

(** Every symbol of the library lives at the same address. *)
Definition resolve (c : config) (name : string) : option address :=
  if existsb (String.eqb name) (c_missing c) then None else Some 7%positive.

Definition env (c : config) : Env selection :=
  {| LOAD_LIBRARY := fun _ w => (c_library c, w);
     LOAD_SYMBOL := fun _ name _ => resolve c name;
     LOAD_ERR := fun w => (c_diagnostic c, w);
     UNLOAD_LIBRARY := fun _ w => w;
     run_nvmlInit_v2 := fun _ w => (c_nvml_init c, w);
     run_nvmlDeviceGetHandleByIndex :=
       fun _ i w => ((d_select (dev c i), i), w);
     run_nvmlDeviceGetMemoryInfo :=
       fun _ d w =>
         ((d_query (dev c d),
           {| nvml_total := d_total (dev c d);
              nvml_free := d_free (dev c d);
              nvml_used := d_total (dev c d) - d_free (dev c d) |}), w);
     run_nvmlDeviceGetCount_v2 :=
       fun _ w => ((c_count_status c, Z.of_nat (List.length (c_devices c))), w);
     run_nvmlDeviceGetCudaComputeCapability :=
       fun _ d w => ((d_query (dev c d), (d_major (dev c d), d_minor (dev c d))), w);
     run_nvmlSystemGetDriverVersion := fun _ _ w => ((0, "535.129.03"), w);
     run_nvmlDeviceGetText := fun _ _ _ w => ((0, "synthetic"), w);
     run_nvmlDeviceGetBrand := fun _ _ w => ((0, 0), w);
     run_cudaSetDevice :=
       fun _ i w => (d_select (dev c i),
                     if d_select (dev c i) =? 0 then i else w);
     run_cudaMemGetInfo :=
       fun _ w => ((d_query (dev c w), (d_free (dev c w), d_total (dev c w))), w);
     run_cudaGetDeviceCount :=
       fun _ w => ((c_count_status c, Z.of_nat (List.length (c_devices c))), w);
     run_cudaDeviceGetAttribute :=
       fun _ attr i w =>
         ((d_query (dev c i),
           if attr =? cudaDevAttrComputeCapabilityMajor
           then d_major (dev c i) else d_minor (dev c i)), w);
     run_cudaDriverGetVersion := fun _ w => ((0, 12020), w) |}.

Definition good (t f ma mi : Z) : device :=
  {| d_select := 0; d_query := 0;
     d_total := t; d_free := f; d_major := ma; d_minor := mi |}.

(** A library that opens at address 1 and exports every symbol. *)
Definition both (ds : list device) : config :=
  {| c_library := Some 1%positive; c_diagnostic := "";
     c_missing := nil; c_nvml_init := 0; c_count_status := 0;
     c_devices := ds |}.

(** A management library: the runtime entry points are absent. *)
Definition runtime_names : list string :=
  [ "cudaSetDevice"; "cudaDeviceReset"; "cudaMemGetInfo";
    "cudaGetDeviceCount"; "cudaDeviceGetAttribute"; "cudaDriverGetVersion" ]%list.

Definition management_only (ds : list device) : config :=
  {| c_library := Some 1%positive; c_diagnostic := "";
     c_missing := runtime_names; c_nvml_init := 0; c_count_status := 0;
     c_devices := ds |}.

Definition start : state selection := {| world := 0; trace := nil |}.

(** A caller's fresh handle and result structures. *)
Definition blank_handle (v : Z) : cuda_handle_t :=
  make_handle None v LIBUNKNOWN (fun _ => None).

Definition blank_init (v : Z) : cuda_init_resp_t :=
  {| init_err := None; ch := blank_handle v |}.

Definition blank_mem : mem_info_t :=
  {| total := 0; free := 0; count := 0; mem_err := None |}.

Definition blank_cc : cuda_compute_capability_t :=
  {| cc_err := None; major := 0; minor := 0 |}.

(** A handle as [cuda_init] would leave it for a library exporting
    everything, with the given tag. *)
Definition active (t : cudaLibraryType_t) (v : Z) : cuda_handle_t :=
  make_handle (Some 1%positive) v t (fun _ => Some 7%positive).

End Synthetic.

(** ** What the active backend answers

    The hypotheses of the theorems below: the answers of the environment to
    the calls of one query, told through the handle's table and the
    environment's transition functions only. *)

Section Fleet.

Context {W : Type} (env : Env W) (h : cuda_handle_t).

(** The world after the five descriptions of verbose mode. *)
Definition described (device : nvmlDevice_t) (w w' : W) : Prop :=
  if verbose h =? 0 then w' = w
  else exists f1 f2 f3 f4 f5,
      nvmlDeviceGetName h = Some f1
      /\ nvmlDeviceGetBoardPartNumber h = Some f2
      /\ nvmlDeviceGetSerial h = Some f3
      /\ nvmlDeviceGetVbiosVersion h = Some f4
      /\ nvmlDeviceGetBrand h = Some f5
      /\ let w1 := snd (run_nvmlDeviceGetText env f1 device 256 w) in
         let w2 := snd (run_nvmlDeviceGetText env f2 device 256 w1) in
         let w3 := snd (run_nvmlDeviceGetText env f3 device 256 w2) in
         let w4 := snd (run_nvmlDeviceGetText env f4 device 256 w3) in
         w' = snd (run_nvmlDeviceGetBrand env f5 device w4).

(** The device count the active backend reports to [cuda_check_vram]. *)
Inductive vram_count (w : W) : Z -> W -> Prop :=
| vram_count_cudart f c w' :
    lib_t h = LIBCUDART ->
    cudaGetDeviceCount h = Some f ->
    run_cudaGetDeviceCount env f w = ((CUDART_SUCCESS, c), w') ->
    vram_count w (to_uint c) w'
| vram_count_nvml f c w' :
    lib_t h = LIBNVIDIAML ->
    nvmlDeviceGetCount_v2 h = Some f ->
    run_nvmlDeviceGetCount_v2 env f w = ((NVML_SUCCESS, c), w') ->
    vram_count w (to_uint c) w'.

(** Device [i] answers both of its memory steps with success; the reading
    is [(total, free)]. *)
Inductive vram_reading (i : Z) (w : W) : Z * Z -> W -> Prop :=
| vram_reading_cudart f g w1 w2 m_free m_total :
    lib_t h = LIBCUDART ->
    cudaSetDevice h = Some f ->
    cudaMemGetInfo h = Some g ->
    run_cudaSetDevice env f (to_int i) w = (CUDART_SUCCESS, w1) ->
    run_cudaMemGetInfo env g w1 = ((CUDART_SUCCESS, (m_free, m_total)), w2) ->
    vram_reading i w (m_total, m_free) w2
| vram_reading_nvml f g w1 w2 w3 device m :
    lib_t h = LIBNVIDIAML ->
    nvmlDeviceGetHandleByIndex h = Some f ->
    nvmlDeviceGetMemoryInfo h = Some g ->
    run_nvmlDeviceGetHandleByIndex env f (to_uint i) w = ((NVML_SUCCESS, device), w1) ->
    run_nvmlDeviceGetMemoryInfo env g device w1 = ((NVML_SUCCESS, m), w2) ->
    described device w2 w3 ->
    vram_reading i w (nvml_total m, nvml_free m) w3.

(** A memory step of device [i] answers with a status other than success:
    the text the source prints before the index, and the status. *)
Inductive vram_failure (i : Z) (w : W) : string -> Z -> Prop :=
| vram_failure_select f status w1 :
    lib_t h = LIBCUDART ->
    cudaSetDevice h = Some f ->
    run_cudaSetDevice env f (to_int i) w = (status, w1) ->
    status <> CUDART_SUCCESS ->
    vram_failure i w "unable to get device handle " status
| vram_failure_info f g status answer w1 w2 :
    lib_t h = LIBCUDART ->
    cudaSetDevice h = Some f ->
    cudaMemGetInfo h = Some g ->
    run_cudaSetDevice env f (to_int i) w = (CUDART_SUCCESS, w1) ->
    run_cudaMemGetInfo env g w1 = ((status, answer), w2) ->
    status <> CUDART_SUCCESS ->
    vram_failure i w "device memory info lookup failure " status
| vram_failure_handle f status device w1 :
    lib_t h = LIBNVIDIAML ->
    nvmlDeviceGetHandleByIndex h = Some f ->
    run_nvmlDeviceGetHandleByIndex env f (to_uint i) w = ((status, device), w1) ->
    status <> NVML_SUCCESS ->
    vram_failure i w "unable to get device handle " status
| vram_failure_memory f g status device m w1 w2 :
    lib_t h = LIBNVIDIAML ->
    nvmlDeviceGetHandleByIndex h = Some f ->
    nvmlDeviceGetMemoryInfo h = Some g ->
    run_nvmlDeviceGetHandleByIndex env f (to_uint i) w = ((NVML_SUCCESS, device), w1) ->
    run_nvmlDeviceGetMemoryInfo env g device w1 = ((status, m), w2) ->
    status <> NVML_SUCCESS ->
    vram_failure i w "device memory info lookup failure " status.

(** The device count the active backend reports to
    [cuda_compute_capability]: an [int] from the runtime library, an
    [unsigned int] from the management library. *)
Inductive cc_count (w : W) : Z -> W -> Prop :=
| cc_count_cudart f c w' :
    lib_t h = LIBCUDART ->
    cudaGetDeviceCount h = Some f ->
    run_cudaGetDeviceCount env f w = ((CUDART_SUCCESS, c), w') ->
    cc_count w (to_int c) w'
| cc_count_nvml f c w' :
    lib_t h = LIBNVIDIAML ->
    nvmlDeviceGetCount_v2 h = Some f ->
    run_nvmlDeviceGetCount_v2 env f w = ((NVML_SUCCESS, c), w') ->
    cc_count w (to_uint c) w'.

(** The device-count query answers with a status other than success. *)
Inductive cc_count_failure (w : W) : Prop :=
| cc_count_failure_cudart f status c w' :
    lib_t h = LIBCUDART ->
    cudaGetDeviceCount h = Some f ->
    run_cudaGetDeviceCount env f w = ((status, c), w') ->
    status <> CUDART_SUCCESS ->
    cc_count_failure w
| cc_count_failure_nvml f status c w' :
    lib_t h = LIBNVIDIAML ->
    nvmlDeviceGetCount_v2 h = Some f ->
    run_nvmlDeviceGetCount_v2 env f w = ((status, c), w') ->
    status <> NVML_SUCCESS ->
    cc_count_failure w.

(** Device [i] answers every capability step with success; the reading
    is [(major, minor)]. *)
Inductive cc_reading (i : Z) (w : W) : Z * Z -> W -> Prop :=
| cc_reading_cudart f g w1 w2 w3 c_major c_minor :
    lib_t h = LIBCUDART ->
    cudaSetDevice h = Some f ->
    cudaDeviceGetAttribute h = Some g ->
    run_cudaSetDevice env f (to_int i) w = (CUDART_SUCCESS, w1) ->
    run_cudaDeviceGetAttribute env g cudaDevAttrComputeCapabilityMajor
      (to_int i) w1 = ((CUDART_SUCCESS, c_major), w2) ->
    run_cudaDeviceGetAttribute env g cudaDevAttrComputeCapabilityMinor
      (to_int i) w2 = ((CUDART_SUCCESS, c_minor), w3) ->
    cc_reading i w (c_major, c_minor) w3
| cc_reading_nvml f g w1 w2 device c_major c_minor :
    lib_t h = LIBNVIDIAML ->
    nvmlDeviceGetHandleByIndex h = Some f ->
    nvmlDeviceGetCudaComputeCapability h = Some g ->
    run_nvmlDeviceGetHandleByIndex env f (to_uint i) w = ((NVML_SUCCESS, device), w1) ->
    run_nvmlDeviceGetCudaComputeCapability env g device w1
      = ((NVML_SUCCESS, (c_major, c_minor)), w2) ->
    cc_reading i w (c_major, c_minor) w2.

(** A capability step of device [i] answers with a status other than
    success: the text the source prints before the index, and the status. *)
Inductive cc_failure (i : Z) (w : W) : string -> Z -> Prop :=
| cc_failure_select f status w1 :
    lib_t h = LIBCUDART ->
    cudaSetDevice h = Some f ->
    run_cudaSetDevice env f (to_int i) w = (status, w1) ->
    status <> CUDART_SUCCESS ->
    cc_failure i w "unable to get device handle " status
| cc_failure_major f g status answer w1 w2 :
    lib_t h = LIBCUDART ->
    cudaSetDevice h = Some f ->
    cudaDeviceGetAttribute h = Some g ->
    run_cudaSetDevice env f (to_int i) w = (CUDART_SUCCESS, w1) ->
    run_cudaDeviceGetAttribute env g cudaDevAttrComputeCapabilityMajor
      (to_int i) w1 = ((status, answer), w2) ->
    status <> CUDART_SUCCESS ->
    cc_failure i w "device compute capability lookup failure " status
| cc_failure_minor f g status c_major answer w1 w2 w3 :
    lib_t h = LIBCUDART ->
    cudaSetDevice h = Some f ->
    cudaDeviceGetAttribute h = Some g ->
    run_cudaSetDevice env f (to_int i) w = (CUDART_SUCCESS, w1) ->
    run_cudaDeviceGetAttribute env g cudaDevAttrComputeCapabilityMajor
      (to_int i) w1 = ((CUDART_SUCCESS, c_major), w2) ->
    run_cudaDeviceGetAttribute env g cudaDevAttrComputeCapabilityMinor
      (to_int i) w2 = ((status, answer), w3) ->
    status <> CUDART_SUCCESS ->
    cc_failure i w "device compute capability lookup failure " status
| cc_failure_handle f status device w1 :
    lib_t h = LIBNVIDIAML ->
    nvmlDeviceGetHandleByIndex h = Some f ->
    run_nvmlDeviceGetHandleByIndex env f (to_uint i) w = ((status, device), w1) ->
    status <> NVML_SUCCESS ->
    cc_failure i w "unable to get device handle " status
| cc_failure_capability f g status device answer w1 w2 :
    lib_t h = LIBNVIDIAML ->
    nvmlDeviceGetHandleByIndex h = Some f ->
    nvmlDeviceGetCudaComputeCapability h = Some g ->
    run_nvmlDeviceGetHandleByIndex env f (to_uint i) w = ((NVML_SUCCESS, device), w1) ->
    run_nvmlDeviceGetCudaComputeCapability env g device w1
      = ((status, answer), w2) ->
    status <> NVML_SUCCESS ->
    cc_failure i w "device compute capability lookup failure " status.

(** The devices from index [i] on answer one after the other, from world
    [w] to world [w'], with the listed readings. *)
Inductive fleet {R : Type} (reading : Z -> W -> R -> W -> Prop)
  : Z -> W -> list R -> W -> Prop :=
| fleet_nil i w : fleet reading i w nil w
| fleet_cons i w r w1 rs w2 :
    reading i w r w1 ->
    fleet reading (i + 1) w1 rs w2 ->
    fleet reading i w (r :: rs) w2.

End Fleet.

(** ** The reduction rules, as the specification words them *)

Module Spec.

(** "Replace the running pair when the running major is 0 or strictly
    greater than the device's major, and replace only the minor when
    majors are equal and the running minor is strictly greater." *)
Definition reduce_step (running reading : Z * Z) : Z * Z :=
  let (r_major, r_minor) := running in
  let (d_major, d_minor) := reading in
  if (r_major =? 0) || (d_major <? r_major) then (d_major, d_minor)
  else if (r_major =? d_major) && (d_minor <? r_minor) then (r_major, d_minor)
  else running.

(** The fold of the readings, starting from [(0, 0)]. *)
Definition reduce (readings : list (Z * Z)) : Z * Z :=
  fold_left reduce_step readings (0, 0).

(** The arithmetic sums of the total and of the free readings. *)
Definition sum_total (readings : list (Z * Z)) : Z :=
  fold_right (fun r acc => fst r + acc) 0 readings.

Definition sum_free (readings : list (Z * Z)) : Z :=
  fold_right (fun r acc => snd r + acc) 0 readings.

End Spec.

(** ** Shorthands of the statements *)

(** The text [cuda_init] formats when the library does not open. *)
Definition load_failure_text (path diagnostic : string) : string :=
  "Unable to load " ++ path ++ " library to query for Nvidia GPUs: " ++ diagnostic.

(** A path of 300 characters, and a library that is not there. *)
Definition long_path : string :=
  string_of_list_ascii (repeat "a"%char 300).

Definition absent : Synthetic.config :=
  {| Synthetic.c_library := None;
     Synthetic.c_diagnostic := "cannot open shared object file";
     Synthetic.c_missing := nil;
     Synthetic.c_nvml_init := 0;
     Synthetic.c_count_status := 0;
     Synthetic.c_devices := nil |}.

(** The loop over the devices of the active backend, for each query. *)
Definition vram_loop {W : Type} (env : Env W) (h : cuda_handle_t)
  : nat -> Z -> mem_info_t -> M W mem_info_t :=
  match lib_t h with
  | LIBCUDART => cudart_vram_loop env h
  | LIBNVIDIAML => nvml_vram_loop env h
  | LIBUNKNOWN => fun _ _ resp => ret resp
  end.

Definition cc_loop {W : Type} (env : Env W) (h : cuda_handle_t)
  : nat -> Z -> cuda_compute_capability_t -> M W cuda_compute_capability_t :=
  match lib_t h with
  | LIBCUDART => cudart_cc_loop env h
  | LIBNVIDIAML => nvml_cc_loop env h
  | LIBUNKNOWN => fun _ _ resp => ret resp
  end.

(** Lines 176-177 and 248-249: one reading [(total, free)] added to the
    result. *)
Definition add_reading (resp : mem_info_t) (r : Z * Z) : mem_info_t :=
  set_free (to_u64 (free resp + snd r))
           (set_total (to_u64 (total resp + fst r)) resp).

Definition lowest_of (resp : cuda_compute_capability_t) (r : Z * Z)
  : cuda_compute_capability_t :=
  lowest resp (fst r) (snd r).

(** The name the lookup table [l] of [cuda_init] pairs with a field, and
    the names of the table in its order. *)
Definition names_field (g : field) (e : lookup) : bool :=
  match p e with
  | Some f => if field_eq_dec f g then true else false
  | None => false
  end.

Definition symbol (g : field) : string :=
  match find (names_field g) l with
  | Some e => match s e with Some name => name | None => "" end
  | None => ""
  end.

Definition symbols : list string :=
  flat_map (fun e => match s e with Some name => [name] | None => [] end)%list l.

(** The handle once every entry of [l] is resolved in library [lib]. *)
Definition wired {W : Type} (env : Env W) (w : W) (h : cuda_handle_t)
  : cuda_handle_t :=
  make_handle (handle h) (verbose h) (lib_t h)
    (fun g => LOAD_SYMBOL env (handle h) (symbol g) w).

(** A library whose device-count queries answer 999. *)
Definition count_refused : Synthetic.config :=
  {| Synthetic.c_library := Some 1%positive;
     Synthetic.c_diagnostic := "";
     Synthetic.c_missing := nil;
     Synthetic.c_nvml_init := 0;
     Synthetic.c_count_status := 999;
     Synthetic.c_devices := [Synthetic.good 1 1 8 6]%list |}.

(** A library whose runtime cannot select device 0. *)
Definition runtime_refuses : Synthetic.config :=
  Synthetic.both
    [ {| Synthetic.d_select := 100; Synthetic.d_query := 0;
         Synthetic.d_total := 1; Synthetic.d_free := 1;
         Synthetic.d_major := 8; Synthetic.d_minor := 6 |} ]%list.

(** A library that lacks the one symbol [nvmlInit_v2]. *)
Definition lacks_nvmlInit : Synthetic.config :=
  {| Synthetic.c_library := Some 1%positive;
     Synthetic.c_diagnostic := "undefined symbol: nvmlInit_v2";
     Synthetic.c_missing := ["nvmlInit_v2"]%list;
     Synthetic.c_nvml_init := 0;
     Synthetic.c_count_status := 0;
     Synthetic.c_devices := [Synthetic.good 1 1 8 6]%list |}.

(** The entries of [l] before the end mark, and the end mark. *)
Definition table : list (string * field) :=
  [ ("nvmlInit_v2", F_nvmlInit_v2);
    ("nvmlShutdown", F_nvmlShutdown);
    ("nvmlDeviceGetHandleByIndex", F_nvmlDeviceGetHandleByIndex);
    ("nvmlDeviceGetMemoryInfo", F_nvmlDeviceGetMemoryInfo);
    ("nvmlDeviceGetCount_v2", F_nvmlDeviceGetCount_v2);
    ("nvmlDeviceGetCudaComputeCapability", F_nvmlDeviceGetCudaComputeCapability);
    ("nvmlSystemGetDriverVersion", F_nvmlSystemGetDriverVersion);
    ("nvmlDeviceGetName", F_nvmlDeviceGetName);
    ("nvmlDeviceGetSerial", F_nvmlDeviceGetSerial);
    ("nvmlDeviceGetVbiosVersion", F_nvmlDeviceGetVbiosVersion);
    ("nvmlDeviceGetBoardPartNumber", F_nvmlDeviceGetBoardPartNumber);
    ("nvmlDeviceGetBrand", F_nvmlDeviceGetBrand);
    ("cudaSetDevice", F_cudaSetDevice);
    ("cudaDeviceReset", F_cudaDeviceReset);
    ("cudaMemGetInfo", F_cudaMemGetInfo);
    ("cudaGetDeviceCount", F_cudaGetDeviceCount);
    ("cudaDeviceGetAttribute", F_cudaDeviceGetAttribute);
    ("cudaDriverGetVersion", F_cudaDriverGetVersion) ]%list.

Definition entry (nf : string * field) : lookup :=
  {| s := Some (fst nf); p := Some (snd nf) |}.

Definition stop : lookup := {| s := None; p := None |}.

(** One turn of the loop of lines 55-71 on a well-formed entry. *)
Definition resolve_entry {W : Type} (env : Env W) (w : W)
    (resp : cuda_init_resp_t) (nf : string * field) : cuda_init_resp_t :=
  set_ch (store (snd nf) (LOAD_SYMBOL env (handle (ch resp)) (fst nf) w)
                (ch resp)) resp.

(** The handle with another verbosity. *)
Definition set_verbose (v : Z) (h : cuda_handle_t) : cuda_handle_t :=
  make_handle (handle h) v (lib_t h) (fun g => load g h).

(** "Lowest major.minor": [a] is not above [b], comparing the majors first
    and the minors when the majors are equal. *)
Definition lex_le (a b : Z * Z) : Prop :=
  fst a < fst b \/ (fst a = fst b /\ snd a <= snd b).

(** The result structure as [cuda_init] has it when the library [lib] is
    open and every name of [l] has been looked up in it. *)
Definition opened {W : Type} (env : Env W) (lib : address) (w : W)
    (resp : cuda_init_resp_t) : cuda_init_resp_t :=
  set_ch (wired env w (set_handle (Some lib) (set_lib_t LIBUNKNOWN (ch resp))))
         (set_init_err None resp).

(** A runtime library without [cudaDriverGetVersion]. *)
Definition lacks_driver_version : Synthetic.config :=
  {| Synthetic.c_library := Some 1%positive;
     Synthetic.c_diagnostic := "";
     Synthetic.c_missing := ["cudaDriverGetVersion"]%list;
     Synthetic.c_nvml_init := 0;
     Synthetic.c_count_status := 0;
     Synthetic.c_devices := [Synthetic.good 1 1 8 6]%list |}.

(** A management library whose [nvmlInit_v2] answers 9. *)
Definition management_refuses : Synthetic.config :=
  {| Synthetic.c_library := Some 1%positive;
     Synthetic.c_diagnostic := "";
     Synthetic.c_missing := Synthetic.runtime_names;
     Synthetic.c_nvml_init := 9;
     Synthetic.c_count_status := 0;
     Synthetic.c_devices := nil |}.

(** A library that opens and exports neither [cudaSetDevice] nor
    [nvmlInit_v2]. *)
Definition exports_neither : Synthetic.config :=
  {| Synthetic.c_library := Some 1%positive;
     Synthetic.c_diagnostic := "";
     Synthetic.c_missing := ["cudaSetDevice"; "nvmlInit_v2"]%list;
     Synthetic.c_nvml_init := 0;
     Synthetic.c_count_status := 0;
     Synthetic.c_devices := nil |}.

(** The device-count query of the active backend answers [(status, c)]
    through the function pointer [f], called by the name [name]. *)
Inductive count_answer {W : Type} (env : Env W) (h : cuda_handle_t) (w : W)
  : string -> address -> Z -> Z -> W -> Prop :=
| count_answer_cudart f status c w' :
    lib_t h = LIBCUDART ->
    cudaGetDeviceCount h = Some f ->
    run_cudaGetDeviceCount env f w = ((status, c), w') ->
    count_answer env h w "cudaGetDeviceCount" f status c w'
| count_answer_nvml f status c w' :
    lib_t h = LIBNVIDIAML ->
    nvmlDeviceGetCount_v2 h = Some f ->
    run_nvmlDeviceGetCount_v2 env f w = ((status, c), w') ->
    count_answer env h w "nvmlDeviceGetCount_v2" f status c w'.

(** Device [i] of a runtime library answers the selection through [f] and
    the memory query through [g] with success; the reading is
    [(total, free)]. *)
Definition runtime_reading {W : Type} (env : Env W) (f g : address)
    (i : Z) (w : W) (r : Z * Z) (w' : W) : Prop :=
  exists w1,
    run_cudaSetDevice env f (to_int i) w = (CUDART_SUCCESS, w1)
    /\ run_cudaMemGetInfo env g w1 = ((CUDART_SUCCESS, (snd r, fst r)), w').

(** * Properties *)

(** ** Concrete runs *)

Example fmt_d_0 : Text.fmt_d 0 = "0".
Proof. reflexivity. Qed.
Example fmt_d_neg : Text.fmt_d (-2147483648) = "-2147483648".
Proof. reflexivity. Qed.
Example fmt_d_pos : Text.fmt_d 4096 = "4096".
Proof. reflexivity. Qed.
Example snprintf_cut : Text.snprintf 4 "abcdef" = "abc".
Proof. reflexivity. Qed.

Example reduce_test_1 : Spec.reduce [(8, 6); (7, 5); (8, 0)] = (7, 5).
Proof. reflexivity. Qed.
Example reduce_test_2 : Spec.reduce [(9, 0)] = (9, 0).
Proof. reflexivity. Qed.
Example reduce_test_3 : Spec.reduce [] = (0, 0).
Proof. reflexivity. Qed.

(** The fleet of the specification's test: 8e9/2e9 and 4e9/1e9 bytes. *)
Example check_vram_two_devices :
  cuda_check_vram
    (Synthetic.env (Synthetic.both
       [Synthetic.good 8000000000 2000000000 8 6;
        Synthetic.good 4000000000 1000000000 7 5]))
    (Synthetic.active LIBCUDART 0) Synthetic.blank_mem Synthetic.start
  = Done {| total := 12000000000; free := 3000000000; count := 2;
            mem_err := None |}
         {| world := 1;
            trace := [EvCall "cudaGetDeviceCount" 7%positive;
                      EvCall "cudaSetDevice" 7%positive;
                      EvCall "cudaMemGetInfo" 7%positive;
                      EvCall "cudaSetDevice" 7%positive;
                      EvCall "cudaMemGetInfo" 7%positive] |}.
Proof. vm_compute. reflexivity. Qed.

Example compute_capability_three_devices :
  exists st,
    cuda_compute_capability
      (Synthetic.env (Synthetic.both
         [Synthetic.good 1 1 8 6; Synthetic.good 1 1 7 5; Synthetic.good 1 1 8 0]))
      (Synthetic.active LIBNVIDIAML 1) Synthetic.blank_cc Synthetic.start
    = Done {| cc_err := None; major := 7; minor := 5 |} st.
Proof. eexists. vm_compute. reflexivity. Qed.

Example init_runtime :
  exists resp st,
    cuda_init (Synthetic.env (Synthetic.both [Synthetic.good 1 1 8 6]))
              "libcudart.so" (Synthetic.blank_init 0) Synthetic.start
    = Done resp st
    /\ init_err resp = None /\ lib_t (ch resp) = LIBCUDART
    /\ handle (ch resp) = Some 1%positive.
Proof. eexists. eexists. split; [vm_compute; reflexivity|]. repeat split. Qed.

(** ** Facts about text *)

Module TextFacts.
Import Text.

Lemma length_append (a b : string) :
  String.length (a ++ b) = (String.length a + String.length b)%nat.
Proof. induction a as [|c a IH]; simpl; [reflexivity | now rewrite IH]. Qed.

Lemma append_assoc (a b c : string) : (a ++ b) ++ c = a ++ b ++ c.
Proof. induction a as [|x a IH]; simpl; [reflexivity | now rewrite IH]. Qed.

Lemma truncate_all (n : nat) (t : string) :
  (String.length t <= n)%nat -> truncate n t = t.
Proof.
  revert n; induction t as [|c t IH]; intros [|n] H; simpl in *;
    try reflexivity; try lia.
  rewrite IH; [reflexivity | lia].
Qed.

Lemma truncate_length (n : nat) (t : string) :
  (String.length (truncate n t) <= n)%nat.
Proof.
  revert t; induction n as [|n IH]; intros [|c t]; simpl; try lia.
  specialize (IH t); lia.
Qed.

Lemma truncate_app (n : nat) (a b : string) :
  (String.length a <= n)%nat ->
  truncate n (a ++ b) = a ++ truncate (n - String.length a) b.
Proof.
  revert n; induction a as [|c a IH]; intros n H; simpl in *.
  - now rewrite Nat.sub_0_r.
  - destruct n as [|n]; [lia|]. simpl. rewrite IH; [reflexivity | lia].
Qed.

Lemma contains_length (a t : string) :
  contains a t -> (String.length a <= String.length t)%nat.
Proof.
  intros (pre & post & ->). rewrite !length_append. lia.
Qed.

(** A piece of the formatted text survives the cut when it ends within
    the first [n] characters. *)
Lemma contains_truncate (n : nat) (pre a post : string) :
  (String.length pre + String.length a <= n)%nat ->
  contains a (truncate n (pre ++ a ++ post)).
Proof.
  intros H. rewrite truncate_app by lia. rewrite truncate_app by lia.
  now exists pre, (truncate (n - String.length pre - String.length a) post).
Qed.

Lemma fmt_u_aux_length (fuel : nat) :
  forall (n : Z) (acc : string) (k : nat),
    0 <= n < 10 ^ Z.of_nat (S k) ->
    (String.length (fmt_u_aux fuel n acc) <= S k + String.length acc)%nat.
Proof.
  induction fuel as [|fuel IH]; intros n acc k Hn; simpl; [lia|].
  destruct (n / 10 =? 0) eqn:E; simpl; [lia|].
  apply Z.eqb_neq in E.
  destruct k as [|k].
  - exfalso. apply E. apply Z.div_small. change (10 ^ Z.of_nat 1) with 10 in Hn. lia.
  - assert (Hk : 0 <= n / 10 < 10 ^ Z.of_nat (S k)).
    { split; [apply Z.div_pos; lia|].
      apply Z.div_lt_upper_bound; [lia|].
      replace (Z.of_nat (S (S k))) with (Z.succ (Z.of_nat (S k))) in Hn by lia.
      rewrite Z.pow_succ_r in Hn by lia. lia. }
    specialize (IH (n / 10) (String (digit (n mod 10)) acc) k Hk).
    simpl in IH. lia.
Qed.

(** An [int] prints in at most eleven characters. *)
Lemma fmt_u_length (n : Z) (k : nat) :
  0 <= n < 10 ^ Z.of_nat (S k) -> (String.length (fmt_u n) <= S k)%nat.
Proof.
  intros H. unfold fmt_u.
  pose proof (fmt_u_aux_length (S (Z.to_nat (Z.log2 n))) n EmptyString k H) as L.
  change (String.length EmptyString) with 0%nat in L. lia.
Qed.

(** An [int] prints in at most eleven characters. *)
Lemma fmt_d_length (z : Z) :
  - 2 ^ 31 <= z < 2 ^ 31 -> (String.length (fmt_d z) <= 11)%nat.
Proof.
  intros H. unfold fmt_d.
  assert (P : 10 ^ Z.of_nat 10 = 10000000000) by reflexivity.
  destruct (z <? 0) eqn:E.
  - apply Z.ltb_lt in E.
    pose proof (fmt_u_length (- z) 9) as L.
    change (String.length (String "-" (fmt_u (- z))))
      with (S (String.length (fmt_u (- z)))).
    rewrite P in L. lia.
  - apply Z.ltb_ge in E.
    pose proof (fmt_u_length z 9) as L. rewrite P in L. lia.
Qed.

Lemma to_int_range (z : Z) : - 2 ^ 31 <= to_int z < 2 ^ 31.
Proof.
  unfold to_int. pose proof (Z.mod_pos_bound (z + 2 ^ 31) (2 ^ 32)). lia.
Qed.

Lemma to_int_small (z : Z) : - 2 ^ 31 <= z < 2 ^ 31 -> to_int z = z.
Proof.
  intros H. unfold to_int. rewrite Z.mod_small; lia.
Qed.

Lemma to_uint_small (z : Z) : 0 <= z < 2 ^ 32 -> to_uint z = z.
Proof. intros H. unfold to_uint. now rewrite Z.mod_small. Qed.

End TextFacts.

(** ** Invalid handles *)

(** C7. A query on an invalid handle (library reference NULL, or tag
    [LIBUNKNOWN]) returns with [err] set, by [cuda_check_vram] as by
    [cuda_compute_capability], and ends in the state it started in: the
    world is untouched and the trace has no new call. *)
Theorem invalid_handle_rejected {W : Type} (env : Env W) (h : cuda_handle_t)
    (rm : mem_info_t) (rc : cuda_compute_capability_t) (st : state W) :
  handle h = None \/ lib_t h = LIBUNKNOWN ->
  (exists r, cuda_check_vram env h rm st = Done r st /\ mem_err r <> None)
  /\ (exists r, cuda_compute_capability env h rc st = Done r st
                /\ cc_err r <> None).
Proof.
  intros Hinv. unfold cuda_check_vram, cuda_compute_capability.
  destruct Hinv as [Hnull | Htag].
  - rewrite Hnull. simpl. split; eexists; (split; [reflexivity | discriminate]).
  - rewrite Htag. destruct (handle h); simpl;
      split; eexists; (split; [reflexivity | discriminate]).
Qed.

Lemma invalid_handle_rejected_witness :
  (exists r, cuda_check_vram (Synthetic.env (Synthetic.both nil))
               (Synthetic.blank_handle 0) Synthetic.blank_mem Synthetic.start
             = Done r Synthetic.start /\ mem_err r <> None)
  /\ (exists r, cuda_compute_capability (Synthetic.env (Synthetic.both nil))
                  (Synthetic.blank_handle 0) Synthetic.blank_cc Synthetic.start
                = Done r Synthetic.start /\ cc_err r <> None).
Proof.
  apply (invalid_handle_rejected (Synthetic.env (Synthetic.both nil))
           (Synthetic.blank_handle 0)).
  left. reflexivity.
Defined.

(** ** The caller's error field *)

(** Each of the three operations runs from a result structure with a
    stale [err] exactly as it runs from one whose [err] is NULL. *)
Lemma stale_err_ignored {W : Type} (env : Env W) (path : string)
    (h : cuda_handle_t) (ri : cuda_init_resp_t) (rm : mem_info_t)
    (rc : cuda_compute_capability_t) (e : option string) (st : state W) :
  cuda_init env path (set_init_err e ri) st
    = cuda_init env path (set_init_err None ri) st
  /\ cuda_check_vram env h (set_mem_err e rm) st
     = cuda_check_vram env h (set_mem_err None rm) st
  /\ cuda_compute_capability env h (set_cc_err e rc) st
     = cuda_compute_capability env h (set_cc_err None rc) st.
Proof.
  repeat split.
Qed.

(** ** A library that does not open *)

(** C8, as stated, fails: for a path of 300 characters the error text is
    cut after 255 characters, that is after the first 240 characters of
    the path; it holds neither the whole path nor anything of the loader's
    diagnostic. *)
Lemma load_failure_text_cut :
  exists r st,
    cuda_init (Synthetic.env absent) long_path (Synthetic.blank_init 0)
              Synthetic.start = Done r st
    /\ init_err r
       = Some ("Unable to load " ++ string_of_list_ascii (repeat "a"%char 240))
    /\ ~ Text.contains long_path
          ("Unable to load " ++ string_of_list_ascii (repeat "a"%char 240))
    /\ handle (ch r) = None
    /\ lib_t (ch r) = LIBUNKNOWN.
Proof.
  eexists. eexists.
  split; [vm_compute; reflexivity|].
  split; [reflexivity|].
  split; [|split; reflexivity].
  intros Hc. apply TextFacts.contains_length in Hc.
  vm_compute in Hc. lia.
Qed.

(** C8, amended. When the library does not open, [cuda_init] returns with
    [err] set to the first 255 characters of "Unable to load <path> library
    to query for Nvidia GPUs: <diagnostic>", the library reference NULL and
    the tag [LIBUNKNOWN]; the text holds the path and the diagnostic whole
    whenever the uncut text has at most 255 characters. *)
Theorem load_failure_reported {W : Type} (env : Env W) (path : string)
    (resp : cuda_init_resp_t) (st : state W) (w1 w2 : W) (msg : string) :
  LOAD_LIBRARY env path (world st) = (None, w1) ->
  LOAD_ERR env w1 = (msg, w2) ->
  exists r st',
    cuda_init env path resp st = Done r st'
    /\ init_err r = Some (Text.truncate 255 (load_failure_text path msg))
    /\ handle (ch r) = None
    /\ lib_t (ch r) = LIBUNKNOWN
    /\ ((String.length (load_failure_text path msg) <= 255)%nat ->
        exists text, init_err r = Some text
                     /\ Text.contains path text /\ Text.contains msg text).
Proof.
  intros Hopen Herr.
  unfold cuda_init, bind, load_library. rewrite Hopen. simpl.
  unfold load_err. simpl. rewrite Herr. simpl.
  do 2 eexists. split; [reflexivity|]. simpl.
  repeat split.
  intros Hlen. eexists. split; [reflexivity|].
  change (Text.snprintf buflen ?t) with (Text.truncate 255 t).
  fold (load_failure_text path msg).
  rewrite TextFacts.truncate_all by exact Hlen.
  unfold load_failure_text. split.
  - exists "Unable to load ", (" library to query for Nvidia GPUs: " ++ msg).
    reflexivity.
  - exists ("Unable to load " ++ path ++ " library to query for Nvidia GPUs: "), "".
    rewrite !TextFacts.append_assoc. simpl.
    assert (E : msg ++ "" = msg).
    { clear. induction msg as [|c m IH]; simpl; [reflexivity | now rewrite IH]. }
    now rewrite E.
Qed.

Lemma load_failure_reported_witness :
  exists r st',
    cuda_init (Synthetic.env absent) "libnvidia-ml.so" (Synthetic.blank_init 0)
              Synthetic.start = Done r st'
    /\ init_err r = Some (Text.truncate 255
                            (load_failure_text "libnvidia-ml.so"
                               "cannot open shared object file"))
    /\ handle (ch r) = None
    /\ lib_t (ch r) = LIBUNKNOWN
    /\ ((String.length (load_failure_text "libnvidia-ml.so"
                          "cannot open shared object file") <= 255)%nat ->
        exists text, init_err r = Some text
                     /\ Text.contains "libnvidia-ml.so" text
                     /\ Text.contains "cannot open shared object file" text).
Proof.
  apply (load_failure_reported (Synthetic.env absent) "libnvidia-ml.so"
           (Synthetic.blank_init 0) Synthetic.start 0 0);
    reflexivity.
Defined.

(** ** The loops over the devices *)

Section Loops.

Context {W : Type} (env : Env W) (h : cuda_handle_t).

Lemma describe_runs (device : nvmlDevice_t) (w w' : W) :
  described env h device w w' ->
  forall st, world st = w ->
  exists st', nvml_describe env h device st = Done tt st' /\ world st' = w'.
Proof.
  unfold described, nvml_describe. intros Hd st Hw.
  destruct (verbose h =? 0); simpl.
  - subst. eexists. split; reflexivity.
  - destruct Hd as (f1 & f2 & f3 & f4 & f5 & H1 & H2 & H3 & H4 & H5 & Hw').
    rewrite H1, H2, H3, H4, H5. unfold bind, call. simpl.
    change (Z.of_nat buflen) with 256.
    repeat match goal with
           | |- context [run_nvmlDeviceGetText env ?f ?d ?n ?x] =>
               destruct (run_nvmlDeviceGetText env f d n x) eqn:?; simpl in *
           | |- context [run_nvmlDeviceGetBrand env ?f ?d ?x] =>
               destruct (run_nvmlDeviceGetBrand env f d x) eqn:?; simpl in *
           end.
    eexists. split; [reflexivity|]. simpl. subst.
    repeat match goal with
           | E : _ = (_, _) |- _ => rewrite E in *; simpl in *; clear E
           end.
    reflexivity.
Qed.

Lemma vram_loop_step (i : Z) (w w' : W) (r : Z * Z) :
  vram_reading env h i w r w' ->
  forall rem resp st, world st = w ->
  exists st',
    world st' = w'
    /\ vram_loop env h (S rem) i resp st
       = vram_loop env h rem (i + 1) (add_reading resp r) st'.
Proof.
  intros Hr rem resp st Hw. unfold vram_loop.
  destruct Hr as [f g w1 w2 m_free m_total Ht Hf Hg Hsel Hinfo
                 | f g w1 w2 w3 device m Ht Hf Hg Hidx Hinfo Hdesc];
    rewrite Ht; simpl; rewrite Hf, Hg; unfold bind, call; rewrite Hw.
  - rewrite Hsel. simpl. rewrite Hinfo. simpl.
    eexists. split; [|reflexivity]. reflexivity.
  - rewrite Hidx. simpl. rewrite Hinfo. simpl.
    destruct (describe_runs device w2 w3 Hdesc
                (record (EvCall "nvmlDeviceGetMemoryInfo" g) w2
                   (record (EvCall "nvmlDeviceGetHandleByIndex" f) w1 st))
                eq_refl) as (st' & Hrun & Hw').
    rewrite Hrun. exists st'. split; [exact Hw' | reflexivity].
Qed.

Lemma vram_loop_fleet (i : Z) (w w' : W) (rs : list (Z * Z)) :
  fleet (vram_reading env h) i w rs w' ->
  forall rem resp st, world st = w ->
  exists st',
    world st' = w'
    /\ vram_loop env h (List.length rs + rem) i resp st
       = vram_loop env h rem (i + Z.of_nat (List.length rs))
           (fold_left add_reading rs resp) st'.
Proof.
  induction 1 as [i w | i w r w1 rs w2 Hr Hfl IH]; intros rem resp st Hw.
  - exists st. split; [exact Hw|]. simpl. now rewrite Z.add_0_r.
  - destruct (vram_loop_step i w w1 r Hr (List.length rs + rem)%nat resp st Hw)
      as (st1 & Hw1 & E1).
    destruct (IH rem (add_reading resp r) st1 Hw1) as (st2 & Hw2 & E2).
    exists st2. split; [exact Hw2|].
    simpl List.length. simpl Nat.add. rewrite E1, E2. simpl fold_left.
    f_equal. lia.
Qed.

Lemma vram_loop_failure (i : Z) (w : W) (what : string) (status : Z) :
  vram_failure env h i w what status ->
  forall rem resp st, world st = w ->
  exists st',
    vram_loop env h (S rem) i resp st
    = Done (set_mem_err (Some (device_error what (to_int i) status)) resp) st'.
Proof.
  intros Hf rem resp st Hw. unfold vram_loop.
  destruct Hf as [f status w1 Ht Hf Hsel Hs
                 | f g status answer w1 w2 Ht Hf Hg Hsel Hinfo Hs
                 | f status device w1 Ht Hf Hidx Hs
                 | f g status device m w1 w2 Ht Hf Hg Hidx Hinfo Hs];
    rewrite Ht; simpl; rewrite Hf; try rewrite Hg;
    unfold bind, call; rewrite Hw; apply Z.eqb_neq in Hs.
  - rewrite Hsel, Hs. simpl. eexists. reflexivity.
  - rewrite Hsel. simpl. rewrite Hinfo. destruct answer. rewrite Hs. simpl.
    eexists. reflexivity.
  - rewrite Hidx, Hs. simpl. eexists. reflexivity.
  - rewrite Hidx. simpl. rewrite Hinfo, Hs. simpl. eexists. reflexivity.
Qed.

Lemma vram_loop_done (i : Z) (resp : mem_info_t) (st : state W) :
  lib_t h <> LIBUNKNOWN -> vram_loop env h 0 i resp st = Done resp st.
Proof. unfold vram_loop. destruct (lib_t h); [congruence | reflexivity..]. Qed.

Lemma check_vram_counted (n : Z) (w0 : W) (r0 : mem_info_t) (st : state W) :
  handle h <> None ->
  vram_count env h (world st) n w0 ->
  lib_t h <> LIBUNKNOWN
  /\ exists st0,
      world st0 = w0
      /\ cuda_check_vram env h r0 st
         = vram_loop env h (Z.to_nat n) 0
             (set_free 0 (set_total 0 (set_count n (set_mem_err None r0)))) st0.
Proof.
  intros Hh Hc. unfold cuda_check_vram, vram_loop.
  destruct (handle h) as [lib|]; [|congruence]. simpl.
  destruct Hc as [f c w' Ht Hf Hrun | f c w' Ht Hf Hrun];
    rewrite Ht, Hf; unfold bind, call; rewrite Hrun; simpl;
    (split; [discriminate|]); eexists; (split; [|reflexivity]); reflexivity.
Qed.

End Loops.

(** ** Memory: the sums *)

Lemma to_u64_add_l (a b : Z) : to_u64 (to_u64 a + b) = to_u64 (a + b).
Proof. unfold to_u64. now rewrite Zplus_mod_idemp_l. Qed.

Lemma fold_add_reading_total (rs : list (Z * Z)) :
  forall resp x,
    total resp = to_u64 x ->
    total (fold_left add_reading rs resp) = to_u64 (x + Spec.sum_total rs).
Proof.
  induction rs as [|r rs IH]; intros resp x Hx; simpl.
  - now rewrite Z.add_0_r.
  - rewrite (IH (add_reading resp r) (x + fst r)).
    + f_equal. lia.
    + simpl. rewrite Hx. apply to_u64_add_l.
Qed.

Lemma fold_add_reading_free (rs : list (Z * Z)) :
  forall resp x,
    free resp = to_u64 x ->
    free (fold_left add_reading rs resp) = to_u64 (x + Spec.sum_free rs).
Proof.
  induction rs as [|r rs IH]; intros resp x Hx; simpl.
  - now rewrite Z.add_0_r.
  - rewrite (IH (add_reading resp r) (x + snd r)).
    + f_equal. lia.
    + simpl. rewrite Hx. apply to_u64_add_l.
Qed.

Lemma fold_add_reading_rest (rs : list (Z * Z)) :
  forall resp,
    count (fold_left add_reading rs resp) = count resp
    /\ mem_err (fold_left add_reading rs resp) = mem_err resp.
Proof.
  induction rs as [|r rs IH]; intros resp; simpl; [now split|].
  destruct (IH (add_reading resp r)) as [Hc He]. now rewrite Hc, He.
Qed.

(** C6, as stated, fails: the byte counts are 64-bit and wrap around. Two
    devices of 2^63 bytes each give a total of 0, not 2^64. *)
Lemma vram_total_wraps :
  exists r st,
    cuda_check_vram
      (Synthetic.env (Synthetic.both
         [Synthetic.good (2 ^ 63) 1 8 6; Synthetic.good (2 ^ 63) 1 8 6]))
      (Synthetic.active LIBCUDART 0) Synthetic.blank_mem Synthetic.start
    = Done r st
    /\ mem_err r = None /\ count r = 2
    /\ total r = 0
    /\ Spec.sum_total [(2 ^ 63, 1); (2 ^ 63, 1)] = 2 ^ 64
    /\ total r <> Spec.sum_total [(2 ^ 63, 1); (2 ^ 63, 1)].
Proof.
  eexists. eexists. split; [vm_compute; reflexivity|].
  repeat split. vm_compute. discriminate.
Qed.

(** C6, amended. On a valid handle whose active backend reports [n]
    devices and answers every per-device query with success,
    [cuda_check_vram] returns with [err] NULL, [count] equal to [n], and
    [total] and [free] equal to the sums of the [n] readings modulo 2^64,
    for the runtime as for the management backend; they are the exact sums
    whenever those are below 2^64. *)
Theorem vram_sums_modulo {W : Type} (env : Env W) (h : cuda_handle_t)
    (r0 : mem_info_t) (st : state W) (n : Z) (w0 w1 : W)
    (rs : list (Z * Z)) :
  handle h <> None ->
  vram_count env h (world st) n w0 ->
  fleet (vram_reading env h) 0 w0 rs w1 ->
  Z.of_nat (List.length rs) = n ->
  exists r st',
    cuda_check_vram env h r0 st = Done r st'
    /\ world st' = w1
    /\ mem_err r = None
    /\ count r = n
    /\ total r = Spec.sum_total rs mod 2 ^ 64
    /\ free r = Spec.sum_free rs mod 2 ^ 64
    /\ (0 <= Spec.sum_total rs < 2 ^ 64 -> total r = Spec.sum_total rs)
    /\ (0 <= Spec.sum_free rs < 2 ^ 64 -> free r = Spec.sum_free rs).
Proof.
  intros Hh Hc Hfl Hn.
  destruct (check_vram_counted env h n w0 r0 st Hh Hc) as (Ht & st0 & Hw0 & E0).
  destruct (vram_loop_fleet env h 0 w0 w1 rs Hfl 0%nat
              (set_free 0 (set_total 0 (set_count n (set_mem_err None r0))))
              st0 Hw0) as (st1 & Hw1 & E1).
  rewrite Nat.add_0_r in E1.
  assert (Hlen : Z.to_nat n = List.length rs) by lia.
  rewrite E0, Hlen, E1, vram_loop_done by exact Ht.
  set (start := set_free 0 (set_total 0 (set_count n (set_mem_err None r0)))).
  assert (Htot : total (fold_left add_reading rs start)
                 = Spec.sum_total rs mod 2 ^ 64).
  { rewrite (fold_add_reading_total rs start 0) by reflexivity. reflexivity. }
  assert (Hfree : free (fold_left add_reading rs start)
                  = Spec.sum_free rs mod 2 ^ 64).
  { rewrite (fold_add_reading_free rs start 0) by reflexivity. reflexivity. }
  destruct (fold_add_reading_rest rs start) as [Hcount Herr].
  do 2 eexists. split; [reflexivity|].
  split; [exact Hw1|]. split; [now rewrite Herr|]. split; [now rewrite Hcount|].
  split; [exact Htot|]. split; [exact Hfree|].
  split; intros B.
  - rewrite Htot. now apply Z.mod_small.
  - rewrite Hfree. now apply Z.mod_small.
Qed.

Lemma vram_sums_modulo_witness :
  exists r st',
    cuda_check_vram
      (Synthetic.env (Synthetic.both
         [Synthetic.good 8000000000 2000000000 8 6;
          Synthetic.good 4000000000 1000000000 7 5]))
      (Synthetic.active LIBNVIDIAML 1) Synthetic.blank_mem Synthetic.start
    = Done r st'
    /\ world st' = 0
    /\ mem_err r = None
    /\ count r = 2
    /\ total r = Spec.sum_total [(8000000000, 2000000000);
                                 (4000000000, 1000000000)] mod 2 ^ 64
    /\ free r = Spec.sum_free [(8000000000, 2000000000);
                               (4000000000, 1000000000)] mod 2 ^ 64
    /\ (0 <= Spec.sum_total [(8000000000, 2000000000);
                             (4000000000, 1000000000)] < 2 ^ 64 ->
        total r = Spec.sum_total [(8000000000, 2000000000);
                                  (4000000000, 1000000000)])
    /\ (0 <= Spec.sum_free [(8000000000, 2000000000);
                            (4000000000, 1000000000)] < 2 ^ 64 ->
        free r = Spec.sum_free [(8000000000, 2000000000);
                                (4000000000, 1000000000)]).
Proof.
  apply (vram_sums_modulo
           (Synthetic.env (Synthetic.both
              [Synthetic.good 8000000000 2000000000 8 6;
               Synthetic.good 4000000000 1000000000 7 5]))
           (Synthetic.active LIBNVIDIAML 1) Synthetic.blank_mem
           Synthetic.start 2 0 0).
  - discriminate.
  - apply (vram_count_nvml _ _ _ 7%positive 2 0); reflexivity.
  - eapply fleet_cons.
    { eapply (vram_reading_nvml _ _ _ _ 7%positive 7%positive 0 0 0 0
                {| nvml_total := 8000000000; nvml_free := 2000000000;
                   nvml_used := 6000000000 |}); try reflexivity.
      exists 7%positive, 7%positive, 7%positive, 7%positive, 7%positive.
      repeat split. }
    eapply fleet_cons.
    { eapply (vram_reading_nvml _ _ _ _ 7%positive 7%positive 0 0 0 1
                {| nvml_total := 4000000000; nvml_free := 1000000000;
                   nvml_used := 3000000000 |}); try reflexivity.
      exists 7%positive, 7%positive, 7%positive, 7%positive, 7%positive.
      repeat split. }
    apply fleet_nil.
  - reflexivity.
Defined.

(** ** Memory: a device that fails *)

Lemma device_error_names_index (what : string) (i status : Z) :
  (String.length what <= 244)%nat ->
  Text.contains (Text.fmt_d (to_int i)) (device_error what (to_int i) status).
Proof.
  intros Hlen. unfold device_error, Text.snprintf.
  apply TextFacts.contains_truncate.
  pose proof (TextFacts.fmt_d_length (to_int i) (TextFacts.to_int_range i)).
  simpl Nat.sub. lia.
Qed.

(** C3, as stated, fails: with a first device of 8e9 bytes (2e9 free) and
    a second device that cannot be selected, the result names index 1 and
    still carries the first device's 8e9 and 2e9 in [total] and [free],
    where the caller had left zeros. *)
Lemma vram_failure_carries_partial_sums :
  exists st,
    cuda_check_vram
      (Synthetic.env (Synthetic.both
         [Synthetic.good 8000000000 2000000000 8 6;
          {| Synthetic.d_select := 101; Synthetic.d_query := 0;
             Synthetic.d_total := 4000000000; Synthetic.d_free := 1000000000;
             Synthetic.d_major := 7; Synthetic.d_minor := 5 |}]))
      (Synthetic.active LIBCUDART 0) Synthetic.blank_mem Synthetic.start
    = Done {| total := 8000000000; free := 2000000000; count := 2;
              mem_err := Some "unable to get device handle 1: 101" |} st.
Proof. eexists. vm_compute. reflexivity. Qed.

(** C3, amended. On a valid handle whose backend reports [n] devices, when
    the devices before index [i] answer with success and a step of device
    [i] fails, [cuda_check_vram] returns with [err] set to a text that
    names [i] (and the status); [count] is [n], and [total] and [free] hold
    the sums, modulo 2^64, of the readings of the devices before [i]. *)
Theorem vram_failure_reported {W : Type} (env : Env W) (h : cuda_handle_t)
    (r0 : mem_info_t) (st : state W) (n : Z) (w0 w1 : W)
    (rs : list (Z * Z)) (what : string) (status : Z) :
  handle h <> None ->
  vram_count env h (world st) n w0 ->
  fleet (vram_reading env h) 0 w0 rs w1 ->
  Z.of_nat (List.length rs) < n ->
  vram_failure env h (Z.of_nat (List.length rs)) w1 what status ->
  exists r st',
    cuda_check_vram env h r0 st = Done r st'
    /\ mem_err r
       = Some (device_error what (to_int (Z.of_nat (List.length rs))) status)
    /\ Text.contains (Text.fmt_d (to_int (Z.of_nat (List.length rs))))
         (device_error what (to_int (Z.of_nat (List.length rs))) status)
    /\ count r = n
    /\ total r = Spec.sum_total rs mod 2 ^ 64
    /\ free r = Spec.sum_free rs mod 2 ^ 64.
Proof.
  intros Hh Hc Hfl Hlt Hfail.
  destruct (check_vram_counted env h n w0 r0 st Hh Hc) as (Ht & st0 & Hw0 & E0).
  set (start := set_free 0 (set_total 0 (set_count n (set_mem_err None r0)))) in *.
  assert (Hrem : exists rem, Z.to_nat n = (List.length rs + S rem)%nat).
  { exists (Z.to_nat n - List.length rs - 1)%nat. lia. }
  destruct Hrem as (rem & Hrem).
  destruct (vram_loop_fleet env h 0 w0 w1 rs Hfl (S rem) start st0 Hw0)
    as (st1 & Hw1 & E1).
  destruct (vram_loop_failure env h _ w1 what status Hfail rem
              (fold_left add_reading rs start) st1 Hw1) as (st2 & E2).
  rewrite E0, Hrem, E1. simpl Z.add. rewrite E2.
  destruct (fold_add_reading_rest rs start) as [Hcount Herr].
  do 2 eexists. split; [reflexivity|]. simpl.
  split; [reflexivity|]. split.
  - apply device_error_names_index.
    destruct Hfail; simpl; lia.
  - split; [exact Hcount|]. split.
    + rewrite (fold_add_reading_total rs start 0) by reflexivity. reflexivity.
    + rewrite (fold_add_reading_free rs start 0) by reflexivity. reflexivity.
Qed.

Lemma vram_failure_reported_witness :
  exists r st',
    cuda_check_vram
      (Synthetic.env (Synthetic.both
         [Synthetic.good 8000000000 2000000000 8 6;
          {| Synthetic.d_select := 0; Synthetic.d_query := 999;
             Synthetic.d_total := 4000000000; Synthetic.d_free := 1000000000;
             Synthetic.d_major := 7; Synthetic.d_minor := 5 |}]))
      (Synthetic.active LIBCUDART 0) Synthetic.blank_mem Synthetic.start
    = Done r st'
    /\ mem_err r
       = Some (device_error "device memory info lookup failure " (to_int 1) 999)
    /\ Text.contains (Text.fmt_d (to_int 1))
         (device_error "device memory info lookup failure " (to_int 1) 999)
    /\ count r = 2
    /\ total r = Spec.sum_total [(8000000000, 2000000000)] mod 2 ^ 64
    /\ free r = Spec.sum_free [(8000000000, 2000000000)] mod 2 ^ 64.
Proof.
  apply (vram_failure_reported
           (Synthetic.env (Synthetic.both
              [Synthetic.good 8000000000 2000000000 8 6;
               {| Synthetic.d_select := 0; Synthetic.d_query := 999;
                  Synthetic.d_total := 4000000000; Synthetic.d_free := 1000000000;
                  Synthetic.d_major := 7; Synthetic.d_minor := 5 |}]))
           (Synthetic.active LIBCUDART 0) Synthetic.blank_mem Synthetic.start
           2 0 0 [(8000000000, 2000000000)]
           "device memory info lookup failure " 999).
  - discriminate.
  - apply (vram_count_cudart _ _ _ 7%positive 2 0); reflexivity.
  - eapply fleet_cons; [|apply fleet_nil].
    apply (vram_reading_cudart _ _ _ _ 7%positive 7%positive 0 0);
      reflexivity.
  - simpl. lia.
  - apply (vram_failure_info _ _ _ _ 7%positive 7%positive 999
             (1000000000, 4000000000) 1 1);
      try reflexivity. discriminate.
Defined.

(** ** Compute capability: the reduction *)

Section CapabilityLoops.

Context {W : Type} (env : Env W) (h : cuda_handle_t).

Lemma cc_loop_step (i : Z) (w w' : W) (r : Z * Z) :
  cc_reading env h i w r w' ->
  forall rem resp st, world st = w ->
  exists st',
    world st' = w'
    /\ cc_loop env h (S rem) i resp st
       = cc_loop env h rem (i + 1) (lowest_of resp r) st'.
Proof.
  intros Hr rem resp st Hw. unfold cc_loop.
  destruct Hr as [f g w1 w2 w3 c_major c_minor Ht Hf Hg Hsel Hmaj Hmin
                 | f g w1 w2 device c_major c_minor Ht Hf Hg Hidx Hcap];
    rewrite Ht; simpl; rewrite Hf, Hg; unfold bind, call; rewrite Hw.
  - rewrite Hsel. simpl. rewrite Hmaj. simpl. rewrite Hmin. simpl.
    eexists. split; [|reflexivity]. reflexivity.
  - rewrite Hidx. simpl. rewrite Hcap. simpl.
    eexists. split; [|reflexivity]. reflexivity.
Qed.

Lemma cc_loop_fleet (i : Z) (w w' : W) (rs : list (Z * Z)) :
  fleet (cc_reading env h) i w rs w' ->
  forall resp st, world st = w ->
  exists st',
    world st' = w'
    /\ cc_loop env h (List.length rs) i resp st
       = cc_loop env h 0 (i + Z.of_nat (List.length rs))
           (fold_left lowest_of rs resp) st'.
Proof.
  induction 1 as [i w | i w r w1 rs w2 Hr Hfl IH]; intros resp st Hw.
  - exists st. split; [exact Hw|]. simpl. now rewrite Z.add_0_r.
  - destruct (cc_loop_step i w w1 r Hr (List.length rs) resp st Hw)
      as (st1 & Hw1 & E1).
    destruct (IH (lowest_of resp r) st1 Hw1) as (st2 & Hw2 & E2).
    exists st2. split; [exact Hw2|].
    simpl List.length. rewrite E1, E2. simpl fold_left.
    f_equal. lia.
Qed.

Lemma cc_loop_failure (i : Z) (w : W) (what : string) (status : Z) :
  cc_failure env h i w what status ->
  forall rem resp st, world st = w ->
  exists st',
    cc_loop env h (S rem) i resp st
    = Done (set_cc_err (Some (device_error what (to_int i) status)) resp) st'.
Proof.
  intros Hf rem resp st Hw. unfold cc_loop.
  destruct Hf as [f status w1 Ht Hf Hsel Hs
                 | f g status answer w1 w2 Ht Hf Hg Hsel Hmaj Hs
                 | f g status c_major answer w1 w2 w3 Ht Hf Hg Hsel Hmaj Hmin Hs
                 | f status device w1 Ht Hf Hidx Hs
                 | f g status device answer w1 w2 Ht Hf Hg Hidx Hcap Hs];
    rewrite Ht; simpl; rewrite Hf; try rewrite Hg;
    unfold bind, call; rewrite Hw; apply Z.eqb_neq in Hs.
  - rewrite Hsel, Hs. simpl. eexists. reflexivity.
  - rewrite Hsel. simpl. rewrite Hmaj, Hs. simpl. eexists. reflexivity.
  - rewrite Hsel. simpl. rewrite Hmaj. simpl. rewrite Hmin, Hs. simpl.
    eexists. reflexivity.
  - rewrite Hidx, Hs. simpl. eexists. reflexivity.
  - rewrite Hidx. simpl. rewrite Hcap. destruct answer. rewrite Hs. simpl.
    eexists. reflexivity.
Qed.

Lemma cc_loop_done (i : Z) (resp : cuda_compute_capability_t) (st : state W) :
  lib_t h <> LIBUNKNOWN -> cc_loop env h 0 i resp st = Done resp st.
Proof. unfold cc_loop. destruct (lib_t h); [congruence | reflexivity..]. Qed.

Lemma compute_capability_counted (n : Z) (w0 : W)
    (r0 : cuda_compute_capability_t) (st : state W) :
  handle h <> None ->
  cc_count env h (world st) n w0 ->
  lib_t h <> LIBUNKNOWN
  /\ exists st0,
      world st0 = w0
      /\ cuda_compute_capability env h r0 st
         = cc_loop env h (Z.to_nat n) 0
             (set_minor 0 (set_major 0 (set_cc_err None r0))) st0.
Proof.
  intros Hh Hc. unfold cuda_compute_capability, cc_loop.
  destruct (handle h) as [lib|]; [|congruence]. simpl.
  destruct Hc as [f c w' Ht Hf Hrun | f c w' Ht Hf Hrun];
    rewrite Ht, Hf; unfold bind, call; rewrite Hrun; simpl;
    (split; [discriminate|]); eexists; (split; [|reflexivity]); reflexivity.
Qed.

End CapabilityLoops.

(** The update of the source is the step of the specification. *)
Lemma lowest_is_reduce_step (resp : cuda_compute_capability_t) (r : Z * Z) :
  (major (lowest_of resp r), minor (lowest_of resp r))
  = Spec.reduce_step (major resp, minor resp) r
  /\ cc_err (lowest_of resp r) = cc_err resp.
Proof.
  destruct r as [c_major c_minor]. unfold lowest_of, lowest, Spec.reduce_step.
  simpl fst. simpl snd. rewrite !Z.gtb_ltb.
  destruct ((major resp =? 0) || (c_major <? major resp)); simpl;
    [now split|].
  destruct ((major resp =? c_major) && (c_minor <? minor resp)); simpl;
    now split.
Qed.

Lemma fold_lowest_is_reduce (rs : list (Z * Z)) :
  forall resp,
    (major (fold_left lowest_of rs resp), minor (fold_left lowest_of rs resp))
    = fold_left Spec.reduce_step rs (major resp, minor resp)
    /\ cc_err (fold_left lowest_of rs resp) = cc_err resp.
Proof.
  induction rs as [|r rs IH]; intros resp; simpl; [now split|].
  destruct (IH (lowest_of resp r)) as [Hp He].
  destruct (lowest_is_reduce_step resp r) as [Hs Hk].
  rewrite Hp, He, Hs, Hk. now split.
Qed.

(** C5. On a valid handle whose active backend reports [n] devices and
    answers with the readings [rs], one [(major, minor)] per device,
    [cuda_compute_capability] returns with [err] NULL and the fold of the
    readings from [(0, 0)] under the rule of the specification; with no
    device the result is [(0, 0)]. This holds for the runtime and for the
    management backend. *)
Theorem capability_is_the_fold {W : Type} (env : Env W) (h : cuda_handle_t)
    (r0 : cuda_compute_capability_t) (st : state W) (n : Z) (w0 w1 : W)
    (rs : list (Z * Z)) :
  handle h <> None ->
  cc_count env h (world st) n w0 ->
  fleet (cc_reading env h) 0 w0 rs w1 ->
  List.length rs = Z.to_nat n ->
  exists r st',
    cuda_compute_capability env h r0 st = Done r st'
    /\ world st' = w1
    /\ cc_err r = None
    /\ (major r, minor r) = Spec.reduce rs
    /\ (n = 0 -> major r = 0 /\ minor r = 0).
Proof.
  intros Hh Hc Hfl Hn.
  destruct (compute_capability_counted env h n w0 r0 st Hh Hc)
    as (Ht & st0 & Hw0 & E0).
  set (start := set_minor 0 (set_major 0 (set_cc_err None r0))) in *.
  destruct (cc_loop_fleet env h 0 w0 w1 rs Hfl start st0 Hw0)
    as (st1 & Hw1 & E1).
  rewrite E0, <- Hn, E1, cc_loop_done by exact Ht.
  destruct (fold_lowest_is_reduce rs start) as [Hp He].
  do 2 eexists. split; [reflexivity|].
  split; [exact Hw1|]. split; [now rewrite He|]. split; [exact Hp|].
  intros Hz. subst n. destruct rs; [now split | discriminate].
Qed.

Lemma capability_is_the_fold_witness :
  (exists r st',
     cuda_compute_capability
       (Synthetic.env (Synthetic.both
          [Synthetic.good 1 1 8 6; Synthetic.good 1 1 7 5; Synthetic.good 1 1 8 0]))
       (Synthetic.active LIBCUDART 0)
       {| cc_err := Some "stale"; major := 3; minor := 3 |} Synthetic.start
     = Done r st'
     /\ world st' = 2
     /\ cc_err r = None
     /\ (major r, minor r) = Spec.reduce [(8, 6); (7, 5); (8, 0)]
     /\ (3 = 0 -> major r = 0 /\ minor r = 0))
  /\ (exists r st',
        cuda_compute_capability
          (Synthetic.env (Synthetic.both nil))
          (Synthetic.active LIBNVIDIAML 0) Synthetic.blank_cc Synthetic.start
        = Done r st'
        /\ world st' = 0
        /\ cc_err r = None
        /\ (major r, minor r) = Spec.reduce nil
        /\ (0 = 0 -> major r = 0 /\ minor r = 0)).
Proof.
  split.
  - apply (capability_is_the_fold
             (Synthetic.env (Synthetic.both
                [Synthetic.good 1 1 8 6; Synthetic.good 1 1 7 5;
                 Synthetic.good 1 1 8 0]))
             (Synthetic.active LIBCUDART 0) _ Synthetic.start 3 0 2).
    + discriminate.
    + apply (cc_count_cudart _ _ _ 7%positive 3 0); reflexivity.
    + eapply fleet_cons.
      { apply (cc_reading_cudart _ _ _ _ 7%positive 7%positive 0 0 0); reflexivity. }
      eapply fleet_cons.
      { apply (cc_reading_cudart _ _ _ _ 7%positive 7%positive 1 1 1); reflexivity. }
      eapply fleet_cons.
      { apply (cc_reading_cudart _ _ _ _ 7%positive 7%positive 2 2 2); reflexivity. }
      apply fleet_nil.
    + reflexivity.
  - apply (capability_is_the_fold
             (Synthetic.env (Synthetic.both nil))
             (Synthetic.active LIBNVIDIAML 0) _ Synthetic.start 0 0 0).
    + discriminate.
    + apply (cc_count_nvml _ _ _ 7%positive 0 0); reflexivity.
    + apply fleet_nil.
    + reflexivity.
Defined.

(** ** Capability of a query that fails early *)

(** C10. [cuda_compute_capability] zeroes [major] and [minor] before it
    looks at the handle. When the library reference is NULL, or the tag is
    [LIBUNKNOWN], or the device-count query fails, or a step of the first
    device fails, it returns with [err] set and the pair [(0, 0)],
    whatever the caller had left in the result structure. *)
Theorem capability_zero_on_early_failure {W : Type} (env : Env W)
    (h : cuda_handle_t) (rc : cuda_compute_capability_t) (st : state W) :
  handle h = None
  \/ lib_t h = LIBUNKNOWN
  \/ cc_count_failure env h (world st)
  \/ (exists n w0 what status,
         cc_count env h (world st) n w0 /\ 0 < n
         /\ cc_failure env h 0 w0 what status) ->
  exists r st',
    cuda_compute_capability env h rc st = Done r st'
    /\ cc_err r <> None /\ major r = 0 /\ minor r = 0.
Proof.
  intros Hfail. 
  destruct Hfail as [Hnull | [Htag | [Hcount | Hfirst]]].
  - unfold cuda_compute_capability. rewrite Hnull. simpl. do 2 eexists.
    split; [reflexivity | repeat split; discriminate].
  - unfold cuda_compute_capability. rewrite Htag.
    destruct (handle h); simpl; do 2 eexists;
      (split; [reflexivity | repeat split; discriminate]).
  - unfold cuda_compute_capability. destruct (handle h) eqn:Hh; simpl.
    + destruct Hcount as [f status c w' Ht Hf Hrun Hs | f status c w' Ht Hf Hrun Hs];
        rewrite Ht, Hf; unfold bind, call; rewrite Hrun;
        apply Z.eqb_neq in Hs; rewrite Hs; simpl;
        do 2 eexists; (split; [reflexivity | repeat split; discriminate]).
    + do 2 eexists. split; [reflexivity | repeat split; discriminate].
  - destruct Hfirst as (n & w0 & what & status & Hc & Hn & Hf).
    destruct (handle h) eqn:Hh.
    + assert (Hh' : handle h <> None) by congruence.
      destruct (compute_capability_counted env h n w0 rc st Hh' Hc)
        as (_ & st0 & Hw0 & E0).
      assert (Hrem : exists rem, Z.to_nat n = S rem).
      { exists (Z.to_nat n - 1)%nat. lia. }
      destruct Hrem as (rem & Hrem).
      destruct (cc_loop_failure env h 0 w0 what status Hf rem
                  (set_minor 0 (set_major 0 (set_cc_err None rc))) st0 Hw0)
        as (st1 & E1).
      rewrite E0, Hrem, E1. do 2 eexists.
      split; [reflexivity | repeat split; discriminate].
    + unfold cuda_compute_capability. rewrite Hh. simpl. do 2 eexists.
      split; [reflexivity | repeat split; discriminate].
Qed.

Lemma capability_zero_on_early_failure_witness :
  (exists r st',
     cuda_compute_capability
       (Synthetic.env count_refused) (Synthetic.active LIBNVIDIAML 0)
       {| cc_err := Some "stale"; major := 5; minor := 2 |} Synthetic.start
     = Done r st'
     /\ cc_err r <> None /\ major r = 0 /\ minor r = 0)
  /\ (exists r st',
        cuda_compute_capability
          (Synthetic.env runtime_refuses) (Synthetic.active LIBCUDART 0)
          {| cc_err := None; major := 5; minor := 2 |} Synthetic.start
        = Done r st'
        /\ cc_err r <> None /\ major r = 0 /\ minor r = 0).
Proof.
  split.
  - apply capability_zero_on_early_failure.
    right. right. left.
    eapply cc_count_failure_nvml with (status := 999);
      [reflexivity | reflexivity | reflexivity | discriminate].
  - apply capability_zero_on_early_failure.
    right. right. right. exists 1, 0, "unable to get device handle ", 100.
    split; [|split; [lia|]].
    + apply (cc_count_cudart _ _ _ 7%positive 1 0); reflexivity.
    + apply (cc_failure_select _ _ _ _ 7%positive 100 0);
        [reflexivity | reflexivity | reflexivity | discriminate].
Defined.

(** ** Initialization *)

Example symbol_of_field : symbol F_cudaSetDevice = "cudaSetDevice".
Proof. reflexivity. Qed.

Lemma l_is_table : l = (map entry table ++ [stop])%list.
Proof. reflexivity. Qed.

Lemma symbols_are_table : symbols = map fst table.
Proof. reflexivity. Qed.

Lemma handle_store (f : field) (v : option address) (h : cuda_handle_t) :
  handle (store f v h) = handle h.
Proof. reflexivity. Qed.

(** The loop resolves every name of a table of well-formed entries,
    whatever the loader answers, and falls through at the end mark. *)
Lemma wire_symbols_table {W : Type} (env : Env W)
    (t : list (string * field)) :
  forall (resp : cuda_init_resp_t) (st : state W),
    wire_symbols env (map entry t ++ [stop])%list resp st
    = Done (Next (fold_left (resolve_entry env (world st)) t resp))
           {| world := world st;
              trace := (trace st
                        ++ map (fun nf => EvLoadSymbol (handle (ch resp)) (fst nf))
                               t)%list |}.
Proof.
  induction t as [|[name f] t IH]; intros resp st.
  - simpl. rewrite app_nil_r. now destruct st.
  - cbn [map app]. unfold wire_symbols; fold (wire_symbols env).
    cbn [entry s p fst snd is_null].
    unfold bind, load_symbol, store_through, ret.
    rewrite IH. unfold record. cbn [world trace fold_left].
    unfold resolve_entry at 2. cbn [fst snd].
    unfold set_ch at 2. cbn [ch]. rewrite handle_store.
    rewrite <- app_assoc. reflexivity.
Qed.

Lemma resolved_table_is_wired {W : Type} (env : Env W) (w : W)
    (resp : cuda_init_resp_t) :
  fold_left (resolve_entry env w) table resp = set_ch (wired env w (ch resp)) resp.
Proof. vm_compute. reflexivity. Qed.

(** The loop over [l] resolves all eighteen names whatever the loader
    answers, and always falls through to the activation. *)
Lemma wire_symbols_l {W : Type} (env : Env W) (resp : cuda_init_resp_t)
    (st : state W) :
  wire_symbols env l resp st
  = Done (Next (set_ch (wired env (world st) (ch resp)) resp))
         {| world := world st;
            trace := (trace st
                      ++ map (EvLoadSymbol (handle (ch resp))) symbols)%list |}.
Proof.
  rewrite l_is_table, wire_symbols_table, resolved_table_is_wired.
  rewrite symbols_are_table, map_map. reflexivity.
Qed.

(** [cuda_init] up to the activation: the library is opened and the
    eighteen names are resolved in it. *)
Lemma cuda_init_opened {W : Type} (env : Env W) (path : string)
    (resp : cuda_init_resp_t) (st : state W) (lib : address) (w1 : W) :
  LOAD_LIBRARY env path (world st) = (Some lib, w1) ->
  exists r1,
    handle (ch r1) = Some lib
    /\ lib_t (ch r1) = LIBUNKNOWN
    /\ (forall g, load g (ch r1) = LOAD_SYMBOL env (Some lib) (symbol g) w1)
    /\ cuda_init env path resp st
       = bind (activate env r1)
              (fun activated =>
                 match activated with
                 | Return r => ret r
                 | Next r => report_driver_version env r
                 end)
              {| world := w1;
                 trace := (trace st ++ EvLoadLibrary path
                             :: map (EvLoadSymbol (Some lib)) symbols)%list |}.
Proof.
  intros Hopen.
  exists (set_ch (wired env w1
                    (set_handle (Some lib) (set_lib_t LIBUNKNOWN (ch resp))))
                 (set_init_err None resp)).
  split; [reflexivity|]. split; [reflexivity|].
  split; [intros g; destruct g; reflexivity|].
  unfold cuda_init. unfold bind at 1. unfold load_library. rewrite Hopen.
  cbn [set_ch ch set_handle make_handle handle is_null].
  unfold bind at 1. rewrite wire_symbols_l.
  unfold record. cbn [world trace]. rewrite <- app_assoc. reflexivity.
Qed.

(** C4, as stated, fails: in a library with every symbol, when
    [cudaSetDevice(0)] answers 100, [cuda_init] returns an error at once;
    [nvmlInit_v2], which would have answered success, is never called. *)
Lemma runtime_failure_stops_init :
  exists r st,
    cuda_init (Synthetic.env runtime_refuses) "libcudart.so"
              (Synthetic.blank_init 0) Synthetic.start = Done r st
    /\ init_err r = Some "cudart vram init failure: 100"
    /\ lib_t (ch r) = LIBUNKNOWN
    /\ handle (ch r) = None
    /\ run_nvmlInit_v2 (Synthetic.env runtime_refuses) 7%positive 0
       = (NVML_SUCCESS, 0)
    /\ trace st
       = (EvLoadLibrary "libcudart.so"
            :: map (EvLoadSymbol (Some 1%positive)) symbols
            ++ [EvCall "cudaSetDevice" 7%positive;
                EvUnloadLibrary (Some 1%positive)])%list.
Proof.
  eexists. eexists. split; [vm_compute; reflexivity|].
  repeat split.
Qed.

(** C4, amended. With the library open and [cudaSetDevice] resolved: when
    [cudaSetDevice(0)] answers a status other than success, [cuda_init]
    releases the library and returns with [err] naming the status, the
    library reference NULL and the tag [LIBUNKNOWN], and calls
    [nvmlInit_v2] nowhere. The fallback is on the pointer, not on the
    call: in no run that returns with [cudaSetDevice] resolved, whatever
    [cudaSetDevice(0)] answers, is [nvmlInit_v2] called. *)
Theorem activation_order {W : Type} (env : Env W) (path : string)
    (resp : cuda_init_resp_t) (st : state W) (lib : address) (w1 : W) :
  LOAD_LIBRARY env path (world st) = (Some lib, w1) ->
  (forall f status w2,
      LOAD_SYMBOL env (Some lib) "cudaSetDevice" w1 = Some f ->
      run_cudaSetDevice env f 0 w1 = (status, w2) ->
      status <> CUDART_SUCCESS ->
      exists r st',
        cuda_init env path resp st = Done r st'
        /\ init_err r
           = Some (Text.snprintf buflen
                     ("cudart vram init failure: " ++ Text.fmt_d status))
        /\ handle (ch r) = None
        /\ lib_t (ch r) = LIBUNKNOWN
        /\ trace st'
           = (trace st
              ++ EvLoadLibrary path
                   :: map (EvLoadSymbol (Some lib)) symbols
              ++ [EvCall "cudaSetDevice" f; EvUnloadLibrary (Some lib)])%list
        /\ (forall g, In (EvCall "nvmlInit_v2" g) (trace st') ->
                      In (EvCall "nvmlInit_v2" g) (trace st)))
  /\ (forall f r st',
         LOAD_SYMBOL env (Some lib) "cudaSetDevice" w1 = Some f ->
         cuda_init env path resp st = Done r st' ->
         forall g, In (EvCall "nvmlInit_v2" g) (trace st') ->
                   In (EvCall "nvmlInit_v2" g) (trace st)).
Proof.
  intros Hopen.
  destruct (cuda_init_opened env path resp st lib w1 Hopen)
    as (r1 & Hlib & Htag & Hload & E).
  pose proof (Hload F_cudaSetDevice) as Hset.
  pose proof (Hload F_cudaDriverGetVersion) as Hver.
  cbn [load] in Hset, Hver.
  change (symbol F_cudaSetDevice) with "cudaSetDevice" in Hset.
  assert (Hnew : forall f status w2,
             LOAD_SYMBOL env (Some lib) "cudaSetDevice" w1 = Some f ->
             run_cudaSetDevice env f 0 w1 = (status, w2) ->
             status <> CUDART_SUCCESS ->
             cuda_init env path resp st
             = Done (set_init_err
                       (Some (Text.snprintf buflen
                                ("cudart vram init failure: "
                                 ++ Text.fmt_d status)))
                       (set_ch (set_handle None (ch r1)) r1))
                    {| world := UNLOAD_LIBRARY env (Some lib) w2;
                       trace := (trace st
                                 ++ EvLoadLibrary path
                                      :: map (EvLoadSymbol (Some lib)) symbols
                                 ++ [EvCall "cudaSetDevice" f;
                                     EvUnloadLibrary (Some lib)])%list |}).
  { intros f status w2 Hf Hrun Hs.
    rewrite E. unfold bind at 1. unfold activate.
    rewrite Hset, Hf. cbn [is_null negb].
    unfold bind at 1. unfold call. cbn [world]. rewrite Hrun.
    apply Z.eqb_neq in Hs. rewrite Hs. cbn [negb].
    unfold bind, unload_library, ret, record. cbn [world trace].
    rewrite Hlib, <- !app_assoc. reflexivity. }
  assert (Hfresh : forall g (tail : list event),
             (forall e, In e tail -> e <> EvCall "nvmlInit_v2" g) ->
             In (EvCall "nvmlInit_v2" g)
                (trace st
                 ++ EvLoadLibrary path
                      :: map (EvLoadSymbol (Some lib)) symbols ++ tail)%list ->
             In (EvCall "nvmlInit_v2" g) (trace st)).
  { intros g tail Htail Hin.
    apply in_app_or in Hin. destruct Hin as [Hin | Hin]; [exact Hin|].
    exfalso. destruct Hin as [Hin | Hin]; [discriminate|].
    apply in_app_or in Hin. destruct Hin as [Hin | Hin].
    - apply in_map_iff in Hin. destruct Hin as (x & Hx & _). discriminate.
    - exact (Htail _ Hin eq_refl). }
  split.
  - intros f status w2 Hf Hrun Hs.
    rewrite (Hnew f status w2 Hf Hrun Hs).
    do 2 eexists. split; [reflexivity|].
    split; [reflexivity|]. split; [reflexivity|]. split; [exact Htag|].
    split; [reflexivity|].
    intros g Hin. cbn [trace] in Hin.
    apply (Hfresh g _) in Hin; [exact Hin|].
    intros e [<- | [<- | []]]; discriminate.
  - intros f r st' Hf H g Hin.
    destruct (run_cudaSetDevice env f 0 w1) as [status w2] eqn:Hrun.
    destruct (Z.eq_dec status CUDART_SUCCESS) as [Hs | Hs].
    + subst status. rewrite E in H. unfold bind at 1 in H.
      unfold activate in H. rewrite Hset, Hf in H. cbn [is_null negb] in H.
      unfold bind at 1 in H. unfold call in H. cbn [world] in H.
      rewrite Hrun in H. cbn [Z.eqb CUDART_SUCCESS negb] in H.
      unfold ret at 1 in H. unfold report_driver_version in H.
      cbn [set_ch ch set_lib_t make_handle lib_t cudaDriverGetVersion load] in H.
      unfold bind, call, ret in H.
      destruct (cudaDriverGetVersion (ch r1)) as [d|]; [|discriminate].
      destruct (run_cudaDriverGetVersion env d _) as [answer w3].
      inversion H; subst; clear H.
      unfold record in Hin. cbn [trace] in Hin.
      rewrite <- !app_assoc in Hin.
      apply (Hfresh g _) in Hin; [exact Hin|].
      intros e [<- | [<- | []]]; discriminate.
    + rewrite (Hnew f status w2 Hf Hrun Hs) in H.
      inversion H; subst; clear H. cbn [trace] in Hin.
      apply (Hfresh g _) in Hin; [exact Hin|].
      intros e [<- | [<- | []]]; discriminate.
Qed.

Lemma activation_order_witness :
  (exists r st',
     cuda_init (Synthetic.env runtime_refuses) "libcudart.so"
               (Synthetic.blank_init 0) Synthetic.start = Done r st'
     /\ init_err r
        = Some (Text.snprintf buflen
                  ("cudart vram init failure: " ++ Text.fmt_d 100))
     /\ handle (ch r) = None
     /\ lib_t (ch r) = LIBUNKNOWN
     /\ trace st'
        = (trace Synthetic.start
           ++ EvLoadLibrary "libcudart.so"
                :: map (EvLoadSymbol (Some 1%positive)) symbols
           ++ [EvCall "cudaSetDevice" 7%positive;
               EvUnloadLibrary (Some 1%positive)])%list
     /\ (forall g, In (EvCall "nvmlInit_v2" g) (trace st') ->
                   In (EvCall "nvmlInit_v2" g) (trace Synthetic.start)))
  /\ (exists r st',
        cuda_init (Synthetic.env (Synthetic.both [Synthetic.good 1 1 8 6]))
                  "libcudart.so" (Synthetic.blank_init 0) Synthetic.start
        = Done r st'
        /\ init_err r = None
        /\ forall g, In (EvCall "nvmlInit_v2" g) (trace st') ->
                     In (EvCall "nvmlInit_v2" g) (trace Synthetic.start)).
Proof.
  split.
  - apply (proj1 (activation_order (Synthetic.env runtime_refuses)
                    "libcudart.so" (Synthetic.blank_init 0) Synthetic.start
                    1%positive 0 eq_refl) 7%positive 100 0);
      [reflexivity | reflexivity | discriminate].
  - eexists. eexists. split; [vm_compute; reflexivity|].
    split; [reflexivity|].
    eapply (proj2 (activation_order
                     (Synthetic.env (Synthetic.both [Synthetic.good 1 1 8 6]))
                     "libcudart.so" (Synthetic.blank_init 0) Synthetic.start
                     1%positive 0 eq_refl) 7%positive);
      [reflexivity | vm_compute; reflexivity].
Defined.

(** Whatever the library, an activation of the management backend ends in
    the [default] label of the switch. *)
Lemma management_activation_ends_in_default {W : Type} (env : Env W)
    (path : string) (resp : cuda_init_resp_t) (st : state W)
    (lib g d : address) (w1 w2 : W) :
  LOAD_LIBRARY env path (world st) = (Some lib, w1) ->
  LOAD_SYMBOL env (Some lib) "cudaSetDevice" w1 = None ->
  LOAD_SYMBOL env (Some lib) "nvmlInit_v2" w1 = Some g ->
  LOAD_SYMBOL env (Some lib) "nvmlSystemGetDriverVersion" w1 = Some d ->
  run_nvmlInit_v2 env g w1 = (NVML_SUCCESS, w2) ->
  exists r st',
    cuda_init env path resp st = Done r st'
    /\ lib_t (ch r) = LIBNVIDIAML
    /\ handle (ch r) = None
    /\ init_err r
       = Some "unknown error: dlsym succeded but function pointers are unassigned".
Proof.
  intros Hopen Hnone Hg Hd Hrun.
  destruct (cuda_init_opened env path resp st lib w1 Hopen)
    as (r1 & Hlib & Htag & Hload & E).
  pose proof (Hload F_cudaSetDevice) as Hset.
  pose proof (Hload F_nvmlInit_v2) as Hinit.
  pose proof (Hload F_nvmlSystemGetDriverVersion) as Hver.
  cbn [load] in Hset, Hinit, Hver.
  change (symbol F_cudaSetDevice) with "cudaSetDevice" in Hset.
  change (symbol F_nvmlInit_v2) with "nvmlInit_v2" in Hinit.
  change (symbol F_nvmlSystemGetDriverVersion)
    with "nvmlSystemGetDriverVersion" in Hver.
  rewrite E. unfold bind at 1. unfold activate.
  rewrite Hset, Hnone, Hinit, Hg. cbn [is_null negb].
  unfold bind at 1. unfold call. cbn [world]. rewrite Hrun.
  cbn [Z.eqb NVML_SUCCESS negb]. unfold ret at 1.
  unfold report_driver_version.
  cbn [set_ch ch set_lib_t make_handle lib_t nvmlSystemGetDriverVersion load].
  rewrite Hver, Hd. unfold bind, call, report_default, unload_library, ret.
  destruct (run_nvmlSystemGetDriverVersion env d (Z.of_nat buflen) _)
    as [answer w3].
  do 2 eexists. split; [reflexivity|]. repeat split.
Qed.

(** C1: the code at the failing input. A management library (no runtime
    symbol) whose [nvmlInit_v2] and [nvmlSystemGetDriverVersion] both
    answer success: the backend is activated with tag [LIBNVIDIAML], the
    driver version is asked for, and the run goes on into the [default]
    label, which drops the library reference and sets [err]. *)
Lemma management_version_report_fails_init :
  exists r st,
    cuda_init (Synthetic.env (Synthetic.management_only
                                [Synthetic.good 8000000000 2000000000 8 6]))
              "libnvidia-ml.so" (Synthetic.blank_init 0) Synthetic.start
    = Done r st
    /\ lib_t (ch r) = LIBNVIDIAML
    /\ init_err r
       = Some "unknown error: dlsym succeded but function pointers are unassigned"
    /\ handle (ch r) = None
    /\ trace st
       = (EvLoadLibrary "libnvidia-ml.so"
            :: map (EvLoadSymbol (Some 1%positive)) symbols
            ++ [EvCall "nvmlInit_v2" 7%positive;
                EvCall "nvmlSystemGetDriverVersion" 7%positive;
                EvUnloadLibrary None])%list.
Proof.
  eexists. eexists. split; [vm_compute; reflexivity|].
  repeat split.
Qed.

(** The runtime case of the same switch ends with [break]: the handle and
    the error field stay as the activation left them. *)
Lemma runtime_version_report_keeps_init :
  exists r st,
    cuda_init (Synthetic.env (Synthetic.both
                                [Synthetic.good 8000000000 2000000000 8 6]))
              "libcudart.so" (Synthetic.blank_init 0) Synthetic.start
    = Done r st
    /\ lib_t (ch r) = LIBCUDART
    /\ init_err r = None
    /\ handle (ch r) = Some 1%positive
    /\ trace st
       = (EvLoadLibrary "libcudart.so"
            :: map (EvLoadSymbol (Some 1%positive)) symbols
            ++ [EvCall "cudaSetDevice" 7%positive;
                EvCall "cudaDriverGetVersion" 7%positive])%list.
Proof.
  eexists. eexists. split; [vm_compute; reflexivity|].
  repeat split.
Qed.

(** C2: the code at the failing input. The library lacks [nvmlInit_v2],
    the first name of the table: the loader answers NULL, the other
    seventeen names are resolved all the same, the runtime backend is
    activated and [cuda_init] returns with [err] NULL, the library still
    open and the field [nvmlInit_v2] NULL. *)
Lemma unresolved_symbol_goes_unnoticed :
  exists r st,
    LOAD_SYMBOL (Synthetic.env lacks_nvmlInit) (Some 1%positive)
                "nvmlInit_v2" 0 = None
    /\ cuda_init (Synthetic.env lacks_nvmlInit) "libcudart.so"
                 (Synthetic.blank_init 0) Synthetic.start = Done r st
    /\ init_err r = None
    /\ nvmlInit_v2 (ch r) = None
    /\ lib_t (ch r) = LIBCUDART
    /\ handle (ch r) = Some 1%positive
    /\ trace st
       = (EvLoadLibrary "libcudart.so"
            :: map (EvLoadSymbol (Some 1%positive)) symbols
            ++ [EvCall "cudaSetDevice" 7%positive;
                EvCall "cudaDriverGetVersion" 7%positive])%list.
Proof.
  eexists. eexists. split; [reflexivity|].
  split; [vm_compute; reflexivity|].
  repeat split.
Qed.

(** ** What [cuda_init] hands back *)

Lemma snprintf_length (t : string) :
  (String.length (Text.snprintf buflen t) <= 255)%nat.
Proof. apply TextFacts.truncate_length. Qed.

(** [cuda_init] from the open library on, with the result structure told. *)
Lemma cuda_init_wired {W : Type} (env : Env W) (path : string)
    (resp : cuda_init_resp_t) (st : state W) (lib : address) (w1 : W) :
  LOAD_LIBRARY env path (world st) = (Some lib, w1) ->
  cuda_init env path resp st
  = bind (activate env (opened env lib w1 resp))
         (fun activated =>
            match activated with
            | Return r => ret r
            | Next r => report_driver_version env r
            end)
         {| world := w1;
            trace := (trace st ++ EvLoadLibrary path
                        :: map (EvLoadSymbol (Some lib)) symbols)%list |}.
Proof.
  intros Hopen.
  unfold cuda_init. unfold bind at 1. unfold load_library. rewrite Hopen.
  cbn [set_ch ch set_handle make_handle handle is_null].
  unfold bind at 1. rewrite wire_symbols_l.
  unfold record. cbn [world trace]. rewrite <- app_assoc. reflexivity.
Qed.

Lemma opened_fields {W : Type} (env : Env W) (lib : address) (w : W)
    (resp : cuda_init_resp_t) :
  handle (ch (opened env lib w resp)) = Some lib
  /\ lib_t (ch (opened env lib w resp)) = LIBUNKNOWN
  /\ verbose (ch (opened env lib w resp)) = verbose (ch resp)
  /\ init_err (opened env lib w resp) = None
  /\ forall g, load g (ch (opened env lib w resp))
               = LOAD_SYMBOL env (Some lib) (symbol g) w.
Proof.
  repeat split. intros g. destruct g; reflexivity.
Qed.

(** Every way the activation and the version report can end. *)
Lemma init_tail_cases {W : Type} (env : Env W) (r1 r : cuda_init_resp_t)
    (st st' : state W) (lib : address) :
  handle (ch r1) = Some lib ->
  lib_t (ch r1) = LIBUNKNOWN ->
  init_err r1 = None ->
  bind (activate env r1)
       (fun activated =>
          match activated with
          | Return r => ret r
          | Next r => report_driver_version env r
          end) st = Done r st' ->
  verbose (ch r) = verbose (ch r1)
  /\ (forall g, load g (ch r) = load g (ch r1))
  /\ ((init_err r = None /\ handle (ch r) = Some lib
       /\ lib_t (ch r) = LIBCUDART)
      \/ (exists msg, init_err r = Some msg
                      /\ (String.length msg <= 255)%nat
                      /\ handle (ch r) = None
                      /\ lib_t (ch r) <> LIBCUDART)).
Proof.
  intros Hlib Htag Herr H.
  unfold bind at 1 in H. unfold activate in H.
  destruct (cudaSetDevice (ch r1)) as [f|] eqn:Hset; cbn [is_null negb] in H.
  - unfold bind at 1 in H. unfold call in H.
    destruct (run_cudaSetDevice env f 0 (world st)) as [status w2].
    destruct (status =? CUDART_SUCCESS) eqn:Hs; cbn [negb] in H.
    + unfold ret at 1 in H. unfold report_driver_version in H.
      cbn [set_ch ch set_lib_t make_handle lib_t cudaDriverGetVersion load] in H.
      unfold bind, call, ret in H.
      destruct (cudaDriverGetVersion (ch r1)) as [d|]; [|discriminate].
      destruct (run_cudaDriverGetVersion env d _) as [answer w3].
      inversion H; subst; clear H.
      split; [reflexivity|]. split; [intros g; destruct g; reflexivity|].
      left. cbn. auto.
    + unfold bind, unload_library, ret in H. inversion H; subst; clear H.
      split; [reflexivity|]. split; [intros g; destruct g; reflexivity|].
      right. eexists. split; [reflexivity|].
      split; [apply snprintf_length|]. cbn. rewrite Htag.
      split; [reflexivity | discriminate].
  - destruct (nvmlInit_v2 (ch r1)) as [g0|] eqn:Hinit; cbn [is_null negb] in H.
    + unfold bind at 1 in H. unfold call in H.
      destruct (run_nvmlInit_v2 env g0 (world st)) as [status w2].
      destruct (status =? NVML_SUCCESS) eqn:Hs; cbn [negb] in H.
      * unfold ret at 1 in H. unfold report_driver_version in H.
        cbn [set_ch ch set_lib_t make_handle lib_t
             nvmlSystemGetDriverVersion load] in H.
        unfold bind, call, report_default, unload_library, ret in H.
        destruct (nvmlSystemGetDriverVersion (ch r1)) as [d|]; [|discriminate].
        destruct (run_nvmlSystemGetDriverVersion env d _ _) as [answer w3].
        inversion H; subst; clear H.
        split; [reflexivity|]. split; [intros g; destruct g; reflexivity|].
        right. eexists. split; [reflexivity|].
        split; [apply snprintf_length|]. cbn.
        split; [reflexivity | discriminate].
      * unfold bind, unload_library, ret in H. inversion H; subst; clear H.
        split; [reflexivity|]. split; [intros g; destruct g; reflexivity|].
        right. eexists. split; [reflexivity|].
        split; [apply snprintf_length|]. cbn. rewrite Htag.
        split; [reflexivity | discriminate].
    + unfold ret at 1 in H. unfold report_driver_version in H.
      rewrite Htag in H.
      unfold bind, report_default, unload_library, ret in H.
      inversion H; subst; clear H.
      split; [reflexivity|]. split; [intros g; destruct g; reflexivity|].
      right. eexists. split; [reflexivity|].
      split; [apply snprintf_length|]. cbn. rewrite Htag.
      split; [reflexivity | discriminate].
Qed.

(** X1. Whenever [cuda_init] returns, the three marks of success agree:
    [err] is NULL exactly when the library reference is not, and exactly
    when the tag is [LIBCUDART] ("If err is non-null handle is invalid");
    a text in [err] has at most 255 characters, and the verbosity the
    caller had put in the handle is still there. *)
Theorem init_result_consistent {W : Type} (env : Env W) (path : string)
    (resp r : cuda_init_resp_t) (st st' : state W) :
  cuda_init env path resp st = Done r st' ->
  (init_err r = None <-> handle (ch r) <> None)
  /\ (init_err r = None <-> lib_t (ch r) = LIBCUDART)
  /\ (forall msg, init_err r = Some msg -> (String.length msg <= 255)%nat)
  /\ verbose (ch r) = verbose (ch resp).
Proof.
  intros H.
  destruct (LOAD_LIBRARY env path (world st)) as [[lib|] w1] eqn:Hopen.
  - rewrite (cuda_init_wired env path resp st lib w1 Hopen) in H.
    destruct (opened_fields env lib w1 resp) as (Hl & Ht & Hv & He & _).
    destruct (init_tail_cases env _ r _ st' lib Hl Ht He H)
      as (Hverb & _ & [(E1 & E2 & E3) | (msg & E1 & E2 & E3 & E4)]).
    + rewrite E1, E2, E3. repeat split; try congruence; try discriminate.
    + rewrite E1, E3. repeat split; try congruence; try discriminate.
  - unfold cuda_init in H. unfold bind at 1 in H. unfold load_library in H.
    rewrite Hopen in H. cbn [set_ch ch set_handle make_handle handle is_null] in H.
    unfold bind, load_err, ret in H.
    destruct (LOAD_ERR env _) as [msg w2]. inversion H; subst; clear H.
    cbn [init_err ch handle lib_t verbose set_init_err set_ch set_handle
         set_lib_t make_handle].
    repeat split; try congruence; try discriminate.
    intros m Hm. inversion Hm; subst. apply snprintf_length.
Qed.

Lemma init_result_consistent_witness :
  exists r st',
    cuda_init (Synthetic.env runtime_refuses) "libcudart.so"
              (Synthetic.blank_init 3) Synthetic.start = Done r st'
    /\ (init_err r = None <-> handle (ch r) <> None)
    /\ (init_err r = None <-> lib_t (ch r) = LIBCUDART)
    /\ (forall msg, init_err r = Some msg -> (String.length msg <= 255)%nat)
    /\ verbose (ch r) = verbose (ch (Synthetic.blank_init 3)).
Proof.
  eexists. eexists. split; [vm_compute; reflexivity|].
  eapply (init_result_consistent (Synthetic.env runtime_refuses)
            "libcudart.so" (Synthetic.blank_init 3) _ Synthetic.start).
  vm_compute. reflexivity.
Defined.

(** ** The paths of the activation *)

(** The run of [cuda_init] that activates the runtime backend. *)
Lemma runtime_init_run {W : Type} (env : Env W) (path : string)
    (resp : cuda_init_resp_t) (st : state W) (lib f d : address)
    (w1 w2 : W) :
  LOAD_LIBRARY env path (world st) = (Some lib, w1) ->
  LOAD_SYMBOL env (Some lib) "cudaSetDevice" w1 = Some f ->
  run_cudaSetDevice env f 0 w1 = (CUDART_SUCCESS, w2) ->
  LOAD_SYMBOL env (Some lib) "cudaDriverGetVersion" w1 = Some d ->
  exists r st',
    cuda_init env path resp st = Done r st'
    /\ init_err r = None
    /\ handle (ch r) = Some lib
    /\ lib_t (ch r) = LIBCUDART
    /\ (forall g, load g (ch r) = LOAD_SYMBOL env (Some lib) (symbol g) w1)
    /\ world st' = snd (run_cudaDriverGetVersion env d w2)
    /\ trace st'
       = (trace st
          ++ EvLoadLibrary path
               :: map (EvLoadSymbol (Some lib)) symbols
          ++ [EvCall "cudaSetDevice" f; EvCall "cudaDriverGetVersion" d])%list.
Proof.
  intros Hopen Hf Hrun Hd.
  rewrite (cuda_init_wired env path resp st lib w1 Hopen).
  destruct (opened_fields env lib w1 resp) as (Hl & Ht & Hv & He & Hload).
  pose proof (Hload F_cudaSetDevice) as Hset.
  pose proof (Hload F_cudaDriverGetVersion) as Hver.
  cbn [load] in Hset, Hver.
  change (symbol F_cudaSetDevice) with "cudaSetDevice" in Hset.
  change (symbol F_cudaDriverGetVersion) with "cudaDriverGetVersion" in Hver.
  unfold bind at 1. unfold activate. rewrite Hset, Hf. cbn [is_null negb].
  unfold bind at 1. unfold call. cbn [world]. rewrite Hrun.
  cbn [Z.eqb CUDART_SUCCESS negb]. unfold ret at 1.
  unfold report_driver_version.
  cbn [set_ch ch set_lib_t make_handle lib_t cudaDriverGetVersion load].
  rewrite Hver, Hd. unfold bind, call, ret. cbn [world record].
  destruct (run_cudaDriverGetVersion env d w2) as [answer w3].
  do 2 eexists. split; [reflexivity|].
  split; [exact He|]. split; [exact Hl|]. split; [reflexivity|].
  split; [intros g; rewrite <- Hload; destruct g; reflexivity|].
  split; [reflexivity|].
  unfold record. cbn [trace]. rewrite <- !app_assoc. reflexivity.
Qed.

(** X2. With the library open, [cudaSetDevice] resolved and answering
    success for device 0, and [cudaDriverGetVersion] resolved, [cuda_init]
    returns the runtime backend: [err] NULL, the library reference kept,
    tag [LIBCUDART], every field of the table holding what the loader
    answered for its name. The status of the version query plays no part,
    [nvmlInit_v2] is not called even when it is resolved, and the library
    is not released. *)
Theorem runtime_init_succeeds {W : Type} (env : Env W) (path : string)
    (resp : cuda_init_resp_t) (st : state W) (lib f d : address)
    (w1 w2 : W) :
  LOAD_LIBRARY env path (world st) = (Some lib, w1) ->
  LOAD_SYMBOL env (Some lib) "cudaSetDevice" w1 = Some f ->
  run_cudaSetDevice env f 0 w1 = (CUDART_SUCCESS, w2) ->
  LOAD_SYMBOL env (Some lib) "cudaDriverGetVersion" w1 = Some d ->
  exists r st',
    cuda_init env path resp st = Done r st'
    /\ init_err r = None
    /\ handle (ch r) = Some lib
    /\ lib_t (ch r) = LIBCUDART
    /\ (forall g, load g (ch r) = LOAD_SYMBOL env (Some lib) (symbol g) w1)
    /\ world st' = snd (run_cudaDriverGetVersion env d w2)
    /\ trace st'
       = (trace st
          ++ EvLoadLibrary path
               :: map (EvLoadSymbol (Some lib)) symbols
          ++ [EvCall "cudaSetDevice" f; EvCall "cudaDriverGetVersion" d])%list.
Proof.
  intros Hopen Hf Hrun Hd.
  rewrite (cuda_init_wired env path resp st lib w1 Hopen).
  destruct (opened_fields env lib w1 resp) as (Hl & Ht & Hv & He & Hload).
  pose proof (Hload F_cudaSetDevice) as Hset.
  pose proof (Hload F_cudaDriverGetVersion) as Hver.
  cbn [load] in Hset, Hver.
  change (symbol F_cudaSetDevice) with "cudaSetDevice" in Hset.
  change (symbol F_cudaDriverGetVersion) with "cudaDriverGetVersion" in Hver.
  unfold bind at 1. unfold activate. rewrite Hset, Hf. cbn [is_null negb].
  unfold bind at 1. unfold call. cbn [world]. rewrite Hrun.
  cbn [Z.eqb CUDART_SUCCESS negb]. unfold ret at 1.
  unfold report_driver_version.
  cbn [set_ch ch set_lib_t make_handle lib_t cudaDriverGetVersion load].
  rewrite Hver, Hd. unfold bind, call, ret. cbn [world record].
  destruct (run_cudaDriverGetVersion env d w2) as [answer w3].
  do 2 eexists. split; [reflexivity|].
  split; [exact He|]. split; [exact Hl|]. split; [reflexivity|].
  split; [intros g; rewrite <- Hload; destruct g; reflexivity|].
  split; [reflexivity|].
  unfold record. cbn [trace]. rewrite <- !app_assoc. reflexivity.
Qed.

Lemma runtime_init_succeeds_witness :
  exists r st',
    cuda_init (Synthetic.env (Synthetic.both [Synthetic.good 1 1 8 6]))
              "libcudart.so" (Synthetic.blank_init 0) Synthetic.start
    = Done r st'
    /\ init_err r = None
    /\ handle (ch r) = Some 1%positive
    /\ lib_t (ch r) = LIBCUDART
    /\ (forall g, load g (ch r)
                  = LOAD_SYMBOL (Synthetic.env (Synthetic.both
                                   [Synthetic.good 1 1 8 6]))
                                (Some 1%positive) (symbol g) 0)
    /\ world st'
       = snd (run_cudaDriverGetVersion
                (Synthetic.env (Synthetic.both [Synthetic.good 1 1 8 6]))
                7%positive 0)
    /\ trace st'
       = (trace Synthetic.start
          ++ EvLoadLibrary "libcudart.so"
               :: map (EvLoadSymbol (Some 1%positive)) symbols
          ++ [EvCall "cudaSetDevice" 7%positive;
              EvCall "cudaDriverGetVersion" 7%positive])%list.
Proof.
  apply (runtime_init_succeeds
           (Synthetic.env (Synthetic.both [Synthetic.good 1 1 8 6]))
           "libcudart.so" (Synthetic.blank_init 0) Synthetic.start
           1%positive 7%positive 7%positive 0 0); reflexivity.
Defined.

(** X3. With the library open and [cudaSetDevice] not resolved, a status
    other than success from [nvmlInit_v2] ends [cuda_init]: the library is
    released, [err] is "nvml vram init failure: nvml error <status>", the
    library reference is NULL and the tag [LIBUNKNOWN]; the driver version
    is not asked for. *)
Theorem management_init_failure {W : Type} (env : Env W) (path : string)
    (resp : cuda_init_resp_t) (st : state W) (lib g : address)
    (w1 w2 : W) (status : Z) :
  LOAD_LIBRARY env path (world st) = (Some lib, w1) ->
  LOAD_SYMBOL env (Some lib) "cudaSetDevice" w1 = None ->
  LOAD_SYMBOL env (Some lib) "nvmlInit_v2" w1 = Some g ->
  run_nvmlInit_v2 env g w1 = (status, w2) ->
  status <> NVML_SUCCESS ->
  exists r st',
    cuda_init env path resp st = Done r st'
    /\ init_err r
       = Some (Text.snprintf buflen
                 ("nvml vram init failure: nvml error " ++ Text.fmt_d status))
    /\ handle (ch r) = None
    /\ lib_t (ch r) = LIBUNKNOWN
    /\ world st' = UNLOAD_LIBRARY env (Some lib) w2
    /\ trace st'
       = (trace st
          ++ EvLoadLibrary path
               :: map (EvLoadSymbol (Some lib)) symbols
          ++ [EvCall "nvmlInit_v2" g; EvUnloadLibrary (Some lib)])%list.
Proof.
  intros Hopen Hnone Hg Hrun Hs.
  rewrite (cuda_init_wired env path resp st lib w1 Hopen).
  destruct (opened_fields env lib w1 resp) as (Hl & Ht & Hv & He & Hload).
  pose proof (Hload F_cudaSetDevice) as Hset.
  pose proof (Hload F_nvmlInit_v2) as Hinit.
  cbn [load] in Hset, Hinit.
  change (symbol F_cudaSetDevice) with "cudaSetDevice" in Hset.
  change (symbol F_nvmlInit_v2) with "nvmlInit_v2" in Hinit.
  unfold bind at 1. unfold activate.
  rewrite Hset, Hnone, Hinit, Hg. cbn [is_null negb].
  unfold bind at 1. unfold call. cbn [world]. rewrite Hrun.
  apply Z.eqb_neq in Hs. rewrite Hs. cbn [negb].
  unfold bind, unload_library, ret, record. cbn [world trace].
  do 2 eexists. split; [reflexivity|].
  split; [reflexivity|]. split; [reflexivity|]. split; [exact Ht|].
  rewrite Hl. split; [reflexivity|].
  rewrite <- !app_assoc. reflexivity.
Qed.

Lemma management_init_failure_witness :
  exists r st',
    cuda_init (Synthetic.env management_refuses) "libnvidia-ml.so"
              (Synthetic.blank_init 0) Synthetic.start = Done r st'
    /\ init_err r
       = Some (Text.snprintf buflen
                 ("nvml vram init failure: nvml error " ++ Text.fmt_d 9))
    /\ handle (ch r) = None
    /\ lib_t (ch r) = LIBUNKNOWN
    /\ world st'
       = UNLOAD_LIBRARY (Synthetic.env management_refuses) (Some 1%positive) 0
    /\ trace st'
       = (trace Synthetic.start
          ++ EvLoadLibrary "libnvidia-ml.so"
               :: map (EvLoadSymbol (Some 1%positive)) symbols
          ++ [EvCall "nvmlInit_v2" 7%positive;
              EvUnloadLibrary (Some 1%positive)])%list.
Proof.
  apply (management_init_failure (Synthetic.env management_refuses)
           "libnvidia-ml.so" (Synthetic.blank_init 0) Synthetic.start
           1%positive 7%positive 0 0 9);
    [reflexivity | reflexivity | reflexivity | reflexivity | discriminate].
Defined.

(** X4. With the library open and neither [cudaSetDevice] nor
    [nvmlInit_v2] resolved, [cuda_init] calls no entry point and reaches
    the [default] label with the library still open. There the reference
    is cleared before [UNLOAD_LIBRARY] is given it: the next thing the run
    does is to hand the loader NULL, never the opened library. What comes
    after is told only as what follows that call: should the loader return
    from it, the result has [err] "unknown error: dlsym succeded but
    function pointers are unassigned", the tag [LIBUNKNOWN] and the library
    reference NULL. *)
Theorem no_backend_resolved {W : Type} (env : Env W) (path : string)
    (resp : cuda_init_resp_t) (st : state W) (lib : address) (w1 : W) :
  LOAD_LIBRARY env path (world st) = (Some lib, w1) ->
  LOAD_SYMBOL env (Some lib) "cudaSetDevice" w1 = None ->
  LOAD_SYMBOL env (Some lib) "nvmlInit_v2" w1 = None ->
  exists r st1,
    cuda_init env path resp st
    = bind (unload_library env None) (fun _ => ret r) st1
    /\ world st1 = w1
    /\ trace st1
       = (trace st
          ++ EvLoadLibrary path :: map (EvLoadSymbol (Some lib)) symbols)%list
    /\ (forall e, In e (EvLoadLibrary path
                          :: map (EvLoadSymbol (Some lib)) symbols)%list ->
                  (forall name fn, e <> EvCall name fn)
                  /\ (forall any, e <> EvUnloadLibrary any))
    /\ init_err r
       = Some "unknown error: dlsym succeded but function pointers are unassigned"
    /\ handle (ch r) = None
    /\ lib_t (ch r) = LIBUNKNOWN.
Proof.
  intros Hopen Hnone Hnone'.
  rewrite (cuda_init_wired env path resp st lib w1 Hopen).
  destruct (opened_fields env lib w1 resp) as (Hl & Ht & Hv & He & Hload).
  pose proof (Hload F_cudaSetDevice) as Hset.
  pose proof (Hload F_nvmlInit_v2) as Hinit.
  cbn [load] in Hset, Hinit.
  change (symbol F_cudaSetDevice) with "cudaSetDevice" in Hset.
  change (symbol F_nvmlInit_v2) with "nvmlInit_v2" in Hinit.
  unfold bind at 1. unfold activate.
  rewrite Hset, Hnone, Hinit, Hnone'. cbn [is_null negb].
  unfold ret at 1. unfold report_driver_version. rewrite Ht.
  unfold report_default.
  change (handle (ch (set_ch (set_handle None (ch (opened env lib w1 resp)))
                             (opened env lib w1 resp))))
    with (@None address).
  do 2 eexists. split; [reflexivity|].
  split; [reflexivity|]. split; [reflexivity|]. split.
  - intros e [<- | Hin]; [split; intros; discriminate|].
    apply in_map_iff in Hin. destruct Hin as (x & <- & _).
    split; intros; discriminate.
  - split; [reflexivity|]. split; [reflexivity | exact Ht].
Qed.

Lemma no_backend_resolved_witness :
  exists r st1,
    cuda_init (Synthetic.env exports_neither) "libfoo.so"
              (Synthetic.blank_init 0) Synthetic.start
    = bind (unload_library (Synthetic.env exports_neither) None)
           (fun _ => ret r) st1
    /\ world st1 = 0
    /\ trace st1
       = (trace Synthetic.start
          ++ EvLoadLibrary "libfoo.so"
               :: map (EvLoadSymbol (Some 1%positive)) symbols)%list
    /\ (forall e, In e (EvLoadLibrary "libfoo.so"
                          :: map (EvLoadSymbol (Some 1%positive)) symbols)%list ->
                  (forall name fn, e <> EvCall name fn)
                  /\ (forall any, e <> EvUnloadLibrary any))
    /\ init_err r
       = Some "unknown error: dlsym succeded but function pointers are unassigned"
    /\ handle (ch r) = None
    /\ lib_t (ch r) = LIBUNKNOWN.
Proof.
  apply (no_backend_resolved (Synthetic.env exports_neither) "libfoo.so"
           (Synthetic.blank_init 0) Synthetic.start 1%positive 0);
    reflexivity.
Defined.

(** X5. The null test of line 60 being on the wrong pointer, a runtime
    library that lacks [cudaDriverGetVersion] passes the symbol loop; once
    [cudaSetDevice(0)] has answered success, [cuda_init] calls through the
    NULL field: the run is undefined. *)
Theorem init_calls_unresolved_version {W : Type} (env : Env W)
    (path : string) (resp : cuda_init_resp_t) (st : state W)
    (lib f : address) (w1 w2 : W) :
  LOAD_LIBRARY env path (world st) = (Some lib, w1) ->
  LOAD_SYMBOL env (Some lib) "cudaSetDevice" w1 = Some f ->
  run_cudaSetDevice env f 0 w1 = (CUDART_SUCCESS, w2) ->
  LOAD_SYMBOL env (Some lib) "cudaDriverGetVersion" w1 = None ->
  cuda_init env path resp st = Undefined.
Proof.
  intros Hopen Hf Hrun Hd.
  rewrite (cuda_init_wired env path resp st lib w1 Hopen).
  destruct (opened_fields env lib w1 resp) as (Hl & Ht & Hv & He & Hload).
  pose proof (Hload F_cudaSetDevice) as Hset.
  pose proof (Hload F_cudaDriverGetVersion) as Hver.
  cbn [load] in Hset, Hver.
  change (symbol F_cudaSetDevice) with "cudaSetDevice" in Hset.
  change (symbol F_cudaDriverGetVersion) with "cudaDriverGetVersion" in Hver.
  unfold bind at 1. unfold activate. rewrite Hset, Hf. cbn [is_null negb].
  unfold bind at 1. unfold call. cbn [world]. rewrite Hrun.
  cbn [Z.eqb CUDART_SUCCESS negb]. unfold ret at 1.
  unfold report_driver_version.
  cbn [set_ch ch set_lib_t make_handle lib_t cudaDriverGetVersion load].
  rewrite Hver, Hd. reflexivity.
Qed.

Lemma init_calls_unresolved_version_witness :
  cuda_init (Synthetic.env lacks_driver_version) "libcudart.so"
            (Synthetic.blank_init 0) Synthetic.start = Undefined.
Proof.
  apply (init_calls_unresolved_version (Synthetic.env lacks_driver_version)
           "libcudart.so" (Synthetic.blank_init 0) Synthetic.start
           1%positive 7%positive 0 0); reflexivity.
Defined.

(** ** Queries that fail *)

(** X6. When the device-count query answers a status other than success,
    [cuda_check_vram] returns with [err] "unable to get device count:
    <status>" after that one call: no device is asked anything, and
    [total] and [free] are what the caller had left in the structure (they
    are zeroed only after a successful count). *)
Theorem vram_count_failure_reported {W : Type} (env : Env W)
    (h : cuda_handle_t) (r0 : mem_info_t) (st : state W) (name : string)
    (f : address) (status c : Z) (w' : W) :
  handle h <> None ->
  count_answer env h (world st) name f status c w' ->
  status <> 0 ->
  cuda_check_vram env h r0 st
  = Done {| total := total r0; free := free r0; count := to_uint c;
            mem_err := Some (Text.snprintf buflen
                               ("unable to get device count: "
                                ++ Text.fmt_d status)) |}
         {| world := w'; trace := (trace st ++ [EvCall name f])%list |}.
Proof.
  intros Hh Hc Hs. unfold cuda_check_vram.
  destruct (handle h) as [lib|]; [|congruence]. cbn [is_null].
  apply Z.eqb_neq in Hs.
  destruct Hc as [f status c w' Ht Hf Hrun | f status c w' Ht Hf Hrun];
    rewrite Ht, Hf; unfold bind, call; rewrite Hrun;
    unfold CUDART_SUCCESS, NVML_SUCCESS; rewrite Hs; reflexivity.
Qed.

Lemma vram_count_failure_reported_witness :
  cuda_check_vram (Synthetic.env count_refused) (Synthetic.active LIBCUDART 0)
    {| total := 77; free := 55; count := 3; mem_err := Some "stale" |}
    Synthetic.start
  = Done {| total := 77; free := 55; count := to_uint 1;
            mem_err := Some (Text.snprintf buflen
                               ("unable to get device count: "
                                ++ Text.fmt_d 999)) |}
         {| world := 0;
            trace := (trace Synthetic.start
                      ++ [EvCall "cudaGetDeviceCount" 7%positive])%list |}.
Proof.
  apply (vram_count_failure_reported (Synthetic.env count_refused)
           (Synthetic.active LIBCUDART 0)
           {| total := 77; free := 55; count := 3; mem_err := Some "stale" |}
           Synthetic.start "cudaGetDeviceCount" 7%positive 999 1 0).
  - discriminate.
  - apply count_answer_cudart; reflexivity.
  - discriminate.
Defined.

Lemma cc_loop_prefix {W : Type} (env : Env W) (h : cuda_handle_t)
    (i : Z) (w w' : W) (rs : list (Z * Z)) :
  fleet (cc_reading env h) i w rs w' ->
  forall rem resp st, world st = w ->
  exists st',
    world st' = w'
    /\ cc_loop env h (List.length rs + rem) i resp st
       = cc_loop env h rem (i + Z.of_nat (List.length rs))
           (fold_left lowest_of rs resp) st'.
Proof.
  induction 1 as [i w | i w r w1 rs w2 Hr Hfl IH]; intros rem resp st Hw.
  - exists st. split; [exact Hw|]. simpl. now rewrite Z.add_0_r.
  - destruct (cc_loop_step env h i w w1 r Hr (List.length rs + rem)%nat
                resp st Hw) as (st1 & Hw1 & E1).
    destruct (IH rem (lowest_of resp r) st1 Hw1) as (st2 & Hw2 & E2).
    exists st2. split; [exact Hw2|].
    simpl List.length. simpl Nat.add. rewrite E1, E2. simpl fold_left.
    f_equal. lia.
Qed.

(** X7. On a valid handle whose backend reports [n] devices, when the
    devices before index [i] answer their capability and a step of device
    [i] fails, [cuda_compute_capability] returns with [err] set to a text
    that names [i] and the status, and [major] and [minor] hold the
    reduction of the readings of the devices before [i]. *)
Theorem capability_failure_reported {W : Type} (env : Env W)
    (h : cuda_handle_t) (r0 : cuda_compute_capability_t) (st : state W)
    (n : Z) (w0 w1 : W) (rs : list (Z * Z)) (what : string) (status : Z) :
  handle h <> None ->
  cc_count env h (world st) n w0 ->
  fleet (cc_reading env h) 0 w0 rs w1 ->
  Z.of_nat (List.length rs) < n ->
  cc_failure env h (Z.of_nat (List.length rs)) w1 what status ->
  exists r st',
    cuda_compute_capability env h r0 st = Done r st'
    /\ cc_err r
       = Some (device_error what (to_int (Z.of_nat (List.length rs))) status)
    /\ Text.contains (Text.fmt_d (to_int (Z.of_nat (List.length rs))))
         (device_error what (to_int (Z.of_nat (List.length rs))) status)
    /\ (major r, minor r) = Spec.reduce rs.
Proof.
  intros Hh Hc Hfl Hlt Hfail.
  destruct (compute_capability_counted env h n w0 r0 st Hh Hc)
    as (Ht & st0 & Hw0 & E0).
  set (start := set_minor 0 (set_major 0 (set_cc_err None r0))) in *.
  assert (Hrem : exists rem, Z.to_nat n = (List.length rs + S rem)%nat).
  { exists (Z.to_nat n - List.length rs - 1)%nat. lia. }
  destruct Hrem as (rem & Hrem).
  destruct (cc_loop_prefix env h 0 w0 w1 rs Hfl (S rem) start st0 Hw0)
    as (st1 & Hw1 & E1).
  destruct (cc_loop_failure env h _ w1 what status Hfail rem
              (fold_left lowest_of rs start) st1 Hw1) as (st2 & E2).
  rewrite E0, Hrem, E1. simpl Z.add. rewrite E2.
  destruct (fold_lowest_is_reduce rs start) as [Hp He].
  do 2 eexists. split; [reflexivity|].
  split; [reflexivity|]. split.
  - apply device_error_names_index. destruct Hfail; simpl; lia.
  - exact Hp.
Qed.

Lemma capability_failure_reported_witness :
  exists r st',
    cuda_compute_capability
      (Synthetic.env (Synthetic.both
         [Synthetic.good 1 1 8 6;
          {| Synthetic.d_select := 0; Synthetic.d_query := 999;
             Synthetic.d_total := 1; Synthetic.d_free := 1;
             Synthetic.d_major := 7; Synthetic.d_minor := 5 |}]))
      (Synthetic.active LIBNVIDIAML 0) Synthetic.blank_cc Synthetic.start
    = Done r st'
    /\ cc_err r
       = Some (device_error "device compute capability lookup failure "
                 (to_int 1) 999)
    /\ Text.contains (Text.fmt_d (to_int 1))
         (device_error "device compute capability lookup failure "
            (to_int 1) 999)
    /\ (major r, minor r) = Spec.reduce [(8, 6)].
Proof.
  apply (capability_failure_reported
           (Synthetic.env (Synthetic.both
              [Synthetic.good 1 1 8 6;
               {| Synthetic.d_select := 0; Synthetic.d_query := 999;
                  Synthetic.d_total := 1; Synthetic.d_free := 1;
                  Synthetic.d_major := 7; Synthetic.d_minor := 5 |}]))
           (Synthetic.active LIBNVIDIAML 0) Synthetic.blank_cc Synthetic.start
           2 0 0 [(8, 6)] "device compute capability lookup failure " 999).
  - discriminate.
  - apply (cc_count_nvml _ _ _ 7%positive 2 0); reflexivity.
  - eapply fleet_cons; [|apply fleet_nil].
    apply (cc_reading_nvml _ _ _ _ 7%positive 7%positive 0 0 0); reflexivity.
  - simpl. lia.
  - apply (cc_failure_capability _ _ _ _ 7%positive 7%positive 999 1 (7, 5) 0 0);
      try reflexivity. discriminate.
Defined.

(** ** What the reduction reports *)

(** A full run of [cuda_compute_capability] over an answering fleet. *)
Lemma capability_run {W : Type} (env : Env W) (h : cuda_handle_t)
    (r0 : cuda_compute_capability_t) (st : state W) (n : Z) (w0 w1 : W)
    (rs : list (Z * Z)) :
  handle h <> None ->
  cc_count env h (world st) n w0 ->
  fleet (cc_reading env h) 0 w0 rs w1 ->
  List.length rs = Z.to_nat n ->
  exists r st',
    cuda_compute_capability env h r0 st = Done r st'
    /\ cc_err r = None
    /\ (major r, minor r) = fold_left Spec.reduce_step rs (0, 0).
Proof.
  intros Hh Hc Hfl Hn.
  destruct (compute_capability_counted env h n w0 r0 st Hh Hc)
    as (Ht & st0 & Hw0 & E0).
  set (start := set_minor 0 (set_major 0 (set_cc_err None r0))) in *.
  destruct (cc_loop_prefix env h 0 w0 w1 rs Hfl 0%nat start st0 Hw0)
    as (st1 & Hw1 & E1).
  rewrite Nat.add_0_r in E1.
  rewrite E0, <- Hn, E1, cc_loop_done by exact Ht.
  destruct (fold_lowest_is_reduce rs start) as [Hp He].
  do 2 eexists. split; [reflexivity|]. split; [now rewrite He | exact Hp].
Qed.

Lemma lex_le_trans (a b c : Z * Z) : lex_le a b -> lex_le b c -> lex_le a c.
Proof. unfold lex_le. lia. Qed.

(** One step of the rule on a running major other than 0: the new running
    pair is the reading or the old pair, and is above neither. *)
Lemma reduce_step_lowest (run r : Z * Z) :
  fst run <> 0 ->
  (Spec.reduce_step run r = r \/ Spec.reduce_step run r = run)
  /\ lex_le (Spec.reduce_step run r) run
  /\ lex_le (Spec.reduce_step run r) r.
Proof.
  destruct run as [rM rm], r as [dM dm]. unfold Spec.reduce_step, lex_le.
  cbn [fst snd]. intros Hnz.
  destruct (rM =? 0) eqn:E0; [apply Z.eqb_eq in E0; contradiction|].
  cbn [orb].
  destruct (dM <? rM) eqn:E1.
  - apply Z.ltb_lt in E1. cbn [fst snd]. repeat split; auto; lia.
  - apply Z.ltb_ge in E1.
    destruct (rM =? dM) eqn:E2; cbn [andb].
    + apply Z.eqb_eq in E2. subst dM.
      destruct (dm <? rm) eqn:E3.
      * apply Z.ltb_lt in E3. cbn [fst snd]. repeat split; auto; lia.
      * apply Z.ltb_ge in E3. cbn [fst snd]. repeat split; auto; lia.
    + apply Z.eqb_neq in E2. cbn [fst snd]. repeat split; auto; lia.
Qed.

Lemma fold_reduce_lowest (rs : list (Z * Z)) :
  forall run,
    fst run <> 0 ->
    (forall x, In x rs -> fst x <> 0) ->
    (fold_left Spec.reduce_step rs run = run
     \/ In (fold_left Spec.reduce_step rs run) rs)
    /\ lex_le (fold_left Spec.reduce_step rs run) run
    /\ (forall x, In x rs -> lex_le (fold_left Spec.reduce_step rs run) x).
Proof.
  induction rs as [|r rs IH]; intros run Hrun Hall; cbn [fold_left].
  - split; [now left|]. split; [unfold lex_le; lia | intros x []].
  - destruct (reduce_step_lowest run r Hrun) as (Hwhich & Hle_run & Hle_r).
    assert (Hnz : fst (Spec.reduce_step run r) <> 0).
    { destruct Hwhich as [-> | ->]; [apply Hall; now left | exact Hrun]. }
    destruct (IH (Spec.reduce_step run r) Hnz
                (fun x Hx => Hall x (or_intror Hx)))
      as (Hin & Hle & Hle_all).
    split; [|split].
    + destruct Hin as [E | Hin].
      * rewrite E. destruct Hwhich as [-> | ->]; [right; now left | now left].
      * right. now right.
    + eapply lex_le_trans; eassumption.
    + intros x [<- | Hx].
      * eapply lex_le_trans; eassumption.
      * now apply Hle_all.
Qed.

(** X8. "Report the lowest major.minor": when every device answers a
    major other than 0, the pair [cuda_compute_capability] returns is the
    reading of one of the devices, and no device has a lower major, or the
    same major and a lower minor. *)
Theorem capability_is_lowest {W : Type} (env : Env W) (h : cuda_handle_t)
    (r0 : cuda_compute_capability_t) (st : state W) (n : Z) (w0 w1 : W)
    (rs : list (Z * Z)) :
  handle h <> None ->
  cc_count env h (world st) n w0 ->
  fleet (cc_reading env h) 0 w0 rs w1 ->
  List.length rs = Z.to_nat n ->
  rs <> nil ->
  (forall x, In x rs -> fst x <> 0) ->
  exists r st',
    cuda_compute_capability env h r0 st = Done r st'
    /\ cc_err r = None
    /\ In (major r, minor r) rs
    /\ (forall x, In x rs -> lex_le (major r, minor r) x).
Proof.
  intros Hh Hc Hfl Hn Hne Hall.
  destruct (capability_run env h r0 st n w0 w1 rs Hh Hc Hfl Hn)
    as (r & st' & Hrun & Herr & Hp).
  exists r, st'. split; [exact Hrun|]. split; [exact Herr|].
  rewrite Hp. destruct rs as [|r1 rs]; [congruence|].
  cbn [fold_left].
  assert (E : Spec.reduce_step (0, 0) r1 = r1) by now destruct r1.
  rewrite E.
  destruct (fold_reduce_lowest rs r1 (Hall r1 (or_introl eq_refl))
              (fun x Hx => Hall x (or_intror Hx))) as (Hin & Hle & Hle_all).
  split.
  - destruct Hin as [-> | Hin]; [now left | now right].
  - intros x [<- | Hx]; [exact Hle | now apply Hle_all].
Qed.

Lemma capability_is_lowest_witness :
  exists r st',
    cuda_compute_capability
      (Synthetic.env (Synthetic.both
         [Synthetic.good 1 1 8 6; Synthetic.good 1 1 7 5; Synthetic.good 1 1 8 0]))
      (Synthetic.active LIBNVIDIAML 0) Synthetic.blank_cc Synthetic.start
    = Done r st'
    /\ cc_err r = None
    /\ In (major r, minor r) [(8, 6); (7, 5); (8, 0)]
    /\ (forall x, In x [(8, 6); (7, 5); (8, 0)] -> lex_le (major r, minor r) x).
Proof.
  apply (capability_is_lowest
           (Synthetic.env (Synthetic.both
              [Synthetic.good 1 1 8 6; Synthetic.good 1 1 7 5;
               Synthetic.good 1 1 8 0]))
           (Synthetic.active LIBNVIDIAML 0) Synthetic.blank_cc Synthetic.start
           3 0 0).
  - discriminate.
  - apply (cc_count_nvml _ _ _ 7%positive 3 0); reflexivity.
  - eapply fleet_cons.
    { apply (cc_reading_nvml _ _ _ _ 7%positive 7%positive 0 0 0); reflexivity. }
    eapply fleet_cons.
    { apply (cc_reading_nvml _ _ _ _ 7%positive 7%positive 0 0 1); reflexivity. }
    eapply fleet_cons.
    { apply (cc_reading_nvml _ _ _ _ 7%positive 7%positive 0 0 2); reflexivity. }
    apply fleet_nil.
  - reflexivity.
  - discriminate.
  - intros x [<- | [<- | [<- | []]]]; discriminate.
Defined.

Lemma fold_reduce_nonnegative (rs : list (Z * Z)) :
  forall run,
    0 <= fst run ->
    (forall x, In x rs -> 0 <= fst x) ->
    0 <= fst (fold_left Spec.reduce_step rs run).
Proof.
  induction rs as [|r rs IH]; intros run Hrun Hall; cbn [fold_left];
    [exact Hrun|].
  apply IH; [|intros x Hx; apply Hall; now right].
  assert (Hr : 0 <= fst r) by (apply Hall; now left).
  destruct run as [rM rm], r as [dM dm]. unfold Spec.reduce_step.
  cbn [fst snd] in *.
  destruct ((rM =? 0) || (dM <? rM)); cbn [fst]; [exact Hr|].
  destruct ((rM =? dM) && (dm <? rm)); cbn [fst]; exact Hrun.
Qed.

(** X9. A running major of 0 stands for "no reading yet", so a device that
    answers major 0 wipes the slate: when no major is negative, the pair
    returned for a fleet in which such a device is followed by at least one
    more is the reduction of the devices after it alone, whatever the
    devices before it had answered. *)
Theorem capability_forgets_before_zero {W : Type} (env : Env W)
    (h : cuda_handle_t) (r0 : cuda_compute_capability_t) (st : state W)
    (n : Z) (w0 w1 : W) (before after : list (Z * Z)) (zero_minor : Z)
    (next : Z * Z) :
  handle h <> None ->
  cc_count env h (world st) n w0 ->
  fleet (cc_reading env h) 0 w0
        (before ++ (0, zero_minor) :: next :: after)%list w1 ->
  List.length (before ++ (0, zero_minor) :: next :: after)%list = Z.to_nat n ->
  (forall x, In x before -> 0 <= fst x) ->
  exists r st',
    cuda_compute_capability env h r0 st = Done r st'
    /\ cc_err r = None
    /\ (major r, minor r) = Spec.reduce (next :: after).
Proof.
  intros Hh Hc Hfl Hn Hall.
  destruct (capability_run env h r0 st n w0 w1 _ Hh Hc Hfl Hn)
    as (r & st' & Hrun & Herr & Hp).
  exists r, st'. split; [exact Hrun|]. split; [exact Herr|].
  rewrite Hp, fold_left_app. cbn [fold_left]. unfold Spec.reduce.
  cbn [fold_left].
  pose proof (fold_reduce_nonnegative before (0, 0) (Z.le_refl 0) Hall) as Hnn.
  destruct (fold_left Spec.reduce_step before (0, 0)) as [rM rm].
  cbn [fst] in Hnn.
  assert (E : Spec.reduce_step (rM, rm) (0, zero_minor) = (0, zero_minor)).
  { unfold Spec.reduce_step.
    destruct (rM =? 0) eqn:E0; [reflexivity|].
    apply Z.eqb_neq in E0.
    assert (E1 : (0 <? rM) = true) by (apply Z.ltb_lt; lia).
    now rewrite E1. }
  rewrite E. reflexivity.
Qed.

Lemma capability_forgets_before_zero_witness :
  exists r st',
    cuda_compute_capability
      (Synthetic.env (Synthetic.both
         [Synthetic.good 1 1 7 5; Synthetic.good 1 1 0 0; Synthetic.good 1 1 8 6]))
      (Synthetic.active LIBCUDART 0) Synthetic.blank_cc Synthetic.start
    = Done r st'
    /\ cc_err r = None
    /\ (major r, minor r) = Spec.reduce [(8, 6)].
Proof.
  apply (capability_forgets_before_zero
           (Synthetic.env (Synthetic.both
              [Synthetic.good 1 1 7 5; Synthetic.good 1 1 0 0;
               Synthetic.good 1 1 8 6]))
           (Synthetic.active LIBCUDART 0) Synthetic.blank_cc Synthetic.start
           3 0 2 [(7, 5)] nil 0 (8, 6)).
  - discriminate.
  - apply (cc_count_cudart _ _ _ 7%positive 3 0); reflexivity.
  - eapply fleet_cons.
    { apply (cc_reading_cudart _ _ _ _ 7%positive 7%positive 0 0 0); reflexivity. }
    eapply fleet_cons.
    { apply (cc_reading_cudart _ _ _ _ 7%positive 7%positive 1 1 1); reflexivity. }
    eapply fleet_cons.
    { apply (cc_reading_cudart _ _ _ _ 7%positive 7%positive 2 2 2); reflexivity. }
    apply fleet_nil.
  - reflexivity.
  - intros x [<- | []]. cbn. lia.
Defined.

(** ** A NULL [err] means every device answered *)

Section Converse.

Context {W : Type} (env : Env W) (h : cuda_handle_t).

Lemma describe_inv (device : nvmlDevice_t) (st st' : state W) :
  nvml_describe env h device st = Done tt st' ->
  described env h device (world st) (world st').
Proof.
  unfold nvml_describe, described. intros H.
  destruct (verbose h =? 0); cbn [negb] in H.
  - unfold ret in H. now inversion H.
  - unfold bind, call, ret in H. change (Z.of_nat buflen) with 256 in H.
    destruct (nvmlDeviceGetName h) as [f1|]; [|discriminate].
    destruct (run_nvmlDeviceGetText env f1 device 256 (world st))
      as [a1 w1] eqn:E1. cbn [world record] in H.
    destruct (nvmlDeviceGetBoardPartNumber h) as [f2|]; [|discriminate].
    destruct (run_nvmlDeviceGetText env f2 device 256 w1) as [a2 w2] eqn:E2.
    cbn [world record] in H.
    destruct (nvmlDeviceGetSerial h) as [f3|]; [|discriminate].
    destruct (run_nvmlDeviceGetText env f3 device 256 w2) as [a3 w3] eqn:E3.
    cbn [world record] in H.
    destruct (nvmlDeviceGetVbiosVersion h) as [f4|]; [|discriminate].
    destruct (run_nvmlDeviceGetText env f4 device 256 w3) as [a4 w4] eqn:E4.
    cbn [world record] in H.
    destruct (nvmlDeviceGetBrand h) as [f5|]; [|discriminate].
    destruct (run_nvmlDeviceGetBrand env f5 device w4) as [a5 w5] eqn:E5.
    inversion H; subst; clear H. cbn [world record].
    exists f1, f2, f3, f4, f5. repeat split.
    cbn zeta. rewrite E1. cbn [snd]. rewrite E2. cbn [snd].
    rewrite E3. cbn [snd]. rewrite E4. cbn [snd]. rewrite E5. reflexivity.
Qed.

Lemma cudart_vram_loop_inv (rem : nat) :
  forall i resp st r st',
    lib_t h = LIBCUDART ->
    cudart_vram_loop env h rem i resp st = Done r st' ->
    mem_err r = None ->
    exists rs,
      List.length rs = rem
      /\ fleet (vram_reading env h) i (world st) rs (world st')
      /\ r = fold_left add_reading rs resp.
Proof.
  induction rem as [|rem IH]; intros i resp st r st' Ht H Hnone.
  - inversion H; subst. exists nil. repeat split. apply fleet_nil.
  - cbn [cudart_vram_loop] in H. unfold bind at 1 in H. unfold call at 1 in H.
    destruct (cudaSetDevice h) as [f|] eqn:Hf; [|discriminate].
    destruct (run_cudaSetDevice env f (to_int i) (world st))
      as [status w1] eqn:Hsel.
    destruct (status =? CUDART_SUCCESS) eqn:Hs; cbn [negb] in H;
      [|inversion H; subst; discriminate].
    apply Z.eqb_eq in Hs. subst status.
    unfold bind at 1 in H. unfold call at 1 in H.
    destruct (cudaMemGetInfo h) as [g|] eqn:Hg; [|discriminate].
    cbn [world record] in H.
    destruct (run_cudaMemGetInfo env g w1) as [[status [m_free m_total]] w2]
      eqn:Hinfo.
    destruct (status =? CUDART_SUCCESS) eqn:Hs; cbn [negb] in H;
      [|inversion H; subst; discriminate].
    apply Z.eqb_eq in Hs. subst status.
    destruct (IH _ _ _ _ _ Ht H Hnone) as (rs & Hlen & Hfl & Hr).
    exists ((m_total, m_free) :: rs). split; [cbn; now rewrite Hlen|].
    split; [|exact Hr].
    eapply fleet_cons; [|exact Hfl].
    eapply vram_reading_cudart; eassumption.
Qed.

Lemma nvml_vram_loop_inv (rem : nat) :
  forall i resp st r st',
    lib_t h = LIBNVIDIAML ->
    nvml_vram_loop env h rem i resp st = Done r st' ->
    mem_err r = None ->
    exists rs,
      List.length rs = rem
      /\ fleet (vram_reading env h) i (world st) rs (world st')
      /\ r = fold_left add_reading rs resp.
Proof.
  induction rem as [|rem IH]; intros i resp st r st' Ht H Hnone.
  - inversion H; subst. exists nil. repeat split. apply fleet_nil.
  - cbn [nvml_vram_loop] in H. unfold bind at 1 in H. unfold call at 1 in H.
    destruct (nvmlDeviceGetHandleByIndex h) as [f|] eqn:Hf; [|discriminate].
    destruct (run_nvmlDeviceGetHandleByIndex env f (to_uint i) (world st))
      as [[status device] w1] eqn:Hidx.
    destruct (status =? NVML_SUCCESS) eqn:Hs; cbn [negb] in H;
      [|inversion H; subst; discriminate].
    apply Z.eqb_eq in Hs. subst status.
    unfold bind at 1 in H. unfold call at 1 in H.
    destruct (nvmlDeviceGetMemoryInfo h) as [g|] eqn:Hg; [|discriminate].
    cbn [world record] in H.
    destruct (run_nvmlDeviceGetMemoryInfo env g device w1) as [[status m] w2]
      eqn:Hinfo.
    destruct (status =? NVML_SUCCESS) eqn:Hs; cbn [negb] in H;
      [|inversion H; subst; discriminate].
    apply Z.eqb_eq in Hs. subst status.
    unfold bind at 1 in H.
    destruct (nvml_describe env h device _) as [[] st2|] eqn:Hdesc;
      [|discriminate].
    apply describe_inv in Hdesc. cbn [world record] in Hdesc.
    destruct (IH _ _ _ _ _ Ht H Hnone) as (rs & Hlen & Hfl & Hr).
    exists ((nvml_total m, nvml_free m) :: rs).
    split; [cbn; now rewrite Hlen|]. split; [|exact Hr].
    eapply fleet_cons; [|exact Hfl].
    eapply vram_reading_nvml; eassumption.
Qed.

Lemma cudart_cc_loop_inv (rem : nat) :
  forall i resp st r st',
    lib_t h = LIBCUDART ->
    cudart_cc_loop env h rem i resp st = Done r st' ->
    cc_err r = None ->
    exists rs,
      List.length rs = rem
      /\ fleet (cc_reading env h) i (world st) rs (world st')
      /\ r = fold_left lowest_of rs resp.
Proof.
  induction rem as [|rem IH]; intros i resp st r st' Ht H Hnone.
  - inversion H; subst. exists nil. repeat split. apply fleet_nil.
  - cbn [cudart_cc_loop] in H. unfold bind at 1 in H. unfold call at 1 in H.
    destruct (cudaSetDevice h) as [f|] eqn:Hf; [|discriminate].
    destruct (run_cudaSetDevice env f (to_int i) (world st))
      as [status w1] eqn:Hsel.
    destruct (status =? CUDART_SUCCESS) eqn:Hs; cbn [negb] in H;
      [|inversion H; subst; discriminate].
    apply Z.eqb_eq in Hs. subst status.
    unfold bind at 1 in H. unfold call at 1 in H.
    destruct (cudaDeviceGetAttribute h) as [g|] eqn:Hg; [|discriminate].
    cbn [world record] in H.
    destruct (run_cudaDeviceGetAttribute env g
                cudaDevAttrComputeCapabilityMajor (to_int i) w1)
      as [[status c_major] w2] eqn:Hmaj.
    destruct (status =? CUDART_SUCCESS) eqn:Hs; cbn [negb] in H;
      [|inversion H; subst; discriminate].
    apply Z.eqb_eq in Hs. subst status.
    unfold bind at 1 in H. unfold call at 1 in H. cbn [world record] in H.
    destruct (run_cudaDeviceGetAttribute env g
                cudaDevAttrComputeCapabilityMinor (to_int i) w2)
      as [[status c_minor] w3] eqn:Hmin.
    destruct (status =? CUDART_SUCCESS) eqn:Hs; cbn [negb] in H;
      [|inversion H; subst; discriminate].
    apply Z.eqb_eq in Hs. subst status.
    destruct (IH _ _ _ _ _ Ht H Hnone) as (rs & Hlen & Hfl & Hr).
    exists ((c_major, c_minor) :: rs).
    split; [cbn; now rewrite Hlen|]. split; [|exact Hr].
    eapply fleet_cons; [|exact Hfl].
    eapply cc_reading_cudart; eassumption.
Qed.

Lemma nvml_cc_loop_inv (rem : nat) :
  forall i resp st r st',
    lib_t h = LIBNVIDIAML ->
    nvml_cc_loop env h rem i resp st = Done r st' ->
    cc_err r = None ->
    exists rs,
      List.length rs = rem
      /\ fleet (cc_reading env h) i (world st) rs (world st')
      /\ r = fold_left lowest_of rs resp.
Proof.
  induction rem as [|rem IH]; intros i resp st r st' Ht H Hnone.
  - inversion H; subst. exists nil. repeat split. apply fleet_nil.
  - cbn [nvml_cc_loop] in H. unfold bind at 1 in H. unfold call at 1 in H.
    destruct (nvmlDeviceGetHandleByIndex h) as [f|] eqn:Hf; [|discriminate].
    destruct (run_nvmlDeviceGetHandleByIndex env f (to_uint i) (world st))
      as [[status device] w1] eqn:Hidx.
    destruct (status =? NVML_SUCCESS) eqn:Hs; cbn [negb] in H;
      [|inversion H; subst; discriminate].
    apply Z.eqb_eq in Hs. subst status.
    unfold bind at 1 in H. unfold call at 1 in H.
    destruct (nvmlDeviceGetCudaComputeCapability h) as [g|] eqn:Hg;
      [|discriminate].
    cbn [world record] in H.
    destruct (run_nvmlDeviceGetCudaComputeCapability env g device w1)
      as [[status [c_major c_minor]] w2] eqn:Hcap.
    destruct (status =? NVML_SUCCESS) eqn:Hs; cbn [negb] in H;
      [|inversion H; subst; discriminate].
    apply Z.eqb_eq in Hs. subst status.
    destruct (IH _ _ _ _ _ Ht H Hnone) as (rs & Hlen & Hfl & Hr).
    exists ((c_major, c_minor) :: rs).
    split; [cbn; now rewrite Hlen|]. split; [|exact Hr].
    eapply fleet_cons; [|exact Hfl].
    eapply cc_reading_nvml; eassumption.
Qed.

End Converse.

(** X10. [err] is the only mark of failure of [cuda_check_vram], and a
    sound one: whenever it returns with [err] NULL, the handle was valid,
    the count query answered success with some [n], each of the [n]
    devices answered both of its steps with success, in the order of the
    indices, and [count], [total] and [free] are [n] and the sums modulo
    2^64 of those [n] readings. No device is skipped and none is asked
    twice. *)
Theorem vram_success_is_complete {W : Type} (env : Env W)
    (h : cuda_handle_t) (r0 r : mem_info_t) (st st' : state W) :
  cuda_check_vram env h r0 st = Done r st' ->
  mem_err r = None ->
  handle h <> None
  /\ exists n w0 rs,
      vram_count env h (world st) n w0
      /\ fleet (vram_reading env h) 0 w0 rs (world st')
      /\ Z.of_nat (List.length rs) = n
      /\ count r = n
      /\ total r = Spec.sum_total rs mod 2 ^ 64
      /\ free r = Spec.sum_free rs mod 2 ^ 64.
Proof.
  intros H Hnone. unfold cuda_check_vram in H.
  destruct (handle h) as [lib|] eqn:Hh; cbn [is_null] in H;
    [|inversion H; subst; discriminate].
  split; [discriminate|].
  assert (Hu : forall c, Z.of_nat (Z.to_nat (to_uint c)) = to_uint c).
  { intros c. apply Z2Nat.id. unfold to_uint.
    apply Z.mod_pos_bound. reflexivity. }
  destruct (lib_t h) eqn:Ht; [inversion H; subst; discriminate | |].
  - unfold bind at 1 in H. unfold call at 1 in H.
    destruct (cudaGetDeviceCount h) as [f|] eqn:Hf; [|discriminate].
    destruct (run_cudaGetDeviceCount env f (world st)) as [[status c] w0]
      eqn:Hrun.
    destruct (status =? CUDART_SUCCESS) eqn:Hs; cbn [negb] in H;
      [|inversion H; subst; discriminate].
    apply Z.eqb_eq in Hs. subst status.
    destruct (cudart_vram_loop_inv env h _ _ _ _ _ _ Ht H Hnone)
      as (rs & Hlen & Hfl & Hr).
    cbn [world record count set_count set_total set_free set_mem_err] in *.
    exists (to_uint c), w0, rs.
    split; [eapply vram_count_cudart; eassumption|].
    split; [exact Hfl|]. split; [rewrite Hlen; apply Hu|].
    subst r. destruct (fold_add_reading_rest rs
      (set_free 0 (set_total 0 (set_count (to_uint c) (set_mem_err None r0)))))
      as [Hcount _].
    split; [exact Hcount|]. split.
    + rewrite (fold_add_reading_total rs _ 0) by reflexivity. reflexivity.
    + rewrite (fold_add_reading_free rs _ 0) by reflexivity. reflexivity.
  - unfold bind at 1 in H. unfold call at 1 in H.
    destruct (nvmlDeviceGetCount_v2 h) as [f|] eqn:Hf; [|discriminate].
    destruct (run_nvmlDeviceGetCount_v2 env f (world st)) as [[status c] w0]
      eqn:Hrun.
    destruct (status =? NVML_SUCCESS) eqn:Hs; cbn [negb] in H;
      [|inversion H; subst; discriminate].
    apply Z.eqb_eq in Hs. subst status.
    destruct (nvml_vram_loop_inv env h _ _ _ _ _ _ Ht H Hnone)
      as (rs & Hlen & Hfl & Hr).
    cbn [world record count set_count set_total set_free set_mem_err] in *.
    exists (to_uint c), w0, rs.
    split; [eapply vram_count_nvml; eassumption|].
    split; [exact Hfl|]. split; [rewrite Hlen; apply Hu|].
    subst r. destruct (fold_add_reading_rest rs
      (set_free 0 (set_total 0 (set_count (to_uint c) (set_mem_err None r0)))))
      as [Hcount _].
    split; [exact Hcount|]. split.
    + rewrite (fold_add_reading_total rs _ 0) by reflexivity. reflexivity.
    + rewrite (fold_add_reading_free rs _ 0) by reflexivity. reflexivity.
Qed.

Lemma vram_success_is_complete_witness :
  exists r st',
    cuda_check_vram
      (Synthetic.env (Synthetic.both
         [Synthetic.good 8000000000 2000000000 8 6;
          Synthetic.good 4000000000 1000000000 7 5]))
      (Synthetic.active LIBNVIDIAML 1) Synthetic.blank_mem Synthetic.start
    = Done r st'
    /\ mem_err r = None
    /\ handle (Synthetic.active LIBNVIDIAML 1) <> None
    /\ exists n w0 rs,
        vram_count
          (Synthetic.env (Synthetic.both
             [Synthetic.good 8000000000 2000000000 8 6;
              Synthetic.good 4000000000 1000000000 7 5]))
          (Synthetic.active LIBNVIDIAML 1) (world Synthetic.start) n w0
        /\ fleet (vram_reading
                    (Synthetic.env (Synthetic.both
                       [Synthetic.good 8000000000 2000000000 8 6;
                        Synthetic.good 4000000000 1000000000 7 5]))
                    (Synthetic.active LIBNVIDIAML 1)) 0 w0 rs (world st')
        /\ Z.of_nat (List.length rs) = n
        /\ count r = n
        /\ total r = Spec.sum_total rs mod 2 ^ 64
        /\ free r = Spec.sum_free rs mod 2 ^ 64.
Proof.
  eexists. eexists. split; [vm_compute; reflexivity|].
  split; [reflexivity|].
  eapply (vram_success_is_complete
            (Synthetic.env (Synthetic.both
               [Synthetic.good 8000000000 2000000000 8 6;
                Synthetic.good 4000000000 1000000000 7 5]))
            (Synthetic.active LIBNVIDIAML 1) Synthetic.blank_mem _
            Synthetic.start).
  - vm_compute. reflexivity.
  - reflexivity.
Defined.

(** X11. The same for [cuda_compute_capability]: whenever it returns with
    [err] NULL, the handle was valid, the count query and every step of
    every device it counted answered success, and the pair returned is the
    reduction of exactly those readings, in the order of the indices. *)
Theorem capability_success_is_complete {W : Type} (env : Env W)
    (h : cuda_handle_t) (r0 r : cuda_compute_capability_t)
    (st st' : state W) :
  cuda_compute_capability env h r0 st = Done r st' ->
  cc_err r = None ->
  handle h <> None
  /\ exists n w0 rs,
      cc_count env h (world st) n w0
      /\ fleet (cc_reading env h) 0 w0 rs (world st')
      /\ List.length rs = Z.to_nat n
      /\ (major r, minor r) = Spec.reduce rs.
Proof.
  intros H Hnone. unfold cuda_compute_capability in H.
  destruct (handle h) as [lib|] eqn:Hh; cbn [is_null] in H;
    [|inversion H; subst; discriminate].
  split; [discriminate|].
  destruct (lib_t h) eqn:Ht; [inversion H; subst; discriminate | |].
  - unfold bind at 1 in H. unfold call at 1 in H.
    destruct (cudaGetDeviceCount h) as [f|] eqn:Hf; [|discriminate].
    destruct (run_cudaGetDeviceCount env f (world st)) as [[status c] w0]
      eqn:Hrun.
    destruct (status =? CUDART_SUCCESS) eqn:Hs; cbn [negb] in H;
      [|inversion H; subst; discriminate].
    apply Z.eqb_eq in Hs. subst status.
    destruct (cudart_cc_loop_inv env h _ _ _ _ _ _ Ht H Hnone)
      as (rs & Hlen & Hfl & Hr).
    cbn [world record] in *.
    exists (to_int c), w0, rs.
    split; [eapply cc_count_cudart; eassumption|].
    split; [exact Hfl|]. split; [exact Hlen|].
    subst r. apply (fold_lowest_is_reduce rs).
  - unfold bind at 1 in H. unfold call at 1 in H.
    destruct (nvmlDeviceGetCount_v2 h) as [f|] eqn:Hf; [|discriminate].
    destruct (run_nvmlDeviceGetCount_v2 env f (world st)) as [[status c] w0]
      eqn:Hrun.
    destruct (status =? NVML_SUCCESS) eqn:Hs; cbn [negb] in H;
      [|inversion H; subst; discriminate].
    apply Z.eqb_eq in Hs. subst status.
    destruct (nvml_cc_loop_inv env h _ _ _ _ _ _ Ht H Hnone)
      as (rs & Hlen & Hfl & Hr).
    cbn [world record] in *.
    exists (to_uint c), w0, rs.
    split; [eapply cc_count_nvml; eassumption|].
    split; [exact Hfl|]. split; [exact Hlen|].
    subst r. apply (fold_lowest_is_reduce rs).
Qed.

Lemma capability_success_is_complete_witness :
  exists r st',
    cuda_compute_capability
      (Synthetic.env (Synthetic.both
         [Synthetic.good 1 1 8 6; Synthetic.good 1 1 7 5]))
      (Synthetic.active LIBCUDART 0) Synthetic.blank_cc Synthetic.start
    = Done r st'
    /\ cc_err r = None
    /\ handle (Synthetic.active LIBCUDART 0) <> None
    /\ exists n w0 rs,
        cc_count
          (Synthetic.env (Synthetic.both
             [Synthetic.good 1 1 8 6; Synthetic.good 1 1 7 5]))
          (Synthetic.active LIBCUDART 0) (world Synthetic.start) n w0
        /\ fleet (cc_reading
                    (Synthetic.env (Synthetic.both
                       [Synthetic.good 1 1 8 6; Synthetic.good 1 1 7 5]))
                    (Synthetic.active LIBCUDART 0)) 0 w0 rs (world st')
        /\ List.length rs = Z.to_nat n
        /\ (major r, minor r) = Spec.reduce rs.
Proof.
  eexists. eexists. split; [vm_compute; reflexivity|].
  split; [reflexivity|].
  eapply (capability_success_is_complete
            (Synthetic.env (Synthetic.both
               [Synthetic.good 1 1 8 6; Synthetic.good 1 1 7 5]))
            (Synthetic.active LIBCUDART 0) Synthetic.blank_cc _
            Synthetic.start).
  - vm_compute. reflexivity.
  - reflexivity.
Defined.

(** ** Verbosity *)

Section Verbosity.

Context {W : Type} (env : Env W) (h : cuda_handle_t) (v : Z).

Lemma cudart_vram_loop_verbose (rem : nat) :
  forall i resp st,
    cudart_vram_loop env (set_verbose v h) rem i resp st
    = cudart_vram_loop env h rem i resp st.
Proof.
  induction rem as [|rem IH]; intros i resp st; [reflexivity|].
  cbn [cudart_vram_loop].
  change (cudaSetDevice (set_verbose v h)) with (cudaSetDevice h).
  change (cudaMemGetInfo (set_verbose v h)) with (cudaMemGetInfo h).
  unfold bind at 1 3. unfold call at 1 3.
  destruct (cudaSetDevice h) as [f|]; [|reflexivity].
  destruct (run_cudaSetDevice env f (to_int i) (world st)) as [status w1].
  destruct (negb (status =? CUDART_SUCCESS)); [reflexivity|].
  unfold bind at 1 2. unfold call at 1 2.
  destruct (cudaMemGetInfo h) as [g|]; [|reflexivity].
  destruct (run_cudaMemGetInfo env g _) as [[status' [m_free m_total]] w2].
  destruct (negb (status' =? CUDART_SUCCESS)); [reflexivity|].
  apply IH.
Qed.

Lemma cudart_cc_loop_verbose (rem : nat) :
  forall i resp st,
    cudart_cc_loop env (set_verbose v h) rem i resp st
    = cudart_cc_loop env h rem i resp st.
Proof.
  induction rem as [|rem IH]; intros i resp st; [reflexivity|].
  cbn [cudart_cc_loop].
  change (cudaSetDevice (set_verbose v h)) with (cudaSetDevice h).
  change (cudaDeviceGetAttribute (set_verbose v h))
    with (cudaDeviceGetAttribute h).
  unfold bind at 1 4. unfold call at 1 4.
  destruct (cudaSetDevice h) as [f|]; [|reflexivity].
  destruct (run_cudaSetDevice env f (to_int i) (world st)) as [status w1].
  destruct (negb (status =? CUDART_SUCCESS)); [reflexivity|].
  unfold bind at 1 3. unfold call at 1 3.
  destruct (cudaDeviceGetAttribute h) as [g|]; [|reflexivity].
  destruct (run_cudaDeviceGetAttribute env g _ _ _) as [[status1 c_major] w2].
  destruct (negb (status1 =? CUDART_SUCCESS)); [reflexivity|].
  unfold bind at 1 2. unfold call at 1 2.
  destruct (run_cudaDeviceGetAttribute env g _ _ _) as [[status2 c_minor] w3].
  destruct (negb (status2 =? CUDART_SUCCESS)); [reflexivity|].
  apply IH.
Qed.

Lemma nvml_cc_loop_verbose (rem : nat) :
  forall i resp st,
    nvml_cc_loop env (set_verbose v h) rem i resp st
    = nvml_cc_loop env h rem i resp st.
Proof.
  induction rem as [|rem IH]; intros i resp st; [reflexivity|].
  cbn [nvml_cc_loop].
  change (nvmlDeviceGetHandleByIndex (set_verbose v h))
    with (nvmlDeviceGetHandleByIndex h).
  change (nvmlDeviceGetCudaComputeCapability (set_verbose v h))
    with (nvmlDeviceGetCudaComputeCapability h).
  unfold bind at 1 3. unfold call at 1 3.
  destruct (nvmlDeviceGetHandleByIndex h) as [f|]; [|reflexivity].
  destruct (run_nvmlDeviceGetHandleByIndex env f _ _) as [[status device] w1].
  destruct (negb (status =? NVML_SUCCESS)); [reflexivity|].
  unfold bind at 1 2. unfold call at 1 2.
  destruct (nvmlDeviceGetCudaComputeCapability h) as [g|]; [|reflexivity].
  destruct (run_nvmlDeviceGetCudaComputeCapability env g _ _)
    as [[status' [c_major c_minor]] w2].
  destruct (negb (status' =? NVML_SUCCESS)); [reflexivity|].
  apply IH.
Qed.

End Verbosity.

(** X12. The verbosity of the handle changes nothing of what
    [cuda_compute_capability] does, on either backend, and nothing of what
    [cuda_check_vram] does unless the tag is [LIBNVIDIAML]: the same
    calls, the same result, the same final state. (On the management
    backend a verbose [cuda_check_vram] makes five more calls for each
    device.) *)
Theorem verbosity_is_inert {W : Type} (env : Env W) (h : cuda_handle_t)
    (v : Z) (rc : cuda_compute_capability_t) (rm : mem_info_t)
    (st : state W) :
  cuda_compute_capability env (set_verbose v h) rc st
    = cuda_compute_capability env h rc st
  /\ (lib_t h <> LIBNVIDIAML ->
      cuda_check_vram env (set_verbose v h) rm st
      = cuda_check_vram env h rm st).
Proof.
  split.
  - unfold cuda_compute_capability.
    change (handle (set_verbose v h)) with (handle h).
    change (lib_t (set_verbose v h)) with (lib_t h).
    change (nvmlDeviceGetCount_v2 (set_verbose v h))
      with (nvmlDeviceGetCount_v2 h).
    change (cudaGetDeviceCount (set_verbose v h)) with (cudaGetDeviceCount h).
    destruct (is_null (handle h)); [reflexivity|].
    destruct (lib_t h); [reflexivity | |]; unfold bind, call.
    + destruct (cudaGetDeviceCount h) as [f|]; [|reflexivity].
      destruct (run_cudaGetDeviceCount env f (world st)) as [[status c] w0].
      destruct (negb (status =? CUDART_SUCCESS)); [reflexivity|].
      apply cudart_cc_loop_verbose.
    + destruct (nvmlDeviceGetCount_v2 h) as [f|]; [|reflexivity].
      destruct (run_nvmlDeviceGetCount_v2 env f (world st)) as [[status c] w0].
      destruct (negb (status =? NVML_SUCCESS)); [reflexivity|].
      apply nvml_cc_loop_verbose.
  - intros Ht. unfold cuda_check_vram.
    change (handle (set_verbose v h)) with (handle h).
    change (lib_t (set_verbose v h)) with (lib_t h).
    change (cudaGetDeviceCount (set_verbose v h)) with (cudaGetDeviceCount h).
    destruct (is_null (handle h)); [reflexivity|].
    destruct (lib_t h); [reflexivity | | congruence]. unfold bind, call.
    destruct (cudaGetDeviceCount h) as [f|]; [|reflexivity].
    destruct (run_cudaGetDeviceCount env f (world st)) as [[status c] w0].
    destruct (negb (status =? CUDART_SUCCESS)); [reflexivity|].
    apply cudart_vram_loop_verbose.
Qed.

Lemma verbosity_is_inert_witness :
  cuda_compute_capability
    (Synthetic.env (Synthetic.both [Synthetic.good 1 1 8 6]))
    (set_verbose 1 (Synthetic.active LIBCUDART 0)) Synthetic.blank_cc
    Synthetic.start
  = cuda_compute_capability
      (Synthetic.env (Synthetic.both [Synthetic.good 1 1 8 6]))
      (Synthetic.active LIBCUDART 0) Synthetic.blank_cc Synthetic.start
  /\ cuda_check_vram
       (Synthetic.env (Synthetic.both [Synthetic.good 1 1 8 6]))
       (set_verbose 1 (Synthetic.active LIBCUDART 0)) Synthetic.blank_mem
       Synthetic.start
     = cuda_check_vram
         (Synthetic.env (Synthetic.both [Synthetic.good 1 1 8 6]))
         (Synthetic.active LIBCUDART 0) Synthetic.blank_mem Synthetic.start.
Proof.
  destruct (verbosity_is_inert
              (Synthetic.env (Synthetic.both [Synthetic.good 1 1 8 6]))
              (Synthetic.active LIBCUDART 0) 1 Synthetic.blank_cc
              Synthetic.blank_mem Synthetic.start) as [Hcc Hvram].
  split; [exact Hcc | apply Hvram; discriminate].
Defined.

(** ** From the library path to the sums *)

Lemma fleet_impl {W R : Type} (P Q : Z -> W -> R -> W -> Prop) :
  (forall i w r w', P i w r w' -> Q i w r w') ->
  forall i w rs w', fleet P i w rs w' -> fleet Q i w rs w'.
Proof.
  intros HPQ i w rs w' H.
  induction H as [i w | i w r w1 rs w2 Hr Hfl IH];
    [apply fleet_nil | eapply fleet_cons; eauto].
Qed.

(** A full run of [cuda_check_vram] over an answering fleet. *)
Lemma vram_run {W : Type} (env : Env W) (h : cuda_handle_t)
    (r0 : mem_info_t) (st : state W) (n : Z) (w0 w1 : W)
    (rs : list (Z * Z)) :
  handle h <> None ->
  vram_count env h (world st) n w0 ->
  fleet (vram_reading env h) 0 w0 rs w1 ->
  Z.of_nat (List.length rs) = n ->
  exists r st',
    cuda_check_vram env h r0 st = Done r st'
    /\ world st' = w1
    /\ mem_err r = None
    /\ count r = n
    /\ total r = Spec.sum_total rs mod 2 ^ 64
    /\ free r = Spec.sum_free rs mod 2 ^ 64.
Proof.
  intros Hh Hc Hfl Hn.
  destruct (check_vram_counted env h n w0 r0 st Hh Hc) as (Ht & st0 & Hw0 & E0).
  set (start := set_free 0 (set_total 0 (set_count n (set_mem_err None r0)))) in *.
  destruct (vram_loop_fleet env h 0 w0 w1 rs Hfl 0%nat start st0 Hw0)
    as (st1 & Hw1 & E1).
  rewrite Nat.add_0_r in E1.
  assert (Hlen : Z.to_nat n = List.length rs) by lia.
  rewrite E0, Hlen, E1, vram_loop_done by exact Ht.
  destruct (fold_add_reading_rest rs start) as [Hcount Herr].
  do 2 eexists. split; [reflexivity|]. split; [exact Hw1|].
  split; [now rewrite Herr|]. split; [now rewrite Hcount|]. split.
  - rewrite (fold_add_reading_total rs start 0) by reflexivity. reflexivity.
  - rewrite (fold_add_reading_free rs start 0) by reflexivity. reflexivity.
Qed.

(** X13. [cuda_init] and then [cuda_check_vram] on the handle it returns,
    told in terms of the loader alone. When the library opens, the four
    runtime names [cudaSetDevice], [cudaDriverGetVersion],
    [cudaGetDeviceCount] and [cudaMemGetInfo] resolve, device 0 can be
    selected, the count query answers [c] and every device answers, the
    pair of calls ends with [err] NULL in both results, the tag
    [LIBCUDART], [count] equal to [c] read as unsigned and the sums of the
    readings modulo 2^64, whatever else the library exports or lacks. *)
Theorem init_then_check_vram {W : Type} (env : Env W) (path : string)
    (resp : cuda_init_resp_t) (rm : mem_info_t) (st : state W)
    (lib f d fc fm : address) (w1 w2 w4 w5 : W) (c : Z)
    (rs : list (Z * Z)) :
  LOAD_LIBRARY env path (world st) = (Some lib, w1) ->
  LOAD_SYMBOL env (Some lib) "cudaSetDevice" w1 = Some f ->
  LOAD_SYMBOL env (Some lib) "cudaDriverGetVersion" w1 = Some d ->
  LOAD_SYMBOL env (Some lib) "cudaGetDeviceCount" w1 = Some fc ->
  LOAD_SYMBOL env (Some lib) "cudaMemGetInfo" w1 = Some fm ->
  run_cudaSetDevice env f 0 w1 = (CUDART_SUCCESS, w2) ->
  run_cudaGetDeviceCount env fc (snd (run_cudaDriverGetVersion env d w2))
    = ((CUDART_SUCCESS, c), w4) ->
  fleet (runtime_reading env f fm) 0 w4 rs w5 ->
  Z.of_nat (List.length rs) = to_uint c ->
  exists ri st1 r st2,
    cuda_init env path resp st = Done ri st1
    /\ init_err ri = None
    /\ lib_t (ch ri) = LIBCUDART
    /\ cuda_check_vram env (ch ri) rm st1 = Done r st2
    /\ world st2 = w5
    /\ mem_err r = None
    /\ count r = to_uint c
    /\ total r = Spec.sum_total rs mod 2 ^ 64
    /\ free r = Spec.sum_free rs mod 2 ^ 64.
Proof.
  intros Hopen Hf Hd Hfc Hfm Hsel Hcount Hfl Hn.
  destruct (runtime_init_run env path resp st lib f d w1 w2 Hopen Hf Hsel Hd)
    as (ri & st1 & Hinit & Herr & Hlib & Htag & Hload & Hw & _).
  pose proof (Hload F_cudaSetDevice) as Lset.
  pose proof (Hload F_cudaGetDeviceCount) as Lcount.
  pose proof (Hload F_cudaMemGetInfo) as Lmem.
  cbn [load] in Lset, Lcount, Lmem.
  change (symbol F_cudaSetDevice) with "cudaSetDevice" in Lset.
  change (symbol F_cudaGetDeviceCount) with "cudaGetDeviceCount" in Lcount.
  change (symbol F_cudaMemGetInfo) with "cudaMemGetInfo" in Lmem.
  rewrite Hf in Lset. rewrite Hfc in Lcount. rewrite Hfm in Lmem.
  assert (Hvalid : handle (ch ri) <> None) by (rewrite Hlib; discriminate).
  assert (Hc : vram_count env (ch ri) (world st1) (to_uint c) w4).
  { rewrite Hw. eapply vram_count_cudart; eassumption. }
  assert (Hfl' : fleet (vram_reading env (ch ri)) 0 w4 rs w5).
  { revert Hfl. apply fleet_impl.
    intros i w [r_total r_free] w' (wa & Ha & Hb). cbn [fst snd] in Hb.
    eapply vram_reading_cudart; eassumption. }
  destruct (vram_run env (ch ri) rm st1 (to_uint c) w4 w5 rs Hvalid Hc Hfl' Hn)
    as (r & st2 & Hrun & Hw2 & He & Hcnt & Htot & Hfree).
  exists ri, st1, r, st2. repeat split; assumption.
Qed.

Lemma init_then_check_vram_witness :
  exists ri st1 r st2,
    cuda_init (Synthetic.env lacks_nvmlInit) "libcudart.so"
              (Synthetic.blank_init 0) Synthetic.start = Done ri st1
    /\ init_err ri = None
    /\ lib_t (ch ri) = LIBCUDART
    /\ cuda_check_vram (Synthetic.env lacks_nvmlInit) (ch ri)
         Synthetic.blank_mem st1 = Done r st2
    /\ world st2 = 0
    /\ mem_err r = None
    /\ count r = to_uint 1
    /\ total r = Spec.sum_total [(1, 1)] mod 2 ^ 64
    /\ free r = Spec.sum_free [(1, 1)] mod 2 ^ 64.
Proof.
  apply (init_then_check_vram (Synthetic.env lacks_nvmlInit) "libcudart.so"
           (Synthetic.blank_init 0) Synthetic.blank_mem Synthetic.start
           1%positive 7%positive 7%positive 7%positive 7%positive
           0 0 0 0 1 [(1, 1)]); try reflexivity.
  eapply fleet_cons; [|apply fleet_nil].
  exists 0. split; reflexivity.
Defined.

(** ** The error field is cleared first *)

(** C9. What the caller left in [err] never reaches the result of a call
    that succeeds. Whatever the result structure holds on entry, stale
    [err] included: [cuda_init] that activates the runtime backend,
    [cuda_check_vram] and [cuda_compute_capability] on a valid handle
    whose backend answers the count and every device, each return with
    [err] NULL. And each of the three runs from a stale [err] exactly as
    from a NULL one, failing runs included: the field is cleared before
    anything is read. *)
Theorem stale_err_never_survives {W : Type} (env : Env W) :
  (forall path (ri : cuda_init_resp_t) st lib f d w1 w2,
      LOAD_LIBRARY env path (world st) = (Some lib, w1) ->
      LOAD_SYMBOL env (Some lib) "cudaSetDevice" w1 = Some f ->
      run_cudaSetDevice env f 0 w1 = (CUDART_SUCCESS, w2) ->
      LOAD_SYMBOL env (Some lib) "cudaDriverGetVersion" w1 = Some d ->
      exists r st',
        cuda_init env path ri st = Done r st' /\ init_err r = None)
  /\ (forall h (rm : mem_info_t) st n w0 w1 rs,
         handle h <> None ->
         vram_count env h (world st) n w0 ->
         fleet (vram_reading env h) 0 w0 rs w1 ->
         Z.of_nat (List.length rs) = n ->
         exists r st',
           cuda_check_vram env h rm st = Done r st' /\ mem_err r = None)
  /\ (forall h (rc : cuda_compute_capability_t) st n w0 w1 rs,
         handle h <> None ->
         cc_count env h (world st) n w0 ->
         fleet (cc_reading env h) 0 w0 rs w1 ->
         List.length rs = Z.to_nat n ->
         exists r st',
           cuda_compute_capability env h rc st = Done r st'
           /\ cc_err r = None)
  /\ (forall path h ri rm rc (stale : option string) st,
         cuda_init env path (set_init_err stale ri) st
           = cuda_init env path (set_init_err None ri) st
         /\ cuda_check_vram env h (set_mem_err stale rm) st
            = cuda_check_vram env h (set_mem_err None rm) st
         /\ cuda_compute_capability env h (set_cc_err stale rc) st
            = cuda_compute_capability env h (set_cc_err None rc) st).
Proof.
  split; [|split; [|split]].
  - intros path ri st lib f d w1 w2 Hopen Hf Hrun Hd.
    destruct (runtime_init_run env path ri st lib f d w1 w2 Hopen Hf Hrun Hd)
      as (r & st' & Hinit & Herr & _).
    exists r, st'. split; assumption.
  - intros h rm st n w0 w1 rs Hh Hc Hfl Hn.
    destruct (vram_run env h rm st n w0 w1 rs Hh Hc Hfl Hn)
      as (r & st' & Hrun & _ & Herr & _).
    exists r, st'. split; assumption.
  - intros h rc st n w0 w1 rs Hh Hc Hfl Hn.
    destruct (capability_run env h rc st n w0 w1 rs Hh Hc Hfl Hn)
      as (r & st' & Hrun & Herr & _).
    exists r, st'. split; assumption.
  - intros path h ri rm rc stale st. apply stale_err_ignored.
Qed.

Lemma stale_err_never_survives_witness :
  (exists r st',
     cuda_init (Synthetic.env (Synthetic.both [Synthetic.good 1 1 8 6]))
               "libcudart.so"
               {| init_err := Some "stale"; ch := Synthetic.blank_handle 0 |}
               Synthetic.start = Done r st'
     /\ init_err r = None)
  /\ (exists r st',
        cuda_check_vram
          (Synthetic.env (Synthetic.both [Synthetic.good 8 2 8 6]))
          (Synthetic.active LIBCUDART 0)
          {| total := 5; free := 5; count := 5; mem_err := Some "stale" |}
          Synthetic.start = Done r st'
        /\ mem_err r = None)
  /\ (exists r st',
        cuda_compute_capability
          (Synthetic.env (Synthetic.both [Synthetic.good 8 2 8 6]))
          (Synthetic.active LIBNVIDIAML 0)
          {| cc_err := Some "stale"; major := 5; minor := 5 |}
          Synthetic.start = Done r st'
        /\ cc_err r = None).
Proof.
  split; [|split].
  - apply (proj1 (stale_err_never_survives
                    (Synthetic.env (Synthetic.both [Synthetic.good 1 1 8 6])))
             "libcudart.so" _ Synthetic.start
             1%positive 7%positive 7%positive 0 0); reflexivity.
  - apply (proj1 (proj2 (stale_err_never_survives
                    (Synthetic.env (Synthetic.both [Synthetic.good 8 2 8 6]))))
             (Synthetic.active LIBCUDART 0) _ Synthetic.start 1 0 0 [(8, 2)]).
    + discriminate.
    + apply (vram_count_cudart _ _ _ 7%positive 1 0); reflexivity.
    + eapply fleet_cons; [|apply fleet_nil].
      apply (vram_reading_cudart _ _ _ _ 7%positive 7%positive 0 0);
        reflexivity.
    + reflexivity.
  - apply (proj1 (proj2 (proj2 (stale_err_never_survives
                    (Synthetic.env (Synthetic.both [Synthetic.good 8 2 8 6])))))
             (Synthetic.active LIBNVIDIAML 0) _ Synthetic.start 1 0 0 [(8, 6)]).
    + discriminate.
    + apply (cc_count_nvml _ _ _ 7%positive 1 0); reflexivity.
    + eapply fleet_cons; [|apply fleet_nil].
      apply (cc_reading_nvml _ _ _ _ 7%positive 7%positive 0 0 0); reflexivity.
    + reflexivity.
Defined.
